(** * Assessment platform (app_finale.py): scoring, history and session model

    A shallow embedding of the Streamlit application in [app_finale.py].
    The relational store is a record of tables (lists of rows, in table
    order); a script run is a computation over a [World] made of the
    committed store, the working copy of the open connection, the Streamlit
    session state, the widgets emitted so far and a statement counter used
    to inject store failures. *)

From Stdlib Require Import ZArith String Lia.
From stdpp Require Import gmap strings list sorting.

Open Scope string_scope.
Open Scope Z_scope.
Open Scope list_scope.

(** ** Tables *)

Record User := {
  user_id : Z;
  email : string;
  password_hash : string;
  is_admin : bool;
  hide_scores : bool;
  last_login : option Z }.

Record UserProfile := {
  profile_user_id : Z;
  full_name : option string;
  age : option Z;
  gender : option string;
  years_service : option Z;
  department : option string;
  city : option string;
  updated_at : option Z }.

Record AssessmentType := {
  assessment_type_id : Z;
  code : string;
  title : string }.

Record AssessmentQuestion := {
  question_id : Z;
  question_type_id : Z;
  question_order : Z;
  question_text : string }.

Record ResponseOption := {
  option_id : Z;
  option_type_id : Z;
  option_text : string;
  option_value : Z;
  option_order : Z }.

Record SeverityLevel := {
  severity_id : Z;
  severity_type_id : Z;
  min_score : Z;
  max_score : Z;
  severity_label : string }.

Record AssessmentResponse := {
  response_id : Z;
  response_user_id : Z;
  response_type_id : Z;
  total_score : Z;
  response_severity_id : Z;
  created_at : Z }.

Record ResponseDetail := {
  detail_response_id : Z;
  detail_question_id : Z;
  selected_option_id : Z;
  response_value : Z }.

Record Database := {
  users : list User;
  user_profiles : list UserProfile;
  assessment_types : list AssessmentType;
  assessment_questions : list AssessmentQuestion;
  response_options : list ResponseOption;
  severity_levels : list SeverityLevel;
  assessment_responses : list AssessmentResponse;
  response_details : list ResponseDetail }.

(** ** Rows handed to the presentation code *)

(** One object of the [json_agg] column of the history query. *)
Record DetailJson := {
  dj_question : string;
  dj_answer : string;
  dj_value : Z }.

(** A row of [get_user_assessment_history] (a [DictRow]). *)
Record HistoryRow := {
  h_response_id : Z;
  assessment_type : string;
  assessment_title : string;
  h_total_score : Z;
  h_severity_label : string;
  h_created_at : Z;
  h_response_details : list DetailJson }.

(** One object of the [options] column of [get_assessment_questions]. *)
Record OptionJson := {
  oj_option_id : Z;
  oj_text : string;
  oj_value : Z;
  oj_order : Z }.

Record QuestionRow := {
  qr_question_id : Z;
  qr_question_order : Z;
  qr_question_text : string;
  qr_options : option (list OptionJson) }.

(** A submitted answer: [(question_id, option_id, value)]. *)
Definition Response : Type := Z * Z * Z.

(** ** Python values kept in [st.session_state] *)

Inductive Value :=
| VNone
| VBool (b : bool)
| VInt (z : Z)
| VStr (s : string)
| VRow (r : HistoryRow).

(** Truth value of an object in a condition. *)
Definition truthy (v : Value) : bool :=
  match v with
  | VNone => false
  | VBool b => b
  | VInt z => negb (Z.eqb z 0)
  | VStr s => negb (String.eqb s "")
  | VRow _ => true
  end.

(** ** Exceptions and emitted widgets *)

Inductive DbError := OperationalError | IntegrityError | DataError.

Inductive Exn :=
| TypeError            (* subscripting or converting [None] *)
| ValueError           (* [list.index] of a missing element *)
| KeyError             (* a missing dictionary key *)
| AttributeError       (* a missing [st.session_state] attribute *)
| Psycopg2Error (e : DbError)
| RerunException.      (* raised by [st.rerun()] *)

(** [except Exception] does not intercept the script-control exception. *)
Definition is_Exception (e : Exn) : bool :=
  match e with RerunException => false | _ => true end.

Definition is_IntegrityError (e : Exn) : bool :=
  match e with Psycopg2Error IntegrityError => true | _ => false end.

(** Pieces of a formatted text (f-strings, [str], [strftime]). *)
Inductive Frag :=
| FStr (s : string)
| FInt (z : Z)                      (* [str] of an integer *)
| FDatetime (t : Z)                 (* [str] of a timestamp *)
| FStrftime (fmt : string) (t : Z)  (* [t.strftime(fmt)] *)
| FExn (e : Exn).                   (* [str(e)] *)

Definition Text : Type := list Frag.

Inductive WidgetKey :=
| KeyNone
| KeyStr (s : string)
| KeyQuestion (question : Z)           (* f"question_{question_id}" *)
| KeyViewResponse (response : Z)       (* f"view_response_{response_id}" *)
| KeyQuestionnaireForm (atype : Z).    (* f"questionnaire_form_{id}" *)

Inductive Widget :=
| StTitle (t : Text)
| StHeader (t : Text)
| StSubheader (t : Text)
| StWrite (t : Text)
| StInfo (t : Text)
| StSuccess (t : Text)
| StError (t : Text)
| StForm (key : WidgetKey)
| StTextInput (label : string) (value : string) (disabled password : bool)
| StNumberInput (label : string) (lo hi value : Z)
| StSelectbox (label : string) (options : list string) (index : nat)
| StRadio (label : string) (choices : list string) (key : WidgetKey)
| StFormSubmitButton (label : string)
| StButton (label : string)
| StColumns (n : nat)
| StColWrite (col : nat) (t : Text)
| StColButton (col : nat) (label : string) (key : WidgetKey)
| StPlotlyChart (r : list Z) (theta : list string)
| SidebarHeader (t : Text)
| SidebarMarkdown (t : Text)
| SidebarCheckbox (label : string) (value : bool) (key : WidgetKey)
| SidebarRadio (label : string) (options : list string)
| SidebarSelectbox (label : string) (options : list string)
| SidebarButton (label : string).

(** ** The state of a script run *)

Record World := {
  w_db : Database;                 (* committed store *)
  w_conn : Database;               (* working copy of the open connection *)
  w_session : gmap string Value;   (* st.session_state *)
  w_out : list Widget;             (* widgets emitted, oldest first *)
  w_stmt : nat }.                  (* statements issued so far *)

(** The world at the start of a run of the script: nothing emitted, no
    statement issued, no connection open. *)
Definition initial_world (db : Database) (session : gmap string Value)
    : World :=
  {| w_db := db; w_conn := db; w_session := session; w_out := [];
     w_stmt := 0 |}.

Inductive Result (A : Type) :=
| Ok (a : A)
| Raise (e : Exn).
Arguments Ok {A} a.
Arguments Raise {A} e.

Definition App (A : Type) : Type := World → Result A * World.

Definition ret {A} (a : A) : App A := λ w, (Ok a, w).

Definition bind {A B} (m : App A) (k : A → App B) : App B :=
  λ w, match m w with
       | (Ok a, w') => k a w'
       | (Raise e, w') => (Raise e, w')
       end.

Definition raise {A} (e : Exn) : App A := λ w, (Raise e, w).

Notation "x <- c1 ;; c2" := (bind c1 (λ x, c2))
  (at level 100, c1 at next level, right associativity).
Notation "c1 ;; c2" := (bind c1 (λ _, c2))
  (at level 100, right associativity).

(** [try: m except <catches> as e: h e]. *)
Definition try_except {A} (m : App A) (catches : Exn → bool)
    (h : Exn → App A) : App A :=
  λ w, match m w with
       | (Raise e, w') => if catches e then h e w' else (Raise e, w')
       | r => r
       end.

(** [for x in l: body x]. *)
Fixpoint for_each {A} (l : list A) (body : A → App unit) : App unit :=
  match l with
  | [] => ret tt
  | x :: l' => body x ;; for_each l' body
  end.

Definition emit (x : Widget) : App unit :=
  λ w, (Ok tt, {| w_db := w_db w; w_conn := w_conn w;
                  w_session := w_session w; w_out := w_out w ++ [x];
                  w_stmt := w_stmt w |}).

Definition set_session (s : gmap string Value) (w : World) : World :=
  {| w_db := w_db w; w_conn := w_conn w; w_session := s;
     w_out := w_out w; w_stmt := w_stmt w |}.

(** [st.session_state.get(k)]; [None] when the key is absent, which is how
    [k in st.session_state] and [hasattr] are answered. *)
Definition session_lookup (k : string) : App (option Value) :=
  λ w, (Ok (w_session w !! k), w).

(** [list(st.session_state.keys())]. *)
Definition session_keys : App (list string) :=
  λ w, (Ok (map_to_list (w_session w)).*1, w).

(** [st.session_state[k] = v]. *)
Definition session_set (k : string) (v : Value) : App unit :=
  λ w, (Ok tt, set_session (<[k := v]> (w_session w)) w).

(** [del st.session_state[k]]. *)
Definition session_del (k : string) : App unit :=
  λ w, (Ok tt, set_session (delete k (w_session w)) w).

(** [getattr(st.session_state, k, default)]. *)
Definition session_getattr (k : string) (dflt : Value) : App Value :=
  v <- session_lookup k ;; ret (default dflt v).

Definition set_conn (db : Database) (w : World) : World :=
  {| w_db := w_db w; w_conn := db; w_session := w_session w;
     w_out := w_out w; w_stmt := w_stmt w |}.

Definition set_db (db : Database) (w : World) : World :=
  {| w_db := db; w_conn := w_conn w; w_session := w_session w;
     w_out := w_out w; w_stmt := w_stmt w |}.

Definition set_stmt (n : nat) (w : World) : World :=
  {| w_db := w_db w; w_conn := w_conn w; w_session := w_session w;
     w_out := w_out w; w_stmt := n |}.

(** [row[0]] / [row[key]] on the result of [fetchone()]: [None] is not
    subscriptable. *)
Definition subscript {A} (row : option A) : App A :=
  match row with
  | Some a => ret a
  | None => raise TypeError
  end.

(** [sum(r[2] for r in responses)]. *)
Definition sum_values (responses : list Response) : Z :=
  foldl (λ acc r, acc + r.2) 0 responses.

(** ** Table updates and queries (the SQL text of each statement) *)

Definition with_assessment_responses (l : list AssessmentResponse)
    (db : Database) : Database :=
  {| users := users db; user_profiles := user_profiles db;
     assessment_types := assessment_types db;
     assessment_questions := assessment_questions db;
     response_options := response_options db;
     severity_levels := severity_levels db;
     assessment_responses := l;
     response_details := response_details db |}.

Definition with_response_details (l : list ResponseDetail)
    (db : Database) : Database :=
  {| users := users db; user_profiles := user_profiles db;
     assessment_types := assessment_types db;
     assessment_questions := assessment_questions db;
     response_options := response_options db;
     severity_levels := severity_levels db;
     assessment_responses := assessment_responses db;
     response_details := l |}.

Definition with_users (l : list User) (db : Database) : Database :=
  {| users := l; user_profiles := user_profiles db;
     assessment_types := assessment_types db;
     assessment_questions := assessment_questions db;
     response_options := response_options db;
     severity_levels := severity_levels db;
     assessment_responses := assessment_responses db;
     response_details := response_details db |}.

Definition with_user_profiles (l : list UserProfile) (db : Database)
    : Database :=
  {| users := users db; user_profiles := l;
     assessment_types := assessment_types db;
     assessment_questions := assessment_questions db;
     response_options := response_options db;
     severity_levels := severity_levels db;
     assessment_responses := assessment_responses db;
     response_details := response_details db |}.

(** A statement that only reads. *)
Definition query {A} (q : Database → A) : Database → Database * A :=
  λ db, (db, q db).

(** [SELECT code FROM assessment_types WHERE assessment_type_id = %s],
    then [fetchone()]. *)
Definition select_code (atype : Z) (db : Database) : option string :=
  code <$> head (filter (λ t, assessment_type_id t = atype)
                        (assessment_types db)).

(** [SELECT question_order FROM assessment_questions WHERE question_id = %s],
    then [fetchone()]. *)
Definition select_question_order (qid : Z) (db : Database) : option Z :=
  question_order <$> head (filter (λ q, question_id q = qid)
                                  (assessment_questions db)).

(** The bands selected by
    [WHERE assessment_type_id = %s AND %s BETWEEN min_score AND max_score]. *)
Definition matching_bands (atype score : Z) (db : Database)
    : list SeverityLevel :=
  filter (λ s, severity_type_id s = atype ∧
               min_score s ≤ score ∧ score ≤ max_score s)
         (severity_levels db).

(** [SELECT severity_id FROM severity_levels WHERE ...], then [fetchone()]. *)
Definition select_severity (atype score : Z) (db : Database) : option Z :=
  severity_id <$> head (matching_bands atype score db).

(** [SELECT title FROM assessment_types WHERE assessment_type_id = %s]. *)
Definition select_title (atype : Z) (db : Database) : option string :=
  title <$> head (filter (λ t, assessment_type_id t = atype)
                         (assessment_types db)).

Definition insert_response_detail (rid qid oid value : Z) (db : Database)
    : Database * unit :=
  (with_response_details
     (response_details db ++
        [{| detail_response_id := rid; detail_question_id := qid;
            selected_option_id := oid; response_value := value |}]) db, tt).

Definition reverse_scored_questions : list Z := [4; 7].

(** ** Ordering, grouping and dictionaries *)

(** [ORDER BY key] (ascending); rows with equal keys keep their order. *)
Fixpoint insert_by {A} (key : A → Z) (r : A) (l : list A) : list A :=
  match l with
  | [] => [r]
  | x :: l' =>
      if decide (key r ≤ key x) then r :: x :: l' else x :: insert_by key r l'
  end.

Definition order_by {A} (key : A → Z) (l : list A) : list A :=
  foldr (insert_by key) [] l.

(** [ORDER BY key DESC]. *)
Definition order_by_desc {A} (key : A → Z) (l : list A) : list A :=
  order_by (λ x, - key x) l.

(** A Python [dict]: keys in insertion order; assigning to a key that is
    present replaces its value in place. *)
Fixpoint dict_set {K V} `{EqDecision K} (k : K) (v : V) (d : list (K * V))
    : list (K * V) :=
  match d with
  | [] => [(k, v)]
  | (k', v') :: d' =>
      if decide (k = k') then (k, v) :: d' else (k', v') :: dict_set k v d'
  end.

Fixpoint dict_get {K V} `{EqDecision K} (k : K) (d : list (K * V))
    : option V :=
  match d with
  | [] => None
  | (k', v') :: d' => if decide (k = k') then Some v' else dict_get k d'
  end.

Definition dict_keys {K V} (d : list (K * V)) : list K := d.*1.
Definition dict_values {K V} (d : list (K * V)) : list V := d.*2.

(** [all(values)]. *)
Definition all (l : list bool) : bool := forallb id l.

(** ** Read-only queries *)

(** [SELECT is_admin, hide_scores FROM users WHERE user_id = %s]. *)
Definition select_user_settings (uid : Z) (db : Database)
    : option (bool * bool) :=
  (λ u, (is_admin u, hide_scores u)) <$>
    head (filter (λ u, user_id u = uid) (users db)).

(** [SELECT user_id, is_admin FROM users
     WHERE email = %s AND password_hash = %s]. *)
Definition select_login (mail hash : string) (db : Database)
    : option (Z * bool) :=
  (λ u, (user_id u, is_admin u)) <$>
    head (filter (λ u, email u = mail ∧ password_hash u = hash) (users db)).

(** [SELECT u.email, p.* FROM users u JOIN user_profiles p
     ON u.user_id = p.user_id WHERE u.user_id = %s]. *)
Definition select_user_profile (uid : Z) (db : Database)
    : option (string * UserProfile) :=
  head (u ← filter (λ u, user_id u = uid) (users db);
        p ← filter (λ p, profile_user_id p = user_id u) (user_profiles db);
        [(email u, p)]).

(** [SELECT * FROM assessment_types ORDER BY assessment_type_id]. *)
Definition select_assessment_types (db : Database) : list AssessmentType :=
  order_by assessment_type_id (assessment_types db).

Definition option_json (o : ResponseOption) : OptionJson :=
  {| oj_option_id := option_id o; oj_text := option_text o;
     oj_value := option_value o; oj_order := option_order o |}.

(** The query of [get_assessment_questions]: every question of the type is
    joined with the options of its assessment type; a question without
    options has no row; the options are aggregated in [option_order].
    ([question_id] is the key of its table, as [GROUP BY q.question_id]
    under [SELECT q.*] requires: each question is a group.) *)
Definition select_assessment_questions (atype : Z) (db : Database)
    : list QuestionRow :=
  order_by qr_question_order
    (q ← filter (λ q, question_type_id q = atype) (assessment_questions db);
     let os := filter (λ o, option_type_id o = question_type_id q)
                      (response_options db) in
     match os with
     | [] => []
     | _ =>
         [{| qr_question_id := question_id q;
             qr_question_order := question_order q;
             qr_question_text := question_text q;
             qr_options :=
               Some (order_by oj_order (option_json <$> os)) |}]
     end).

(** The grouping columns of the history query. *)
Definition HistoryKey : Type := Z * string * string * Z * string * Z.

Definition history_row (g : HistoryKey * list DetailJson) : HistoryRow :=
  let '(rid, acode, atitle, score, label, created, details) := g in
  {| h_response_id := rid; assessment_type := acode;
     assessment_title := atitle; h_total_score := score;
     h_severity_label := label; h_created_at := created;
     h_response_details := details |}.

(** The rows of [FROM assessment_responses ar JOIN ... WHERE ar.user_id = %s]
    before grouping: the grouping columns and the aggregated object. *)
Definition history_join (uid : Z) (db : Database)
    : list (HistoryKey * DetailJson) :=
  ar ← filter (λ ar, response_user_id ar = uid) (assessment_responses db);
  aty ← filter (λ t, assessment_type_id t = response_type_id ar)
              (assessment_types db);
  sl ← filter (λ s, severity_id s = response_severity_id ar)
              (severity_levels db);
  rd ← filter (λ d, detail_response_id d = response_id ar)
              (response_details db);
  aq ← filter (λ q, question_id q = detail_question_id rd)
              (assessment_questions db);
  ro ← filter (λ o, option_id o = selected_option_id rd)
              (response_options db);
  [((response_id ar, code aty, title aty, total_score ar,
     severity_label sl, created_at ar),
    {| dj_question := question_text aq; dj_answer := option_text ro;
       dj_value := response_value rd |})].

(** [GROUP BY] with [json_agg]: one group per distinct key, in order of
    first appearance, collecting the objects of its rows. *)
Fixpoint add_to_group (k : HistoryKey) (d : DetailJson)
    (groups : list (HistoryKey * list DetailJson))
    : list (HistoryKey * list DetailJson) :=
  match groups with
  | [] => [(k, [d])]
  | (k', ds) :: groups' =>
      if decide (k = k') then (k', ds ++ [d]) :: groups'
      else (k', ds) :: add_to_group k d groups'
  end.

Definition group_by_key (rows : list (HistoryKey * DetailJson))
    : list (HistoryKey * list DetailJson) :=
  foldl (λ groups r, add_to_group r.1 r.2 groups) [] rows.

(** The query of [get_user_assessment_history], with [fetchall()]. *)
Definition select_history (uid : Z) (db : Database) : list HistoryRow :=
  order_by_desc h_created_at
    (history_row <$> group_by_key (history_join uid db)).

(** [row[key]] on a history row: the columns of the [SELECT] list. *)
Definition history_row_get (key : string) (r : HistoryRow) : option Value :=
  if String.eqb key "response_id" then Some (VInt (h_response_id r))
  else if String.eqb key "assessment_type" then Some (VStr (assessment_type r))
  else if String.eqb key "assessment_title"
  then Some (VStr (assessment_title r))
  else if String.eqb key "total_score" then Some (VInt (h_total_score r))
  else if String.eqb key "severity_label"
  then Some (VStr (h_severity_label r))
  else if String.eqb key "created_at" then Some (VInt (h_created_at r))
  else None.

(** ** Updates *)

(** [UPDATE users SET hide_scores = %s WHERE user_id = %s]. *)
Definition update_hide_scores (uid : Z) (hide : bool) (db : Database)
    : Database * unit :=
  (with_users
     ((λ u, if decide (user_id u = uid)
            then {| user_id := user_id u; email := email u;
                    password_hash := password_hash u;
                    is_admin := is_admin u; hide_scores := hide;
                    last_login := last_login u |}
            else u) <$> users db) db, tt).

(** [UPDATE users SET last_login = CURRENT_TIMESTAMP WHERE user_id = %s]. *)
Definition update_last_login (uid t : Z) (db : Database) : Database * unit :=
  (with_users
     ((λ u, if decide (user_id u = uid)
            then {| user_id := user_id u; email := email u;
                    password_hash := password_hash u;
                    is_admin := is_admin u; hide_scores := hide_scores u;
                    last_login := Some t |}
            else u) <$> users db) db, tt).

(** [UPDATE user_profiles SET full_name = %s, ..., updated_at =
     CURRENT_TIMESTAMP WHERE user_id = %s]. *)
Definition update_profile_row (uid : Z) (name : string) (a : Z)
    (g : string) (years : Z) (dept town : string) (t : Z) (db : Database)
    : Database * unit :=
  (with_user_profiles
     ((λ p, if decide (profile_user_id p = uid)
            then {| profile_user_id := profile_user_id p;
                    full_name := Some name; age := Some a; gender := Some g;
                    years_service := Some years; department := Some dept;
                    city := Some town; updated_at := Some t |}
            else p) <$> user_profiles db) db, tt).

(** [INSERT INTO user_profiles (user_id, department, city) VALUES ...]. *)
Definition insert_user_profile (uid : Z) (dept town : string)
    (db : Database) : Database * unit :=
  (with_user_profiles
     (user_profiles db ++
        [{| profile_user_id := uid; full_name := None; age := None;
            gender := None; years_service := None; department := Some dept;
            city := Some town; updated_at := None |}]) db, tt).

(** ** Widget state sent by the browser for one run *)

Record Inputs := {
  in_auth_option : nat;             (* "Choose an option:" *)
  in_text : string → string;        (* text inputs, by label *)
  in_number : string → Z;           (* number inputs, by label *)
  in_gender : nat;                  (* "Gender" *)
  in_form_submit : string → bool;   (* form submit buttons, by label *)
  in_admin_view : bool;             (* the "Admin View" checkbox *)
  in_main_menu : nat;               (* "Main Menu" *)
  in_select_assessment : nat;       (* "Select Assessment" *)
  in_question : Z → nat;            (* the radio of each question *)
  in_view_response : Z → bool;      (* "View Responses", by response *)
  in_button : string → bool }.      (* "Close" and "Logout" *)

(** A radio or select box returns the chosen element of its options; the
    first one unless the browser says otherwise. *)
Definition chosen {A} (options : list A) (index : nat) (first : A) : A :=
  default (default first (head options)) (options !! index).

(** [==] between objects ([True == 1] holds). *)
Definition py_eq (a b : Value) : bool :=
  match a, b with
  | VNone, VNone => true
  | VBool x, VBool y => bool_decide (x = y)
  | VBool x, VInt y | VInt y, VBool x => Z.eqb y (if x then 1 else 0)
  | VInt x, VInt y => Z.eqb x y
  | VStr x, VStr y => String.eqb x y
  | VRow x, VRow y =>
      bool_decide
        ((h_response_id x, assessment_type x, assessment_title x,
          h_total_score x, h_severity_label x, h_created_at x)
         = (h_response_id y, assessment_type y, assessment_title y,
            h_total_score y, h_severity_label y, h_created_at y))
      && bool_decide
           ((λ d, (dj_question d, dj_answer d, dj_value d)) <$>
              h_response_details x
            = (λ d, (dj_question d, dj_answer d, dj_value d)) <$>
                h_response_details y)
  | _, _ => false
  end.

(** What the script takes from its environment: the digest function, the
    store's failures, its clock and the keys it assigns to new rows
    ([schema.sql] is not part of the sources). *)
Record Env := {
  sha256_hexdigest : string → string;   (* hashlib.sha256(..).hexdigest() *)
  db_fault : nat → option DbError;      (* failure of the n-th statement *)
  now : Z;                              (* CURRENT_TIMESTAMP *)
  new_response_id : list AssessmentResponse → Z;
  new_user_id : list User → Z }.

Section Application.

Variable env : Env.

(** *** Connections and cursors *)

Definition connect : App unit := λ w, (Ok tt, set_conn (w_db w) w).

(** Uncommitted work of a closed connection is discarded. *)
Definition conn_close (w : World) : World := set_conn (w_db w) w.

(** [with get_db_connection() as conn: body]. *)
Definition get_db_connection {A} (body : App A) : App A :=
  connect ;; λ w, let '(r, w') := body w in (r, conn_close w').

Definition statement : App unit :=
  λ w, let w' := set_stmt (S (w_stmt w)) w in
       match db_fault env (w_stmt w) with
       | Some e => (Raise (Psycopg2Error e), w')
       | None => (Ok tt, w')
       end.

(** [cur.execute(sql, args)] together with the fetch that follows it. *)
Definition cur_execute {A} (sql : Database → Database * A) : App A :=
  statement ;;
  λ w, let '(db', a) := sql (w_conn w) in (Ok a, set_conn db' w).

Definition conn_commit : App unit :=
  statement ;; λ w, (Ok tt, set_db (w_conn w) w).

Definition conn_rollback : App unit :=
  λ w, (Ok tt, set_conn (w_db w) w).

(** [INSERT INTO assessment_responses ... RETURNING response_id]. *)
Definition insert_assessment_response (uid atype score sev : Z)
    (db : Database) : Database * option Z :=
  let rid := new_response_id env (assessment_responses db) in
  (with_assessment_responses
     (assessment_responses db ++
        [{| response_id := rid; response_user_id := uid;
            response_type_id := atype; total_score := score;
            response_severity_id := sev; created_at := now env |}]) db,
   Some rid).

(** *** [save_assessment_response] *)

(** The loop over [responses] of the reverse-scoring branch. *)
Fixpoint adjust_responses (responses adjusted_responses : list Response)
    : App (list Response) :=
  match responses with
  | [] => ret adjusted_responses
  | response :: rest =>
      let '(question_id, option_id, value) := response in
      row <- cur_execute (query (select_question_order question_id)) ;;
      question_order <- subscript row ;;
      if bool_decide (question_order ∈ reverse_scored_questions)
      then
        let reversed_value := 6 - value in
        adjust_responses rest
          (adjusted_responses ++ [(question_id, option_id, reversed_value)])
      else adjust_responses rest (adjusted_responses ++ [response])
  end.

(** The suite of the [try] statement. *)
Definition save_transaction (user_id assessment_type_id : Z)
    (responses : list Response) (total_score : Z) : App bool :=
       (row <- cur_execute (query (select_code assessment_type_id)) ;;
        assessment_code <- subscript row ;;
        scored <-
          (if String.eqb assessment_code "RELATIONSHIP"
           then
             adjusted_responses <- adjust_responses responses [] ;;
             ret (adjusted_responses, sum_values adjusted_responses)
           else ret (responses, total_score)) ;;
        let '(responses, total_score) := scored in
        row <- cur_execute
                 (query (select_severity assessment_type_id total_score)) ;;
        severity_id <- subscript row ;;
        row <- cur_execute
                 (insert_assessment_response user_id assessment_type_id
                    total_score severity_id) ;;
        response_id <- subscript row ;;
        for_each responses
          (λ '(question_id, option_id, value),
             cur_execute (insert_response_detail response_id question_id
                            option_id value)) ;;
        conn_commit ;;
        ret true).

Definition save_assessment_response (user_id assessment_type_id : Z)
    (responses : list Response) (total_score : Z) : App bool :=
  get_db_connection
    (try_except
       (save_transaction user_id assessment_type_id responses total_score)
       is_Exception
       (λ e,
          conn_rollback ;;
          emit (StError [FStr "Error saving assessment: "; FExn e]) ;;
          ret false)).


(** *** Session helpers *)

(** [st.session_state.<k>] *)
Definition session_attr (k : string) : App Value :=
  v <- session_lookup k ;;
  match v with
  | Some v => ret v
  | None => raise AttributeError
  end.

(** [st.session_state.current_user] where a user key is expected; the
    script stores nothing but integer keys under that name. *)
Definition current_user : App Z :=
  v <- session_attr "current_user" ;;
  match v with
  | VInt uid => ret uid
  | _ => raise TypeError
  end.

Definition rerun {A} : App A := raise RerunException.

(** *** Store functions *)

(** The store of the embedding always has its tables. *)
Definition init_database : App unit :=
  get_db_connection
    (row <- cur_execute (query (λ _, Some true)) ;;
     tables_exist <- subscript row ;;
     if negb tables_exist
     then cur_execute (query (λ _, tt)) ;; conn_commit
     else ret tt).

Definition hash_password (password : string) : string :=
  sha256_hexdigest env password.

Definition toggle_admin_mode (user_id : Z) (hide_scores : bool)
    : App unit :=
  get_db_connection
    (cur_execute (update_hide_scores user_id hide_scores) ;;
     conn_commit).

Definition get_user_settings (user_id : Z) : App (bool * bool) :=
  get_db_connection
    (row <- cur_execute (query (select_user_settings user_id)) ;;
     subscript row).

(** Modelled from the spec: [INSERT INTO users ... RETURNING user_id];
    the constraint of [schema.sql] that rejects an e-mail address already
    in use is missing from the sources. *)
Definition insert_user (mail hash : string) : App (option Z) :=
  statement ;;
  λ w, let db := w_conn w in
       if bool_decide (mail ∈ email <$> users db)
       then (Raise (Psycopg2Error IntegrityError), w)
       else
         let uid := new_user_id env (users db) in
         (Ok (Some uid),
          set_conn
            (with_users
               (users db ++
                  [{| user_id := uid; email := mail; password_hash := hash;
                      is_admin := false; hide_scores := false;
                      last_login := None |}]) db) w).

Definition register_user (email password department city : string)
    : App bool :=
  get_db_connection
    (try_except
       (row <- insert_user email (hash_password password) ;;
        user_id <- subscript row ;;
        cur_execute (insert_user_profile user_id department city) ;;
        conn_commit ;;
        session_set "current_user" (VInt user_id) ;;
        session_set "is_admin" (VBool false) ;;
        ret true)
       is_IntegrityError
       (λ _, conn_rollback ;; ret false)).

Definition login_user (email password : string) : App bool :=
  get_db_connection
    (result <- cur_execute
                 (query (select_login email (hash_password password))) ;;
     match result with
     | Some (user_id, is_admin) =>
         session_set "current_user" (VInt user_id) ;;
         session_set "is_admin" (VBool is_admin) ;;
         session_set "is_admin_view" (VBool is_admin) ;;
         cur_execute (update_last_login user_id (now env)) ;;
         conn_commit ;;
         ret true
     | None => ret false
     end).

Definition get_user_profile (user_id : Z) : App (string * UserProfile) :=
  get_db_connection
    (row <- cur_execute (query (select_user_profile user_id)) ;;
     subscript row).

Definition update_user_profile (user_id : Z) (name : string) (age : Z)
    (gender : string) (years_service : Z) (department city : string)
    : App unit :=
  get_db_connection
    (cur_execute
       (update_profile_row user_id name age gender years_service
          department city (now env)) ;;
     conn_commit).

Definition get_assessment_types : App (list AssessmentType) :=
  get_db_connection (cur_execute (query select_assessment_types)).

Definition get_assessment_questions (assessment_type_id : Z)
    : App (list QuestionRow) :=
  get_db_connection
    (cur_execute (query (select_assessment_questions assessment_type_id))).

Definition get_user_assessment_history (user_id : Z)
    : App (list HistoryRow) :=
  get_db_connection (cur_execute (query (select_history user_id))).

(** *** Pages *)

Variable inputs : Inputs.

Definition render_login : App unit :=
  emit (StSubheader [FStr "Login"]) ;;
  emit (StForm (KeyStr "login_form")) ;;
  emit (StTextInput "Email" "" false false) ;;
  emit (StTextInput "Password" "" false true) ;;
  emit (StFormSubmitButton "Login") ;;
  if in_form_submit inputs "Login"
  then
    ok <- login_user (in_text inputs "Email") (in_text inputs "Password") ;;
    if ok : bool
    then emit (StSuccess [FStr "Login successful!"]) ;; rerun
    else emit (StError [FStr "Invalid email or password"])
  else ret tt.

Definition render_signup : App unit :=
  emit (StSubheader [FStr "Sign Up"]) ;;
  emit (StForm (KeyStr "signup_form")) ;;
  emit (StTextInput "Email" "" false false) ;;
  emit (StTextInput "Password" "" false true) ;;
  emit (StTextInput "Department" "" false false) ;;
  emit (StTextInput "City" "" false false) ;;
  emit (StFormSubmitButton "Sign Up") ;;
  if in_form_submit inputs "Sign Up"
  then
    ok <- register_user (in_text inputs "Email")
            (in_text inputs "Password") (in_text inputs "Department")
            (in_text inputs "City") ;;
    if ok : bool
    then emit (StSuccess [FStr "Registration successful!"]) ;; rerun
    else emit (StError [FStr "Email already exists"])
  else ret tt.

Definition genders : list string := ["Male"; "Female"; "Other"].

(** [l.index(x)]. *)
Definition list_index (l : list string) (x : string) : App nat :=
  match list_find (λ y, y = x) l with
  | Some (i, _) => ret i
  | None => raise ValueError
  end.

Definition render_profile : App unit :=
  emit (StHeader [FStr "Profile"]) ;;
  uid <- current_user ;;
  user_data <- get_user_profile uid ;;
  let '(mail, p) := user_data in
  emit (StForm (KeyStr "edit_profile")) ;;
  emit (StTextInput "Email" mail true false) ;;
  emit (StTextInput "Full Name" (default "" (full_name p)) false false) ;;
  emit (StNumberInput "Age" 18 100
          (match age p with
           | Some a => if Z.eqb a 0 then 18 else a
           | None => 18
           end)) ;;
  index <- list_index genders
             (match gender p with
              | Some g => if String.eqb g "" then "Male" else g
              | None => "Male"
              end) ;;
  emit (StSelectbox "Gender" genders index) ;;
  emit (StNumberInput "Years of Service" 0 50
          (default 0 (years_service p))) ;;
  emit (StTextInput "Fire Department" (default "" (department p))
          false false) ;;
  emit (StTextInput "City" (default "" (city p)) false false) ;;
  emit (StFormSubmitButton "Update Profile") ;;
  if in_form_submit inputs "Update Profile"
  then
    uid <- current_user ;;
    update_user_profile uid
      (in_text inputs "Full Name") (in_number inputs "Age")
      (chosen genders (in_gender inputs) "Male")
      (in_number inputs "Years of Service")
      (in_text inputs "Fire Department") (in_text inputs "City") ;;
    emit (StSuccess [FStr "Profile updated successfully!"]) ;;
    rerun
  else ret tt.

(** The loop over the questions of the form: it emits one radio per
    question and collects the answers. *)
Fixpoint questionnaire_loop (assessment_data : list QuestionRow)
    (responses : list Response) (questions_answered : list (Z * bool))
    : App (list Response * list (Z * bool)) :=
  match assessment_data with
  | [] => ret (responses, questions_answered)
  | question :: rest =>
      match qr_options question with
      | None =>
          emit (StError [FStr "No options found for question: ";
                         FStr (qr_question_text question)]) ;;
          questionnaire_loop rest responses questions_answered
      | Some opts =>
          let options :=
            foldl (λ d opt, dict_set (oj_text opt) opt d) [] opts in
          let choices := "Select an option" :: dict_keys options in
          emit (StRadio (qr_question_text question) choices
                  (KeyQuestion (qr_question_id question))) ;;
          let response :=
            chosen choices (in_question inputs (qr_question_id question))
              "Select an option" in
          let answered := negb (String.eqb response "Select an option") in
          let questions_answered :=
            dict_set (qr_question_id question) answered
              questions_answered in
          if answered
          then
            match dict_get response options with
            | Some opt =>
                questionnaire_loop rest
                  (responses ++
                     [(qr_question_id question, oj_option_id opt,
                       oj_value opt)])
                  questions_answered
            | None => raise KeyError
            end
          else questionnaire_loop rest responses questions_answered
      end
  end.

Definition render_questionnaire (assessment_type_id : Z) : App unit :=
  assessment_data <- get_assessment_questions assessment_type_id ;;
  match assessment_data with
  | [] => emit (StError [FStr "Assessment not found"])
  | _ =>
      row <- get_db_connection
               (cur_execute (query (select_title assessment_type_id))) ;;
      assessment_title <- subscript row ;;
      emit (StSubheader [FStr assessment_title]) ;;
      emit (StForm (KeyQuestionnaireForm assessment_type_id)) ;;
      collected <- questionnaire_loop assessment_data [] [] ;;
      let '(responses, questions_answered) := collected in
      emit (StFormSubmitButton "Submit Assessment") ;;
      if in_form_submit inputs "Submit Assessment"
      then
        if negb (all (dict_values questions_answered))
        then
          emit (StError
                  [FStr "Please answer all questions before submitting."])
        else
          let total_score := sum_values responses in
          uid <- current_user ;;
          ok <- save_assessment_response uid assessment_type_id responses
                  total_score ;;
          if ok : bool
          then
            emit (StSuccess
                    [FStr "Thank you for completing the assessment!"]) ;;
            session_set "section" (VStr "Dashboard") ;;
            rerun
          else ret tt
      else ret tt
  end.

(** The loop of [render_dashboard] that fills [categories] and [scores]. *)
Definition radar_series (assessment_history : list HistoryRow)
    : list string * list Z :=
  foldl
    (λ acc response,
       let '(categories, scores) := acc in
       if bool_decide (assessment_type response ∈ categories)
       then (categories, scores)
       else (categories ++ [assessment_type response],
             scores ++ [h_total_score response]))
    ([], []) assessment_history.

(** One iteration of the loop over the history table. *)
Definition render_history_row (admin : bool) (response : HistoryRow)
    : App unit :=
  emit (StColWrite 1 [FStr (assessment_title response)]) ;;
  (if admin
   then
     emit (StColWrite 2 [FInt (h_total_score response)]) ;;
     emit (StColWrite 3 [FStr (h_severity_label response)])
   else
     emit (StColWrite 2 [FStr "Completed"]) ;;
     emit (StColButton 3 "View Responses"
             (KeyViewResponse (h_response_id response))) ;;
     if in_view_response inputs (h_response_id response)
     then session_set "selected_response" (VRow response)
     else ret tt) ;;
  emit (StColWrite 4 [FStrftime "%Y-%m-%d %H:%M" (h_created_at response)]).

(** The details shown for the selected response. *)
Definition render_response_details (admin : bool) (response : HistoryRow)
    : App unit :=
  emit (StSubheader [FStr "Response Details - ";
                     FStr (assessment_title response)]) ;;
  emit (StWrite [FStr "Date: "; FDatetime (h_created_at response)]) ;;
  (if admin
   then
     emit (StWrite [FStr "Score: "; FInt (h_total_score response)]) ;;
     emit (StWrite [FStr "Result: "; FStr (h_severity_label response)])
   else ret tt) ;;
  emit (StSubheader [FStr "Responses:"]) ;;
  for_each (h_response_details response)
    (λ detail,
       emit (StWrite [FStr "**Q:** "; FStr (dj_question detail)]) ;;
       emit (StWrite [FStr "**A:** "; FStr (dj_answer detail)])) ;;
  emit (StButton "Close") ;;
  if in_button inputs "Close"
  then session_del "selected_response"
  else ret tt.

(** The block under [if 'selected_response' in st.session_state]. *)
Definition render_selected_response (admin : bool) : App unit :=
  selected <- session_lookup "selected_response" ;;
  match selected with
  | None => ret tt
  | Some v =>
      response <- (match v with
                   | VRow r => ret r
                   | _ => raise TypeError
                   end) ;;
      render_response_details admin response
  end.

(** [render_dashboard] below the welcome line, [admin] being the value of
    [is_admin_view and user_settings['is_admin']]. *)
Definition dashboard_view (admin : bool)
    (assessment_history : list HistoryRow) : App unit :=
  match assessment_history with
  | [] => emit (StInfo [FStr "No assessments completed yet."])
  | _ =>
      (if admin
       then
         let '(categories, scores) := radar_series assessment_history in
         emit (StPlotlyChart scores categories)
       else ret tt) ;;
      emit (StSubheader [FStr "Assessment History"]) ;;
      emit (StColumns 4) ;;
      emit (StColWrite 1 [FStr "**Assessment Type**"]) ;;
      (if admin
       then
         emit (StColWrite 2 [FStr "**Score**"]) ;;
         emit (StColWrite 3 [FStr "**Result**"])
       else
         emit (StColWrite 2 [FStr "**Status**"]) ;;
         emit (StColWrite 3 [FStr "**Responses**"])) ;;
      emit (StColWrite 4 [FStr "**Date**"]) ;;
      for_each assessment_history (render_history_row admin) ;;
      render_selected_response admin
  end.

(** [render_dashboard] from [st.header("Dashboard")] on. *)
Definition dashboard_body (user_profile : string * UserProfile)
    (user_settings : bool * bool) (assessment_history : list HistoryRow)
    : App unit :=
  emit (StHeader [FStr "Dashboard"]) ;;
  emit (StSubheader
          [FStr "Welcome, ";
           FStr (match full_name user_profile.2 with
                 | Some n => if String.eqb n "" then user_profile.1 else n
                 | None => user_profile.1
                 end)]) ;;
  is_admin_view <- session_getattr "is_admin_view" (VBool true) ;;
  dashboard_view (truthy is_admin_view && user_settings.1)
    assessment_history.

Definition render_dashboard : App unit :=
  uid <- current_user ;;
  user_profile <- get_user_profile uid ;;
  uid <- current_user ;;
  user_settings <- get_user_settings uid ;;
  uid <- current_user ;;
  assessment_history <- get_user_assessment_history uid ;;
  dashboard_body user_profile user_settings assessment_history.

(** The suite of [if st.sidebar.button("Logout")]. *)
Definition logout : App unit :=
  keys <- session_keys ;;
  for_each keys session_del ;;
  rerun.

Definition sections : list string := ["Dashboard"; "Assessments"; "Profile"].

(** The branch of [main] taken while [current_user] is not in the
    session. *)
Definition login_or_signup : App unit :=
  emit (StRadio "Choose an option:" ["Login"; "Sign Up"] KeyNone) ;;
  let auth_option :=
    chosen ["Login"; "Sign Up"] (in_auth_option inputs) "Login" in
  if String.eqb auth_option "Login"
  then render_login
  else render_signup.

(** The block under [if getattr(st.session_state, 'is_admin', False)]. *)
Definition admin_view_toggle : App unit :=
  emit (SidebarMarkdown [FStr "---"]) ;;
  value <- session_getattr "is_admin_view" (VBool true) ;;
  emit (SidebarCheckbox "Admin View" (truthy value)
          (KeyStr "admin_view_toggle")) ;;
  let is_admin_view := in_admin_view inputs in
  stored <- session_lookup "is_admin_view" ;;
  (match stored with
   | None =>
       session_set "is_admin_view" (VBool is_admin_view) ;; rerun
   | Some v =>
       if negb (py_eq (VBool is_admin_view) v)
       then
         session_set "is_admin_view" (VBool is_admin_view) ;; rerun
       else ret tt
   end) ;;
  emit (SidebarMarkdown [FStr "---"]).

(** The main menu, the selected page and the logout button. *)
Definition menu : App unit :=
  emit (SidebarRadio "Main Menu" sections) ;;
  let section := VStr (chosen sections (in_main_menu inputs)
                         "Dashboard") in
  forced <- session_lookup "section" ;;
  section <- (match forced with
              | Some v => session_del "section" ;; ret v
              | None => ret section
              end) ;;
  (if py_eq section (VStr "Dashboard")
   then render_dashboard
   else if py_eq section (VStr "Assessments")
   then
     assessment_types <- get_assessment_types ;;
     match assessment_types with
     | [] => emit (StError [FStr "No assessments available"])
     | first :: _ =>
         let options :=
           (λ t, (assessment_type_id t, title t)) <$>
             assessment_types in
         emit (SidebarSelectbox "Select Assessment" options.*2) ;;
         let assessment_type :=
           chosen options (in_select_assessment inputs)
             (assessment_type_id first, title first) in
         render_questionnaire assessment_type.1
     end
   else if py_eq section (VStr "Profile")
   then render_profile
   else ret tt) ;;
  emit (SidebarButton "Logout") ;;
  if in_button inputs "Logout"
  then logout
  else ret tt.

(** The branch of [main] taken by a logged-in user. *)
Definition navigation : App unit :=
  emit (SidebarHeader [FStr "Navigation"]) ;;
  is_admin <- session_getattr "is_admin" (VBool false) ;;
  (if truthy is_admin then admin_view_toggle else ret tt) ;;
  menu.

Definition main : App unit :=
  emit (StTitle [FStr "Mental Health Assessment Platform"]) ;;
  init_database ;;
  user <- session_lookup "current_user" ;;
  match user with
  | None => login_or_signup
  | Some _ => navigation
  end.

End Application.
(** ** Reference definitions used in the statements *)

(** The value stored for an answer with raw value [v] to a question at
    ordinal position [order] of the reverse-scored assessment. *)
Definition stored_value (order v : Z) : Z :=
  if decide (order = 4 ∨ order = 7) then 6 - v else v.

(** [adjusted] is [responses] with every answer replaced by its stored
    value, positions being those recorded in the store [db]. *)
Definition reverse_scored (db : Database) (responses adjusted : list Response)
    : Prop :=
  Forall2
    (λ r a, ∃ order,
       select_question_order r.1.1 db = Some order ∧
       a = (r.1.1, r.1.2, stored_value order r.2))
    responses adjusted.

Definition detail_row (rid : Z) (r : Response) : ResponseDetail :=
  {| detail_response_id := rid; detail_question_id := r.1.1;
     selected_option_id := r.1.2; response_value := r.2 |}.

Definition header_row (env : Env) (db : Database) (uid atype score sev : Z)
    : AssessmentResponse :=
  {| response_id := new_response_id env (assessment_responses db);
     response_user_id := uid; response_type_id := atype;
     total_score := score; response_severity_id := sev;
     created_at := now env |}.

(** The store [db] with one more response and its details. *)
Definition saved_database (env : Env) (db : Database) (uid atype : Z)
    (responses : list Response) (score sev : Z) : Database :=
  with_response_details
    (response_details db ++
       (detail_row (new_response_id env (assessment_responses db))
          <$> responses))
    (with_assessment_responses
       (assessment_responses db ++ [header_row env db uid atype score sev])
       db).

(** ** A small store used in the examples *)

Module Sample.

Definition alice : User :=
  {| user_id := 1; email := "alice@example.org"; password_hash := "h(pw1)";
     is_admin := false; hide_scores := false; last_login := None |}.

Definition bob : User :=
  {| user_id := 2; email := "bob@example.org"; password_hash := "h(pw2)";
     is_admin := true; hide_scores := false; last_login := None |}.

Definition profile (uid : Z) (name : string) : UserProfile :=
  {| profile_user_id := uid; full_name := Some name; age := Some 40;
     gender := Some "Other"; years_service := Some 12;
     department := Some "Station 9"; city := Some "Springfield";
     updated_at := None |}.

Definition question (qid atype order : Z) : AssessmentQuestion :=
  {| question_id := qid; question_type_id := atype;
     question_order := order; question_text := "Q" |}.

Definition option_row (oid atype value : Z) (text : string)
    : ResponseOption :=
  {| option_id := oid; option_type_id := atype; option_text := text;
     option_value := value; option_order := value |}.

Definition band (sid atype lo hi : Z) (label : string) : SeverityLevel :=
  {| severity_id := sid; severity_type_id := atype; min_score := lo;
     max_score := hi; severity_label := label |}.

Definition db : Database :=
  {| users := [alice; bob];
     user_profiles := [profile 1 "Alice"; profile 2 "Bob"];
     assessment_types :=
       [ {| assessment_type_id := 1; code := "RELATIONSHIP";
            title := "Relationship Quality" |};
         {| assessment_type_id := 2; code := "ANXIETY";
            title := "Anxiety" |} ];
     assessment_questions :=
       [ question 101 1 1; question 102 1 2; question 103 1 3;
         question 104 1 4; question 105 1 5; question 106 1 6;
         question 107 1 7;
         question 201 2 1; question 202 2 2; question 203 2 3 ];
     response_options :=
       [ option_row 11 1 1 "Never"; option_row 12 1 2 "Rarely";
         option_row 13 1 3 "Sometimes"; option_row 14 1 4 "Often";
         option_row 15 1 5 "Always";
         option_row 21 2 1 "Not at all"; option_row 22 2 2 "Several days";
         option_row 23 2 3 "Most days"; option_row 24 2 4 "Nearly every day";
         option_row 25 2 5 "Every day" ];
     severity_levels :=
       [ band 1 1 7 14 "Low"; band 2 1 15 25 "Moderate";
         band 3 1 26 35 "High";
         band 4 2 3 7 "Mild"; band 5 2 8 15 "Severe" ];
     assessment_responses := [];
     response_details := [] |}.

(** The store assigns consecutive keys. *)
Definition next_response_id (l : list AssessmentResponse) : Z :=
  1 + foldr Z.max 0 (response_id <$> l).

Definition next_user_id (l : list User) : Z :=
  1 + foldr Z.max 0 (user_id <$> l).

Definition no_fault : nat → option DbError := λ _, None.

Definition env : Env :=
  {| sha256_hexdigest := λ pw, "h(" +:+ pw +:+ ")";
     db_fault := no_fault; now := 1000;
     new_response_id := next_response_id;
     new_user_id := next_user_id |}.

Definition world (d : Database) (s : gmap string Value) : World :=
  initial_world d s.

Definition response_row (rid uid atype score sev created : Z)
    : AssessmentResponse :=
  {| response_id := rid; response_user_id := uid; response_type_id := atype;
     total_score := score; response_severity_id := sev;
     created_at := created |}.

Definition detail (rid qid oid value : Z) : ResponseDetail :=
  {| detail_response_id := rid; detail_question_id := qid;
     selected_option_id := oid; response_value := value |}.

(** [db] with three responses of user 2, an administrator: anxiety at
    time 100, relationship at 200, anxiety again at 300. *)
Definition admin_db : Database :=
  {| users := users db; user_profiles := user_profiles db;
     assessment_types := assessment_types db;
     assessment_questions := assessment_questions db;
     response_options := response_options db;
     severity_levels := severity_levels db;
     assessment_responses :=
       [ response_row 1 2 2 10 5 100; response_row 2 2 1 22 2 200;
         response_row 3 2 2 5 4 300 ];
     response_details :=
       [ detail 1 201 25 5; detail 1 202 25 5; detail 2 101 15 5;
         detail 3 201 22 2; detail 3 202 23 3 ] |}.

(** The session of user 2 after login. *)
Definition bob_session : gmap string Value :=
  <["is_admin_view" := VBool true]>
    (<["is_admin" := VBool true]> (<["current_user" := VInt 2]> ∅)).

(** The browser state of a plain visit of the dashboard. *)
Definition dashboard_inputs : Inputs :=
  {| in_auth_option := 0; in_text := λ _, ""; in_number := λ _, 0;
     in_gender := 0; in_form_submit := λ _, false; in_admin_view := true;
     in_main_menu := 0; in_select_assessment := 0; in_question := λ _, 0%nat;
     in_view_response := λ _, false; in_button := λ _, false |}.

(** Raw answers [5,4,3,2,1,3,4] to the questions at positions 1..7. *)
Definition relationship_answers : list Response :=
  [ (101, 15, 5); (102, 14, 4); (103, 13, 3); (104, 12, 2);
    (105, 11, 1); (106, 13, 3); (107, 14, 4) ].


(** Raw answers [2,3,1] to the three questions of assessment type 2. *)
Definition anxiety_answers : list Response :=
  [ (201, 22, 2); (202, 23, 3); (203, 21, 1) ].

(** The world after the relationship answers of user 1 are saved. *)
Definition relationship_saved : World :=
  Eval vm_compute in
    (save_assessment_response env 1 1 relationship_answers 22
       (world db ∅)).2.

(** The world after the anxiety answers of user 1 are saved with a total
    of 10 supplied by the caller. *)
Definition anxiety_saved : World :=
  Eval vm_compute in
    (save_assessment_response env 1 2 anxiety_answers 10 (world db ∅)).2.

(** The session of user 1 after login. *)
Definition alice_session : gmap string Value :=
  <["is_admin_view" := VBool false]>
    (<["is_admin" := VBool false]> (<["current_user" := VInt 1]> ∅)).

(** The browser state in which the three anxiety questions are answered
    with the options of values 2, 3 and 1 and the form is submitted. *)
Definition anxiety_inputs : Inputs :=
  {| in_auth_option := 0; in_text := λ _, ""; in_number := λ _, 0;
     in_gender := 0;
     in_form_submit := λ label, String.eqb label "Submit Assessment";
     in_admin_view := false; in_main_menu := 1; in_select_assessment := 1;
     in_question :=
       λ q, if Z.eqb q 201 then 2%nat
            else if Z.eqb q 202 then 3%nat else 1%nat;
     in_view_response := λ _, false; in_button := λ _, false |}.

(** The run of the questionnaire page on these inputs. *)
Definition questionnaire_run : Result unit * World :=
  Eval vm_compute in
    render_questionnaire env anxiety_inputs 2 (world db alice_session).

(** A store that already holds the anxiety response of user 1. *)
Definition db1 : Database := Eval vm_compute in w_db anxiety_saved.

(** The world after user 1 then saves the relationship answers. *)
Definition second_saved : World :=
  Eval vm_compute in
    (save_assessment_response env 1 1 relationship_answers 0
       (world db1 ∅)).2.

(** The history of user 1 read from that store. *)
Definition history_rows : list HistoryRow :=
  Eval vm_compute in select_history 1 (w_db second_saved).

Definition history_read : World :=
  Eval vm_compute in
    (get_user_assessment_history env 1 (world (w_db second_saved) ∅)).2.

(** An environment whose store fails on the tenth statement of a run. *)
Definition faulty_env : Env :=
  {| sha256_hexdigest := sha256_hexdigest env;
     db_fault := λ n, if Nat.eqb n 9 then Some OperationalError else None;
     now := now env; new_response_id := new_response_id env;
     new_user_id := new_user_id env |}.

(** The session of user 2 with the admin view switched off. *)
Definition bob_session_normal : gmap string Value :=
  <["is_admin_view" := VBool false]> bob_session.

(** The dashboard of the administrator. *)
Definition admin_dashboard : Result unit * World :=
  Eval vm_compute in
    render_dashboard env dashboard_inputs (world admin_db bob_session).

(** The session of user 1 with the admin view switched on by hand. *)
Definition alice_session_flagged : gmap string Value :=
  <["is_admin_view" := VBool true]> alice_session.

(** An environment whose store fails on the second statement of a run. *)
Definition second_statement_fails : Env :=
  {| sha256_hexdigest := sha256_hexdigest env;
     db_fault := λ n, if Nat.eqb n 1 then Some OperationalError else None;
     now := now env; new_response_id := new_response_id env;
     new_user_id := new_user_id env |}.

(** The run in which a third user registers. *)
Definition carol_registers : Result bool * World :=
  Eval vm_compute in
    register_user env "carol@example.org" "pw3" "Station 3" "Shelbyville"
      (world db ∅).

(** The browser state of [anxiety_inputs] with the third question left at
    "Select an option". *)
Definition partial_inputs : Inputs :=
  {| in_auth_option := 0; in_text := λ _, ""; in_number := λ _, 0;
     in_gender := 0;
     in_form_submit := λ label, String.eqb label "Submit Assessment";
     in_admin_view := false; in_main_menu := 1; in_select_assessment := 1;
     in_question :=
       λ q, if Z.eqb q 201 then 2%nat
            else if Z.eqb q 202 then 3%nat else 0%nat;
     in_view_response := λ _, false; in_button := λ _, false |}.

(** The run of the questionnaire page on these inputs. *)
Definition partial_run : Result unit * World :=
  Eval vm_compute in
    render_questionnaire env partial_inputs 2 (world db alice_session).

(** The session of user 1 with the dashboard forced as next section. *)
Definition alice_session_forced : gmap string Value :=
  <["section" := VStr "Dashboard"]> alice_session.

(** The visit of the dashboard by user 1 after one saved response. *)
Definition alice_visit : Result unit * World :=
  Eval vm_compute in
    main env dashboard_inputs (world db1 alice_session).

(** [db] with a gender in the profile of user 1 that the form does not
    offer. *)
Definition odd_gender_db : Database :=
  {| users := users db;
     user_profiles :=
       [ {| profile_user_id := 1; full_name := Some "Alice";
            age := Some 40; gender := Some "Diverse";
            years_service := Some 12; department := Some "Station 9";
            city := Some "Springfield"; updated_at := None |};
         profile 2 "Bob" ];
     assessment_types := assessment_types db;
     assessment_questions := assessment_questions db;
     response_options := response_options db;
     severity_levels := severity_levels db;
     assessment_responses := []; response_details := [] |}.

(** [db] without the profile row of user 1. *)
Definition no_profile_db : Database :=
  {| users := users db; user_profiles := [profile 2 "Bob"];
     assessment_types := assessment_types db;
     assessment_questions := assessment_questions db;
     response_options := response_options db;
     severity_levels := severity_levels db;
     assessment_responses := []; response_details := [] |}.

(** The browser state in which "View Responses" of response 1 has been
    clicked. *)
Definition viewing_inputs : Inputs :=
  {| in_auth_option := 0; in_text := λ _, ""; in_number := λ _, 0;
     in_gender := 0; in_form_submit := λ _, false; in_admin_view := false;
     in_main_menu := 0; in_select_assessment := 0; in_question := λ _, 0%nat;
     in_view_response := λ rid, Z.eqb rid 1; in_button := λ _, false |}.

(** The only row of the history of user 1 in [db1]. *)
Definition first_row : HistoryRow :=
  Eval vm_compute in
    default
      {| h_response_id := 0; assessment_type := ""; assessment_title := "";
         h_total_score := 0; h_severity_label := ""; h_created_at := 0;
         h_response_details := [] |}
      (head (select_history 1 db1)).

End Sample.

(** ** Predicates on computations *)

(** A computation is [Inert] when it leaves the committed store, the
    session and the output alone and raises only what [except Exception]
    intercepts: everything a transaction does before its commit. *)
Definition Inert {A} (m : App A) : Prop :=
  ∀ w r w', m w = (r, w') →
    w_db w' = w_db w ∧ w_session w' = w_session w ∧ w_out w' = w_out w ∧
    (∀ e, r = Raise e → is_Exception e = true).

(** A computation is [Guarded] when it leaves the session and the output
    alone and, if it raises, has not touched the committed store either. *)
Definition Guarded {A} (m : App A) : Prop :=
  ∀ w r w', m w = (r, w') →
    w_session w' = w_session w ∧ w_out w' = w_out w ∧
    (∀ e, r = Raise e → w_db w' = w_db w ∧ is_Exception e = true).

(** A computation is [Clean] when a run of it that ends normally has met
    no failing statement. *)
Definition Clean (env : Env) {A} (m : App A) : Prop :=
  ∀ w a w', m w = (Ok a, w') →
    (w_stmt w ≤ w_stmt w')%nat ∧
    ∀ n, (w_stmt w ≤ n < w_stmt w')%nat → db_fault env n = None.

(** Every run of [m] relates its initial to its final world. *)
Definition Step (R : relation World) {A} (m : App A) : Prop :=
  ∀ w r w', m w = (r, w') → R w w'.

(** What the primitives that change the world require of [R]. *)
Definition closed_emit (R : relation World) (x : Widget) : Prop :=
  ∀ w, R w {| w_db := w_db w; w_conn := w_conn w;
               w_session := w_session w; w_out := w_out w ++ [x];
               w_stmt := w_stmt w |}.
Definition closed_session (R : relation World) : Prop :=
  ∀ w s, R w (set_session s w).
Definition closed_conn (R : relation World) : Prop :=
  ∀ w db, R w (set_conn db w).
Definition closed_stmt (R : relation World) : Prop :=
  ∀ w n, R w (set_stmt n w).
Definition closed_commit (R : relation World) : Prop :=
  ∀ w, R w (set_db (w_conn w) w).

(** The committed store is unchanged. *)
Definition same_db : relation World := λ w w', w_db w' = w_db w.

(** An answer collected from the form carries the key and the value of
    one of the options offered for its question. *)
Definition offered (data : list QuestionRow) (r : Response) : Prop :=
  ∃ q opts opt,
    q ∈ data ∧ qr_options q = Some opts ∧ opt ∈ opts ∧
    r = (qr_question_id q, oj_option_id opt, oj_value opt).

(** The grouping columns of a history row. *)
Definition history_key (e : HistoryRow) : HistoryKey :=
  (h_response_id e, assessment_type e, assessment_title e, h_total_score e,
   h_severity_label e, h_created_at e).

(** The session is unchanged. *)
Definition same_session : relation World :=
  λ w w', w_session w' = w_session w.

(** What [main] does while nobody is logged in. *)
Definition auth_page (env : Env) (inputs : Inputs) : App unit :=
  emit (StTitle [FStr "Mental Health Assessment Platform"]) ;;
  init_database env ;;
  login_or_signup env inputs.

(** The store, the session and the output are unchanged. *)
Definition same_state : relation World :=
  λ w w', w_db w' = w_db w ∧ w_session w' = w_session w ∧
          w_out w' = w_out w.

(** No widget satisfying [P] is added to the output. *)
Definition no_new (P : Widget → Prop) : relation World :=
  λ w w', ∀ x, P x → x ∈ w_out w' → x ∈ w_out w.

Definition is_chart (x : Widget) : Prop := ∃ r theta, x = StPlotlyChart r theta.

Definition is_logout_button (x : Widget) : Prop := x = SidebarButton "Logout".

(** The entries of a history that are the first of their assessment type,
    the types in [seen] having occurred before. *)
Fixpoint first_entries_from (seen : list string) (l : list HistoryRow)
    : list HistoryRow :=
  match l with
  | [] => []
  | e :: l' =>
      if bool_decide (assessment_type e ∈ seen)
      then first_entries_from seen l'
      else e :: first_entries_from (seen ++ [assessment_type e]) l'
  end.

Definition first_entries (l : list HistoryRow) : list HistoryRow :=
  first_entries_from [] l.

(** The role context in which [render_dashboard] shows the admin view. *)
Definition admin_view_active (session : gmap string Value)
    (user_is_admin : bool) : bool :=
  truthy (default (VBool true) (session !! "is_admin_view")) && user_is_admin.

(** ** Runs that differ only in the admin-view flag *)

(** The world without the [is_admin_view] entry of its session. *)
Definition erase_flag (w : World) : World :=
  set_session (delete "is_admin_view" (w_session w)) w.

(** Two worlds that differ at most in the [is_admin_view] entry. *)
Definition flag_equiv : relation World :=
  λ w1 w2, erase_flag w1 = erase_flag w2.

(** The store does not make user [uid] an administrator. *)
Definition not_admin_in (uid : Z) (db : Database) : Prop :=
  ∀ adm hide, select_user_settings uid db = Some (adm, hide) → adm = false.

(** The role context of a user who is not an administrator: the session
    copy of the flag is not set, and the store agrees for the user of the
    session. *)
Definition non_admin (w : World) : Prop :=
  truthy (default (VBool false) (w_session w !! "is_admin")) = false ∧
  ∀ uid, w_session w !! "current_user" = Some (VInt uid) →
         not_admin_in uid (w_db w) ∧ not_admin_in uid (w_conn w).

(** A computation is [Blind] when, started by a non-administrator in two
    worlds that differ only in the flag, it gives the same result and
    again worlds that differ only in the flag. *)
Definition Blind {A} (m : App A) : Prop :=
  ∀ w1 w2, non_admin w1 → flag_equiv w1 w2 →
    (m w1).1 = (m w2).1 ∧ flag_equiv (m w1).2 (m w2).2 ∧
    non_admin (m w1).2.

(** ** History entries without their score and severity *)

Definition redact (r : HistoryRow) : HistoryRow :=
  {| h_response_id := h_response_id r; assessment_type := assessment_type r;
     assessment_title := assessment_title r; h_total_score := 0;
     h_severity_label := ""; h_created_at := h_created_at r;
     h_response_details := h_response_details r |}.

Definition redact_value (v : Value) : Value :=
  match v with
  | VRow r => VRow (redact r)
  | _ => v
  end.

(** Two worlds with the same output whose sessions differ at most in the
    scores and severity labels of the history entries they hold. *)
Definition redact_equiv : relation World :=
  λ w1 w2, w_out w1 = w_out w2 ∧
           redact_value <$> w_session w1 = redact_value <$> w_session w2.

(** [m1] and [m2] behave alike on such worlds. *)
Definition Related {A} (m1 m2 : App A) : Prop :=
  ∀ w1 w2, redact_equiv w1 w2 →
    (m1 w1).1 = (m2 w2).1 ∧ redact_equiv (m1 w1).2 (m2 w2).2.

(** ** The rows of the history and the store *)

(** The history row [e] shows a response of user [uid] stored in [db]: its
    key, score and time, the code and title of its assessment type and the
    label of its severity band. *)
Definition shows_response (uid : Z) (db : Database) (e : HistoryRow)
    : Prop :=
  ∃ ar aty sl,
    ar ∈ assessment_responses db ∧ response_user_id ar = uid ∧
    aty ∈ assessment_types db ∧
    assessment_type_id aty = response_type_id ar ∧
    sl ∈ severity_levels db ∧ severity_id sl = response_severity_id ar ∧
    history_key e = (response_id ar, code aty, title aty, total_score ar,
                     severity_label sl, created_at ar).

(** The object [d] shows an answer stored in [db] for the response [rid],
    with the texts of its question and of its option. *)
Definition shows_answer (rid : Z) (db : Database) (d : DetailJson) : Prop :=
  ∃ rd aq ro,
    rd ∈ response_details db ∧ detail_response_id rd = rid ∧
    aq ∈ assessment_questions db ∧ question_id aq = detail_question_id rd ∧
    ro ∈ response_options db ∧ option_id ro = selected_option_id rd ∧
    d = {| dj_question := question_text aq; dj_answer := option_text ro;
           dj_value := response_value rd |}.

(** The world after a statement that reads: the connection has been opened
    and closed and one statement counted. *)
Definition after_read (w : World) : World :=
  set_stmt (S (w_stmt w)) (set_conn (w_db w) w).

(** The world between two connections. *)
Definition closed_world (db : Database) (s : gmap string Value)
    (out : list Widget) (n : nat) : World :=
  {| w_db := db; w_conn := db; w_session := s; w_out := out; w_stmt := n |}.

(** ** Sessions and stores after a login, a registration, an update *)

(** The session after [login_user] has found the user. *)
Definition logged_in (uid : Z) (adm : bool) (s : gmap string Value)
    : gmap string Value :=
  <["is_admin_view" := VBool adm]>
    (<["is_admin" := VBool adm]> (<["current_user" := VInt uid]> s)).

(** The session after [register_user] has created the user. *)
Definition signed_up (uid : Z) (s : gmap string Value)
    : gmap string Value :=
  <["is_admin" := VBool false]> (<["current_user" := VInt uid]> s).

(** The row of a new user. *)
Definition new_user (env : Env) (db : Database) (mail hash : string)
    : User :=
  {| user_id := new_user_id env (users db); email := mail;
     password_hash := hash; is_admin := false; hide_scores := false;
     last_login := None |}.

(** The profile row of a new user. *)
Definition new_profile (uid : Z) (dept town : string) : UserProfile :=
  {| profile_user_id := uid; full_name := None; age := None;
     gender := None; years_service := None; department := Some dept;
     city := Some town; updated_at := None |}.

(** The store [db] with one more user and the profile of that user. *)
Definition registered_database (env : Env) (db : Database)
    (mail hash dept town : string) : Database :=
  with_user_profiles
    (user_profiles db ++
       [new_profile (new_user_id env (users db)) dept town])
    (with_users (users db ++ [new_user env db mail hash]) db).

(** The profile row written by [update_user_profile]. *)
Definition updated_profile (uid : Z) (name : string) (a : Z) (g : string)
    (years : Z) (dept town : string) (t : Z) : UserProfile :=
  {| profile_user_id := uid; full_name := Some name; age := Some a;
     gender := Some g; years_service := Some years; department := Some dept;
     city := Some town; updated_at := Some t |}.

(** ** The rows of the question query *)

(** The options of the assessment type [atype], aggregated as the question
    query does for each of its rows. *)
Definition options_of (atype : Z) (db : Database) : list OptionJson :=
  order_by oj_order
    (option_json <$>
       filter (λ o, option_type_id o = atype) (response_options db)).

(** The row of the question query for the question [aq]. *)
Definition question_row (db : Database) (aq : AssessmentQuestion)
    : QuestionRow :=
  {| qr_question_id := question_id aq;
     qr_question_order := question_order aq;
     qr_question_text := question_text aq;
     qr_options := Some (options_of (question_type_id aq) db) |}.

(** ** Runs as steps of a relation on stores *)

(** The committed store after the run is related by [R] to the one
    before. *)
Definition on_db (R : relation Database) : relation World :=
  λ w w', R (w_db w) (w_db w').

(** The columns of a user that identify it and decide what it may see. *)
Definition account (u : User) : Z * string * string * bool * bool :=
  (user_id u, email u, password_hash u, is_admin u, hide_scores u).

(** The tables that describe the assessments. *)
Definition catalogue (db : Database)
    : list AssessmentType * list AssessmentQuestion * list ResponseOption *
      list SeverityLevel :=
  (assessment_types db, assessment_questions db, response_options db,
   severity_levels db).

(** The assessment tables of [db'] are those of [db]. *)
Definition same_catalogue : relation Database :=
  λ db db', catalogue db' = catalogue db.

(** The responses and answers of [db] are still in [db'], unchanged and in
    the same places, possibly followed by new ones. *)
Definition responses_kept : relation Database :=
  λ db db',
    assessment_responses db `prefix_of` assessment_responses db' ∧
    response_details db `prefix_of` response_details db'.

(** The users of [db] are still in [db'] with the same key, address,
    password digest and flags, possibly followed by new users who are no
    administrators; the profile rows keep their user keys. *)
Definition accounts_kept : relation Database :=
  λ db db',
    (∃ new,
       account <$> users db' = account <$> (users db ++ new) ∧
       Forall (λ u, is_admin u = false ∧ hide_scores u = false) new) ∧
    (profile_user_id <$> user_profiles db) `prefix_of`
      (profile_user_id <$> user_profiles db').

(** ** Invariants of the store and the session *)

(** A computation [Keeps] the invariant [J] of the committed store and the
    session when every run of it that starts with [J] ends with [J] if it
    returns, and with [X e] if it raises [e]. *)
Definition Keeps (J : Database → gmap string Value → Prop)
    (X : Exn → Database → gmap string Value → Prop) {A} (m : App A)
    : Prop :=
  ∀ w r w', J (w_db w) (w_session w) → m w = (r, w') →
    match r with
    | Ok _ => J (w_db w') (w_session w')
    | Raise e => X e (w_db w') (w_session w')
    end.

(** The error shown for a question without options. *)
Definition is_no_options_error (x : Widget) : Prop :=
  ∃ text, x = StError (FStr "No options found for question: " :: text).

(** The world after the widget [x] has been emitted. *)
Definition shown (x : Widget) (w : World) : World := (emit x w).2.

(** ** The form of the questionnaire page *)

(** [render_questionnaire] from [st.subheader(assessment_title)] on. *)
Definition questionnaire_form (env : Env) (inputs : Inputs)
    (assessment_type_id : Z) (assessment_data : list QuestionRow)
    (assessment_title : string) : App unit :=
  emit (StSubheader [FStr assessment_title]) ;;
  emit (StForm (KeyQuestionnaireForm assessment_type_id)) ;;
  collected <- questionnaire_loop inputs assessment_data [] [] ;;
  let '(responses, questions_answered) := collected in
  emit (StFormSubmitButton "Submit Assessment") ;;
  if in_form_submit inputs "Submit Assessment"
  then
    if negb (all (dict_values questions_answered))
    then
      emit (StError
              [FStr "Please answer all questions before submitting."])
    else
      let total_score := sum_values responses in
      uid <- current_user ;;
      ok <- save_assessment_response env uid assessment_type_id responses
              total_score ;;
      if ok : bool
      then
        emit (StSuccess
                [FStr "Thank you for completing the assessment!"]) ;;
        session_set "section" (VStr "Dashboard") ;;
        rerun
      else ret tt
  else ret tt.

(** ** The session during a run *)

(** The entries of the session that say who is logged in, and with which
    rights, are as before or have been deleted. *)
Definition identity_kept : relation World :=
  λ w w', ∀ k, k = "current_user" ∨ k = "is_admin" →
    w_session w' !! k = w_session w !! k ∨ w_session w' !! k = None.

(** The widget state [inputs] with entry [i] of the main menu selected. *)
Definition with_main_menu (i : nat) (inputs : Inputs) : Inputs :=
  {| in_auth_option := in_auth_option inputs; in_text := in_text inputs;
     in_number := in_number inputs; in_gender := in_gender inputs;
     in_form_submit := in_form_submit inputs;
     in_admin_view := in_admin_view inputs; in_main_menu := i;
     in_select_assessment := in_select_assessment inputs;
     in_question := in_question inputs;
     in_view_response := in_view_response inputs;
     in_button := in_button inputs |}.

(** ** Consistent stores and sessions *)

(** The gender the profile form preselects for a profile row. *)
Definition preselected_gender (p : UserProfile) : string :=
  match gender p with
  | Some g => if String.eqb g "" then "Male" else g
  | None => "Male"
  end.

(** What the pages rely on in the store: every user has a profile row,
    the gender of every profile is missing or one of those the form
    offers, and every question belongs to an assessment type. *)
Definition store_ok (db : Database) : Prop :=
  Forall (λ u, user_id u ∈ profile_user_id <$> user_profiles db)
    (users db) ∧
  Forall (λ p, preselected_gender p ∈ genders) (user_profiles db) ∧
  Forall (λ q, question_type_id q ∈
                 assessment_type_id <$> assessment_types db)
    (assessment_questions db).

(** What the pages rely on in the session: [current_user], if there, is
    the key of a user of the store, and [selected_response], if there, is
    a row of the history. *)
Definition session_ok (db : Database) (s : gmap string Value) : Prop :=
  match s !! "current_user" with
  | None => True
  | Some (VInt uid) => uid ∈ user_id <$> users db
  | Some _ => False
  end ∧
  match s !! "selected_response" with
  | None | Some (VRow _) => True
  | Some _ => False
  end.

Definition consistent (db : Database) (s : gmap string Value) : Prop :=
  store_ok db ∧ session_ok db s.

(** A consistent store and session, the session being that of [uid]. *)
Definition session_of (uid : Z) (db : Database) (s : gmap string Value)
    : Prop :=
  consistent db s ∧ s !! "current_user" = Some (VInt uid).

(** The exceptions a run may end with: the request for a rerun and the
    errors of the store. *)
Definition expected (e : Exn) : Prop :=
  e = RerunException ∨ ∃ d, e = Psycopg2Error d.

(** The run ended with an expected exception, in a consistent state. *)
Definition ends_well (e : Exn) (db : Database) (s : gmap string Value)
    : Prop :=
  consistent db s ∧ expected e.

(** ** The response selected on the dashboard *)

(** The row of the history whose "View Responses" button has been clicked;
    the last one if several have. *)
Definition clicked (inputs : Inputs) (history : list HistoryRow)
    : option HistoryRow :=
  last (filter (λ e, in_view_response inputs (h_response_id e) = true)
          history).

(** The run shows at least what was shown and leaves the store and the
    session alone. *)
Definition only_shows : relation World :=
  λ w w', w_db w' = w_db w ∧ w_session w' = w_session w ∧
          ∀ x, x ∈ w_out w → x ∈ w_out w'.

(** Every run of [m] returns, after a step of [R]. *)
Definition Returns (R : relation World) {A} (m : App A) : Prop :=
  ∀ w, ∃ a w', m w = (Ok a, w') ∧ R w w'.

(** * Properties *)

Section MonadLaws.

Context {A B : Type}.

Lemma bind_Ok (m : App A) (k : A → App B) w b w' :
  bind m k w = (Ok b, w') →
  ∃ a w1, m w = (Ok a, w1) ∧ k a w1 = (Ok b, w').
Proof.
  unfold bind. destruct (m w) as [[a|e] w1]; [eauto | discriminate].
Qed.

Lemma bind_Raise (m : App A) (k : A → App B) w e w' :
  bind m k w = (Raise e, w') →
  m w = (Raise e, w') ∨ ∃ a w1, m w = (Ok a, w1) ∧ k a w1 = (Raise e, w').
Proof.
  unfold bind. destruct (m w) as [[a|e0] w1]; [eauto | left; congruence].
Qed.

End MonadLaws.


Lemma Inert_ret {A} (a : A) : Inert (ret a).
Proof. intros w r w' [= <- <-]. by repeat split. Qed.

Lemma Inert_bind {A B} (m : App A) (k : A → App B) :
  Inert m → (∀ a, Inert (k a)) → Inert (bind m k).
Proof.
  intros Hm Hk w r w'. unfold bind.
  destruct (m w) as [[a|e] w1] eqn:E1;
    specialize (Hm _ _ _ E1) as (Hd & Hs & Ho & He).
  - intros E2. apply (Hk a) in E2 as (? & ? & ? & ?).
    split_and!; [congruence..|done].
  - intros [= <- <-]. split_and!; auto. intros ? [= <-]. by apply He.
Qed.

Lemma Inert_subscript {A} (row : option A) : Inert (subscript row).
Proof.
  destruct row; [apply Inert_ret|].
  intros w r w' [= <- <-]. repeat split; by intros ? [= <-].
Qed.

Section SaveProperties.

Variable env : Env.

Lemma statement_inv w r w' :
  statement env w = (r, w') →
  w' = set_stmt (S (w_stmt w)) w ∧
  ((r = Ok tt ∧ db_fault env (w_stmt w) = None) ∨
   ∃ e, r = Raise (Psycopg2Error e) ∧ db_fault env (w_stmt w) = Some e).
Proof.
  unfold statement. destruct (db_fault env (w_stmt w)); intros [= <- <-]; eauto.
Qed.

Lemma Inert_statement : Inert (statement env).
Proof.
  intros w r w' (-> & [[-> _] | (e & -> & _)])%statement_inv;
    repeat split; try done; by intros ? [= <-].
Qed.

Lemma Inert_cur_execute {A} (sql : Database → Database * A) :
  Inert (cur_execute env sql).
Proof.
  apply Inert_bind; [apply Inert_statement|].
  intros _ w r w'. destruct (sql (w_conn w)) as [db' a].
  intros [= <- <-]. by split_and!.
Qed.

Lemma cur_execute_Ok {A} (sql : Database → Database * A) w a w' :
  cur_execute env sql w = (Ok a, w') →
  db_fault env (w_stmt w) = None ∧
  w' = set_conn (sql (w_conn w)).1 (set_stmt (S (w_stmt w)) w) ∧
  a = (sql (w_conn w)).2.
Proof.
  intros (? & w1 & (-> & [[_ Hf] | (? & [=] & _)])%statement_inv & H)%bind_Ok.
  simpl in H. destruct (sql (w_conn w)). by injection H as <- <-.
Qed.

Lemma subscript_Ok {A} (row : option A) w a w' :
  subscript row w = (Ok a, w') → row = Some a ∧ w' = w.
Proof. destruct row; intros [= <- <-]; auto. Qed.

Lemma Inert_adjust_responses responses adjusted :
  Inert (adjust_responses env responses adjusted).
Proof.
  revert adjusted. induction responses as [|[[q o] v] rest IH]; intros adjusted.
  - apply Inert_ret.
  - simpl. apply Inert_bind; [apply Inert_cur_execute|]. intros row.
    apply Inert_bind; [apply Inert_subscript|]. intros order.
    case_bool_decide; apply IH.
Qed.

Lemma Inert_for_each {A} (l : list A) (body : A → App unit) :
  (∀ x, Inert (body x)) → Inert (for_each l body).
Proof.
  intros Hb. induction l; simpl; [apply Inert_ret|].
  apply Inert_bind; auto.
Qed.

End SaveProperties.


Lemma Guarded_bind {A B} (m : App A) (k : A → App B) :
  Inert m → (∀ a, Guarded (k a)) → Guarded (bind m k).
Proof.
  intros Hm Hk w r w'. unfold bind.
  destruct (m w) as [[a|e] w1] eqn:E1;
    specialize (Hm _ _ _ E1) as (Hd & Hs & Ho & He).
  - intros E2. apply (Hk a) in E2 as (? & ? & Hr).
    split_and!; [congruence..|]. intros e ->.
    destruct (Hr e eq_refl). split; congruence.
  - intros [= <- <-]. split_and!; auto. intros ? [= <-].
    split; [done | by apply He].
Qed.

Section SaveProperties2.

Variable env : Env.

Lemma with_response_details_id db :
  with_response_details (response_details db) db = db.
Proof. by destruct db. Qed.

Lemma adjust_responses_Ok responses adjusted w res w' :
  adjust_responses env responses adjusted w = (Ok res, w') →
  w_conn w' = w_conn w ∧
  ∃ adj, res = adjusted ++ adj ∧ reverse_scored (w_conn w) responses adj.
Proof.
  revert adjusted w. induction responses as [|[[q o] v] rest IH];
    intros adjusted w H; simpl in H.
  - injection H as <- <-. split; [done|]. exists [].
    split; [by rewrite app_nil_r | constructor].
  - apply bind_Ok in H as (row & w1 & (_ & -> & ->)%cur_execute_Ok & H).
    apply bind_Ok in H as (order & w2 & [Hrow ->]%subscript_Ok & H).
    simpl in Hrow.
    assert (∃ a, adjust_responses env rest (adjusted ++ [a])
                   (set_conn (w_conn w) (set_stmt (S (w_stmt w)) w))
                 = (Ok res, w') ∧ a = (q, o, stored_value order v))
      as (a & Ha & ->).
    { unfold stored_value, reverse_scored_questions in *.
      case_bool_decide as Hin; eexists; (split; [exact H|]);
        rewrite !elem_of_cons, elem_of_nil in Hin.
      - rewrite decide_True; [done | tauto].
      - rewrite decide_False; [done | tauto]. }
    apply IH in Ha as (Hc & adj & -> & Hadj). simpl in *.
    split; [done|]. eexists (_ :: adj). split; [by rewrite <- app_assoc|].
    constructor; [|done]. by exists order.
Qed.

Lemma insert_details_Ok rid responses w w' :
  for_each responses
    (λ '(question_id, option_id, value),
       cur_execute env
         (insert_response_detail rid question_id option_id value)) w
  = (Ok tt, w') →
  w_conn w' =
    with_response_details
      (response_details (w_conn w) ++ (detail_row rid <$> responses))
      (w_conn w) ∧
  w_db w' = w_db w ∧ w_out w' = w_out w ∧ w_session w' = w_session w.
Proof.
  revert w. induction responses as [|[[q o] v] rest IH]; intros w H;
    simpl in H.
  - injection H as <-. by rewrite app_nil_r, with_response_details_id.
  - apply bind_Ok in H as ([] & w1 & (_ & -> & _)%cur_execute_Ok & H).
    apply IH in H as (-> & -> & -> & ->). simpl.
    split_and!; try done. by rewrite <- app_assoc.
Qed.

Lemma Inert_insert_details rid responses :
  Inert (for_each responses
           (λ '(question_id, option_id, value),
              cur_execute env
                (insert_response_detail rid question_id option_id value))).
Proof. apply Inert_for_each. intros [[??]?]. apply Inert_cur_execute. Qed.

(** What a transaction that reaches its end has done. *)
Lemma save_transaction_Ok uid atype responses total w b w' :
  save_transaction env uid atype responses total w = (Ok b, w') →
  b = true ∧
  ∃ acode stored score sev,
    select_code atype (w_conn w) = Some acode ∧
    (if String.eqb acode "RELATIONSHIP"
     then reverse_scored (w_conn w) responses stored ∧
          score = sum_values stored
     else stored = responses ∧ score = total) ∧
    select_severity atype score (w_conn w) = Some sev ∧
    w_db w' = saved_database env (w_conn w) uid atype stored score sev ∧
    w_out w' = w_out w ∧ w_session w' = w_session w.
Proof.
  unfold save_transaction. intros H.
  apply bind_Ok in H as (row & w1 & (_ & -> & ->)%cur_execute_Ok & H).
  apply bind_Ok in H as (acode & w2 & [Hcode ->]%subscript_Ok & H).
  apply bind_Ok in H as ([stored score] & w3 & Hscored & H).
  simpl in Hcode.
  set (w0 := set_conn _ _) in *.
  assert (w_conn w3 = w_conn w ∧ w_db w3 = w_db w ∧ w_out w3 = w_out w ∧
          w_session w3 = w_session w ∧
          if String.eqb acode "RELATIONSHIP"
          then reverse_scored (w_conn w) responses stored ∧
               score = sum_values stored
          else stored = responses ∧ score = total)
    as (Hc3 & Hd3 & Ho3 & Hs3 & Hsc).
  { destruct (String.eqb acode "RELATIONSHIP").
    - apply bind_Ok in Hscored as (adj & w4 & Hadj & [= <- <- <-]).
      pose proof (Inert_adjust_responses env _ _ _ _ _ Hadj)
        as (? & ? & ? & _).
      apply adjust_responses_Ok in Hadj as (? & adj' & -> & ?).
      by split_and!.
    - injection Hscored as <- <- <-. by split_and!. }
  apply bind_Ok in H as (row & w4 & (_ & -> & ->)%cur_execute_Ok & H).
  apply bind_Ok in H as (sev & w5 & [Hsev ->]%subscript_Ok & H).
  apply bind_Ok in H as (row & w6 & (_ & -> & ->)%cur_execute_Ok & H).
  apply bind_Ok in H as (rid & w7 & [[= <-] ->]%subscript_Ok & H).
  apply bind_Ok in H as ([] & w8 & Hdet & H).
  apply insert_details_Ok in Hdet as (Hc8 & Hd8 & Ho8 & Hs8).
  apply bind_Ok in H as ([] & w9 & Hcommit & [= <- <-]).
  apply bind_Ok in Hcommit
    as ([] & w10 & (-> & _)%statement_inv & [= <-]).
  simpl in *. rewrite Hc3 in *. split; [done|].
  exists acode, stored, score, sev. split_and!; try done; congruence.
Qed.

(** A transaction that raises has not changed the committed store, and
    what it raises is intercepted by [except Exception]. *)
Lemma save_transaction_Raise uid atype responses total w e w' :
  save_transaction env uid atype responses total w = (Raise e, w') →
  w_db w' = w_db w ∧ w_out w' = w_out w ∧ w_session w' = w_session w ∧
  is_Exception e = true.
Proof.
  revert w e w'.
  enough (Guarded (save_transaction env uid atype responses total)) as G.
  { intros w e w' H. destruct (G _ _ _ H) as (? & ? & Hr).
    destruct (Hr e eq_refl). by split_and!. }
  unfold save_transaction.
  apply Guarded_bind; [apply Inert_cur_execute|]. intros row.
  apply Guarded_bind; [apply Inert_subscript|]. intros acode.
  apply Guarded_bind.
  { destruct (String.eqb acode "RELATIONSHIP"); [|apply Inert_ret].
    apply Inert_bind; [apply Inert_adjust_responses|].
    intros ?. apply Inert_ret. }
  intros [stored score].
  apply Guarded_bind; [apply Inert_cur_execute|]. intros row'.
  apply Guarded_bind; [apply Inert_subscript|]. intros sev.
  apply Guarded_bind; [apply Inert_cur_execute|]. intros row''.
  apply Guarded_bind; [apply Inert_subscript|]. intros rid.
  apply Guarded_bind; [apply Inert_insert_details|]. intros _.
  intros w r w' H. unfold bind, conn_commit, bind in H.
  destruct (statement env w) as [[[]|e] w1] eqn:Es;
    apply Inert_statement in Es as (? & ? & ? & He);
    injection H as <- <-; simpl; split_and!; try done.
  intros e' [= <-]. split; [done|]. by apply He.
Qed.

End SaveProperties2.

Section SaveResult.

Variable env : Env.

(** The two ways [save_assessment_response] ends: everything written and
    [True] returned, or nothing written, the error shown and [False]
    returned.  It never raises. *)
Lemma save_assessment_response_cases uid atype responses total w :
  ∃ w',
    w_session w' = w_session w ∧
    ((save_assessment_response env uid atype responses total w
      = (Ok true, w') ∧
      w_out w' = w_out w ∧
      ∃ acode stored score sev,
        select_code atype (w_db w) = Some acode ∧
        (if String.eqb acode "RELATIONSHIP"
         then reverse_scored (w_db w) responses stored ∧
              score = sum_values stored
         else stored = responses ∧ score = total) ∧
        select_severity atype score (w_db w) = Some sev ∧
        w_db w' = saved_database env (w_db w) uid atype stored score sev)
     ∨
     (save_assessment_response env uid atype responses total w
      = (Ok false, w') ∧
      w_db w' = w_db w ∧
      ∃ e, w_out w' =
           w_out w ++ [StError [FStr "Error saving assessment: "; FExn e]])).
Proof.
  cbv [save_assessment_response get_db_connection connect try_except bind].
  destruct (save_transaction env uid atype responses total
              (set_conn (w_db w) w)) as [[b|e] w1] eqn:E.
  - apply save_transaction_Ok in E
      as (-> & acode & stored & score & sev & ? & ? & ? & ? & ? & ?).
    eexists. split; [|left; split; [reflexivity|]]; simpl; [done|].
    split; [done|]. by exists acode, stored, score, sev.
  - apply save_transaction_Raise in E as (Hd & Ho & Hs & ->).
    eexists. split; [|right; split; [reflexivity|]]; simpl; [done|].
    split; [done|]. exists e. by rewrite Ho.
Qed.

Lemma save_assessment_response_true uid atype responses total w w' :
  save_assessment_response env uid atype responses total w
  = (Ok true, w') →
  w_out w' = w_out w ∧ w_session w' = w_session w ∧
  ∃ acode stored score sev,
    select_code atype (w_db w) = Some acode ∧
    (if String.eqb acode "RELATIONSHIP"
     then reverse_scored (w_db w) responses stored ∧
          score = sum_values stored
     else stored = responses ∧ score = total) ∧
    select_severity atype score (w_db w) = Some sev ∧
    w_db w' = saved_database env (w_db w) uid atype stored score sev.
Proof.
  intros H.
  destruct (save_assessment_response_cases uid atype responses total w)
    as (w'' & Hs & [(E & Ho & Hex) | (E & _)]); rewrite E in H;
    [|discriminate].
  injection H as <-. by split_and!.
Qed.

End SaveResult.

(** ** Failures of the store *)

Section Faults.

Variable env : Env.

Lemma Clean_ret {A} (a : A) : Clean env (ret a).
Proof. intros w a' w' [= <- <-]. split; [done|]. intros; lia. Qed.

Lemma Clean_bind {A B} (m : App A) (k : A → App B) :
  Clean env m → (∀ a, Clean env (k a)) → Clean env (bind m k).
Proof.
  intros Hm Hk w b w' (a & w1 & [H1 F1]%Hm & [H2 F2]%Hk)%bind_Ok.
  split; [lia|]. intros n Hn.
  destruct (decide (n < w_stmt w1)%nat); [apply F1 | apply F2]; lia.
Qed.

Lemma Clean_statement : Clean env (statement env).
Proof.
  intros w [] w' (-> & [[_ Hf] | (? & [=] & _)])%statement_inv. simpl.
  split; [lia|]. intros n Hn. by replace n with (w_stmt w) by lia.
Qed.

Lemma Clean_cur_execute {A} (sql : Database → Database * A) :
  Clean env (cur_execute env sql).
Proof.
  apply Clean_bind; [apply Clean_statement|].
  intros _ w a w'. destruct (sql (w_conn w)). intros [= <- <-].
  split; [done|]. simpl. intros; lia.
Qed.

Lemma Clean_subscript {A} (row : option A) : Clean env (subscript row).
Proof. destruct row; [apply Clean_ret | by intros ???]. Qed.

Lemma Clean_for_each {A} (l : list A) (body : A → App unit) :
  (∀ x, Clean env (body x)) → Clean env (for_each l body).
Proof.
  intros Hb. induction l; simpl; [apply Clean_ret|].
  apply Clean_bind; auto.
Qed.

Lemma Clean_adjust_responses responses adjusted :
  Clean env (adjust_responses env responses adjusted).
Proof.
  revert adjusted.
  induction responses as [|[[q o] v] rest IH]; intros adjusted; simpl.
  - apply Clean_ret.
  - apply Clean_bind; [apply Clean_cur_execute|]. intros row.
    apply Clean_bind; [apply Clean_subscript|]. intros order.
    case_bool_decide; apply IH.
Qed.

Lemma Clean_save_transaction uid atype responses total :
  Clean env (save_transaction env uid atype responses total).
Proof.
  unfold save_transaction.
  apply Clean_bind; [apply Clean_cur_execute|]. intros row.
  apply Clean_bind; [apply Clean_subscript|]. intros acode.
  apply Clean_bind.
  { destruct (String.eqb acode "RELATIONSHIP"); [|apply Clean_ret].
    apply Clean_bind; [apply Clean_adjust_responses|].
    intros ?. apply Clean_ret. }
  intros [stored score].
  apply Clean_bind; [apply Clean_cur_execute|]. intros row'.
  apply Clean_bind; [apply Clean_subscript|]. intros sev.
  apply Clean_bind; [apply Clean_cur_execute|]. intros row''.
  apply Clean_bind; [apply Clean_subscript|]. intros rid.
  apply Clean_bind.
  { apply Clean_for_each. intros [[??]?]. apply Clean_cur_execute. }
  intros _. apply Clean_bind; [|intros; apply Clean_ret].
  apply Clean_bind; [apply Clean_statement|].
  intros _ w a w' [= <- <-]. split; [done|]. simpl. intros; lia.
Qed.

(** A save that returns [True] has met no failing statement. *)
Lemma save_assessment_response_clean uid atype responses total w w' :
  save_assessment_response env uid atype responses total w
  = (Ok true, w') →
  ∀ n, (w_stmt w ≤ n < w_stmt w')%nat → db_fault env n = None.
Proof.
  cbv [save_assessment_response get_db_connection connect try_except bind].
  destruct (save_transaction env uid atype responses total
              (set_conn (w_db w) w)) as [[b|e] w1] eqn:E.
  - intros [= -> <-]. by apply Clean_save_transaction in E as [_ F].
  - by destruct (is_Exception e).
Qed.

End Faults.

(** ** Scoring and persistence *)

Lemma reverse_scored_length db responses adjusted :
  reverse_scored db responses adjusted → length adjusted = length responses.
Proof. intros H. symmetry. by eapply Forall2_length. Qed.

Lemma reverse_scored_fmap db responses adjusted :
  reverse_scored db responses adjusted →
  adjusted =
    (λ r, (r.1.1, r.1.2,
           stored_value (default 0 (select_question_order r.1.1 db)) r.2))
      <$> responses.
Proof.
  induction 1 as [|r a rs adj (order & Ho & ->) _ IH]; [done|].
  simpl. rewrite Ho. simpl. by f_equal.
Qed.

(** C1. When the assessment type code is "RELATIONSHIP", a successful save
    appends one detail row per answer in which an answer to a question at
    ordinal position 4 or 7 with raw value [v] carries [6 - v] and every
    other answer its raw value, and one response row whose total score is
    the sum of these stored values. *)
Theorem C1_relationship_reverse_scoring env uid atype responses total w w' :
  select_code atype (w_db w) = Some "RELATIONSHIP" →
  save_assessment_response env uid atype responses total w = (Ok true, w') →
  ∃ stored sev,
    Forall2
      (λ r a, ∃ order,
         select_question_order r.1.1 (w_db w) = Some order ∧
         a.1 = r.1 ∧
         a.2 = if decide (order = 4 ∨ order = 7) then 6 - r.2 else r.2)
      responses stored ∧
    response_details (w_db w') =
      response_details (w_db w) ++
        (detail_row (new_response_id env (assessment_responses (w_db w)))
           <$> stored) ∧
    assessment_responses (w_db w') =
      assessment_responses (w_db w) ++
        [header_row env (w_db w) uid atype (sum_values stored) sev].
Proof.
  intros Hcode (_ & _ & acode & stored & score & sev & Hc & Hsc & _ & ->)
    %save_assessment_response_true.
  rewrite Hcode in Hc. injection Hc as <-. simpl in Hsc.
  destruct Hsc as [Hrs ->]. exists stored, sev. split_and!; [|done..].
  eapply Forall2_impl; [exact Hrs|]. intros r a (order & Ho & ->).
  exists order. by destruct r as [[q o] v].
Qed.

(** The scenario of the specification: raw values [5,4,3,2,1,3,4] at
    positions 1..7 are stored as [5,4,3,4,1,3,2] with total score 22. *)
Lemma C1_relationship_scenario :
  select_code 1 Sample.db = Some "RELATIONSHIP" ∧
  save_assessment_response Sample.env 1 1 Sample.relationship_answers 22
    (Sample.world Sample.db ∅)
  = (Ok true, Sample.relationship_saved) ∧
  response_value <$> response_details (w_db Sample.relationship_saved)
  = [5; 4; 3; 4; 1; 3; 2] ∧
  total_score <$> assessment_responses (w_db Sample.relationship_saved)
  = [22].
Proof.
  assert (select_code 1 Sample.db = Some "RELATIONSHIP") as Hcode
    by reflexivity.
  assert (save_assessment_response Sample.env 1 1 Sample.relationship_answers
            22 (Sample.world Sample.db ∅)
          = (Ok true, Sample.relationship_saved)) as Hrun
    by (vm_compute; reflexivity).
  split; [exact Hcode|]. split; [exact Hrun|].
  destruct (C1_relationship_reverse_scoring Sample.env 1 1
              Sample.relationship_answers 22 (Sample.world Sample.db ∅)
              Sample.relationship_saved Hcode Hrun)
    as (stored & sev & Hst & -> & ->).
  assert (stored.*2 = [5; 4; 3; 4; 1; 3; 2]) as Hv.
  { unfold Sample.relationship_answers in Hst.
    repeat match goal with
           | H : Forall2 _ (_ :: _) _ |- _ =>
               apply Forall2_cons_inv_l in H
                 as ([[??]?] & ? & (? & [= <-] & _ & Hval) & H & ->);
               simpl in Hval; subst
           | H : Forall2 _ [] _ |- _ => apply Forall2_nil_inv_l in H as ->
           end.
    reflexivity. }
  split.
  - change (response_details (w_db (Sample.world Sample.db ∅))) with
      (@nil ResponseDetail).
    rewrite app_nil_l, <- list_fmap_compose. exact Hv.
  - change (assessment_responses (w_db (Sample.world Sample.db ∅))) with
      (@nil AssessmentResponse).
    simpl. f_equal. unfold sum_values.
    transitivity (foldl Z.add 0 stored.*2).
    { clear. generalize 0. induction stored; intros; simpl; auto. }
    by rewrite Hv.
Defined.

(** C4. [save_assessment_response] always returns: either [True], with the
    response row and all of its detail rows committed together and no
    statement of the run having failed, or [False], with the committed
    store exactly as before and the error shown to the user. *)
Theorem C4_save_is_atomic env uid atype responses total w :
  ∃ b w',
    save_assessment_response env uid atype responses total w = (Ok b, w') ∧
    if b
    then ∃ stored score sev,
           length stored = length responses ∧
           w_db w' = saved_database env (w_db w) uid atype stored score sev ∧
           w_out w' = w_out w ∧
           ∀ n, (w_stmt w ≤ n < w_stmt w')%nat → db_fault env n = None
    else w_db w' = w_db w ∧
         ∃ e, w_out w' =
              w_out w ++ [StError [FStr "Error saving assessment: "; FExn e]].
Proof.
  destruct (save_assessment_response_cases env uid atype responses total w)
    as (w' & _ & [(E & Ho & acode & stored & score & sev & _ & Hsc & _ & Hd)
                 | (E & Hd & e & Ho)]).
  - exists true, w'. split; [done|]. exists stored, score, sev.
    split_and!; [|done..|by eapply save_assessment_response_clean].
    destruct (String.eqb acode "RELATIONSHIP").
    + destruct Hsc as [Hrs _]. by eapply reverse_scored_length.
    + by destruct Hsc as [-> _].
  - exists false, w'. split; [done|]. split; [done|]. by exists e.
Qed.

(** A failure of the store on the tenth statement, after the response row
    and one detail row have been written to the connection: the save
    returns [False] and the store holds neither. *)
Lemma failure_in_the_middle_rolls_back :
  let w := Sample.world Sample.db ∅ in
  let r := save_assessment_response Sample.faulty_env 1 1
             Sample.relationship_answers 22 w in
  r.1 = Ok false ∧ w_db r.2 = w_db w ∧
  w_out r.2 = [StError [FStr "Error saving assessment: ";
                        FExn (Psycopg2Error OperationalError)]].
Proof. vm_compute. by split_and!. Qed.

Lemma bind_cong {A B} (m : App A) (k1 k2 : A → App B) w :
  (∀ a w1, m w = (Ok a, w1) → k1 a w1 = k2 a w1) →
  bind m k1 w = bind m k2 w.
Proof. unfold bind. destruct (m w) as [[a|e] w1]; auto. Qed.

Section CallerTotal.

Variable env : Env.

(** In the reverse-scoring branch the [total_score] argument is dead. *)
Lemma save_transaction_total_dead uid atype responses t1 t2 w :
  select_code atype (w_conn w) = Some "RELATIONSHIP" →
  save_transaction env uid atype responses t1 w
  = save_transaction env uid atype responses t2 w.
Proof.
  intros Hcode. unfold save_transaction.
  apply bind_cong. intros row w1 (_ & -> & ->)%cur_execute_Ok.
  apply bind_cong. intros acode w2 [Hrow ->]%subscript_Ok.
  simpl in Hrow. rewrite Hcode in Hrow. by injection Hrow as <-.
Qed.

Lemma save_assessment_response_total_dead uid atype responses t1 t2 w :
  select_code atype (w_db w) = Some "RELATIONSHIP" →
  save_assessment_response env uid atype responses t1 w
  = save_assessment_response env uid atype responses t2 w.
Proof.
  intros Hcode.
  cbv [save_assessment_response get_db_connection connect try_except bind].
  by rewrite (save_transaction_total_dead _ _ _ t1 t2).
Qed.

End CallerTotal.

(** C10. For the "RELATIONSHIP" type the [total_score] argument does not
    influence the save at all and the stored total is the sum of the stored
    detail values; for any other type the argument is stored as it is,
    next to the unmodified answers, whatever their sum. *)
Theorem C10_caller_supplied_total env uid atype responses total w w' acode :
  select_code atype (w_db w) = Some acode →
  save_assessment_response env uid atype responses total w = (Ok true, w') →
  ∃ stored score sev,
    w_db w' = saved_database env (w_db w) uid atype stored score sev ∧
    if String.eqb acode "RELATIONSHIP"
    then score = sum_values stored ∧
         ∀ total',
           save_assessment_response env uid atype responses total' w
           = (Ok true, w')
    else score = total ∧ stored = responses.
Proof.
  intros Hcode Hrun.
  pose proof Hrun
    as (_ & _ & acode' & stored & score & sev & Hc & Hsc & _ & Hdb)
         %save_assessment_response_true.
  rewrite Hcode in Hc. injection Hc as <-.
  exists stored, score, sev. split; [done|].
  destruct (String.eqb_spec acode "RELATIONSHIP") as [->|_].
  - split; [by destruct Hsc|]. intros total'.
    by rewrite (save_assessment_response_total_dead _ _ _ _ total' total).
  - by destruct Hsc.
Qed.

(** A caller passing 10 with answers that sum to 6 gets 10 stored. *)
Lemma C10_inconsistent_total_stored :
  select_code 2 Sample.db = Some "ANXIETY" ∧
  save_assessment_response Sample.env 1 2 Sample.anxiety_answers 10
    (Sample.world Sample.db ∅)
  = (Ok true, Sample.anxiety_saved) ∧
  total_score <$> assessment_responses (w_db Sample.anxiety_saved) = [10] ∧
  sum_values Sample.anxiety_answers = 6 ∧
  response_value <$> response_details (w_db Sample.anxiety_saved)
  = [2; 3; 1].
Proof.
  assert (select_code 2 Sample.db = Some "ANXIETY") as Hcode by reflexivity.
  assert (save_assessment_response Sample.env 1 2 Sample.anxiety_answers 10
            (Sample.world Sample.db ∅)
          = (Ok true, Sample.anxiety_saved)) as Hrun
    by (vm_compute; reflexivity).
  split; [exact Hcode|]. split; [exact Hrun|].
  destruct (C10_caller_supplied_total Sample.env 1 2 Sample.anxiety_answers
              10 (Sample.world Sample.db ∅) Sample.anxiety_saved "ANXIETY"
              Hcode Hrun)
    as (stored & score & sev & -> & Hs).
  simpl in Hs. destruct Hs as [-> ->]. by split_and!.
Defined.

(** ** Severity bands *)



(** Without a band for the score the lookup yields no row, subscripting it
    raises [TypeError], and the handler reports that exception. *)
Lemma gap_is_reported_as_TypeError :
  let w := Sample.world Sample.db ∅ in
  let r := save_assessment_response Sample.env 1 2 Sample.anxiety_answers 99
             w in
  matching_bands 2 99 (w_db w) = [] ∧
  r.1 = Ok false ∧ w_db r.2 = w_db w ∧
  w_out r.2 = [StError [FStr "Error saving assessment: "; FExn TypeError]].
Proof. vm_compute. by split_and!. Qed.

(** ** Runs as steps of a preorder on worlds *)

Lemma bind_inv {A B} (m : App A) (k : A → App B) w r w' :
  bind m k w = (r, w') →
  (∃ e, m w = (Raise e, w') ∧ r = Raise e) ∨
  (∃ a w1, m w = (Ok a, w1) ∧ k a w1 = (r, w')).
Proof.
  unfold bind. destruct (m w) as [[a|e] w1]; [eauto|].
  intros [= <- <-]. eauto.
Qed.

Section Step.

Context (R : relation World) `{!PreOrder R}.

Lemma Step_ret {A} (a : A) : Step R (ret a).
Proof. by intros w r w' [= <- <-]. Qed.

Lemma Step_raise {A} e : Step R (@raise A e).
Proof. by intros w r w' [= <- <-]. Qed.

Lemma Step_bind {A B} (m : App A) (k : A → App B) :
  Step R m → (∀ a, Step R (k a)) → Step R (bind m k).
Proof.
  intros Hm Hk w r w' [(e & E & _) | (a & w1 & E1 & E2)]%bind_inv.
  - by eapply Hm.
  - etrans; [by eapply Hm | by eapply Hk].
Qed.

Lemma Step_for_each {A} (l : list A) (body : A → App unit) :
  (∀ x, Step R (body x)) → Step R (for_each l body).
Proof.
  intros Hb. induction l; simpl; [apply Step_ret|].
  apply Step_bind; auto.
Qed.

Lemma Step_try_except {A} (m : App A) catches h :
  Step R m → (∀ e, Step R (h e)) → Step R (try_except m catches h).
Proof.
  intros Hm Hh w r w'. unfold try_except.
  destruct (m w) as [[a|e] w1] eqn:E.
  - intros [= <- <-]. by eapply Hm.
  - destruct (catches e).
    + intros E2. etrans; [by eapply Hm | by eapply Hh].
    + intros [= <- <-]. by eapply Hm.
Qed.

Lemma Step_subscript {A} (row : option A) : Step R (subscript row).
Proof. destruct row; [apply Step_ret | apply Step_raise]. Qed.

Lemma Step_session_lookup k : Step R (session_lookup k).
Proof. by intros w r w' [= <- <-]. Qed.

Lemma Step_session_keys : Step R session_keys.
Proof. by intros w r w' [= <- <-]. Qed.

Lemma Step_session_getattr k d : Step R (session_getattr k d).
Proof.
  apply Step_bind; [apply Step_session_lookup | intros; apply Step_ret].
Qed.

Lemma Step_session_attr k : Step R (session_attr k).
Proof.
  apply Step_bind; [apply Step_session_lookup|].
  intros [v|]; [apply Step_ret | apply Step_raise].
Qed.

Lemma Step_current_user : Step R current_user.
Proof.
  apply Step_bind; [apply Step_session_attr|].
  intros []; first [apply Step_ret | apply Step_raise].
Qed.

Lemma Step_rerun {A} : Step R (@rerun A).
Proof. apply Step_raise. Qed.

Lemma Step_list_index l x : Step R (list_index l x).
Proof.
  unfold list_index.
  destruct (list_find _ l) as [[]|]; [apply Step_ret | apply Step_raise].
Qed.

Lemma Step_emit x : closed_emit R x → Step R (emit x).
Proof. intros C w r w' [= <- <-]. apply C. Qed.

Lemma Step_session_set k v : closed_session R → Step R (session_set k v).
Proof. intros C w r w' [= <- <-]. apply C. Qed.

Lemma Step_session_del k : closed_session R → Step R (session_del k).
Proof. intros C w r w' [= <- <-]. apply C. Qed.

Section Store.

Variable env : Env.
Hypothesis Hconn : closed_conn R.
Hypothesis Hstmt : closed_stmt R.

Lemma Step_statement : Step R (statement env).
Proof. intros w r w' [-> _]%statement_inv. apply Hstmt. Qed.

Lemma Step_cur_execute {A} (sql : Database → Database * A) :
  Step R (cur_execute env sql).
Proof.
  apply Step_bind; [apply Step_statement|].
  intros _ w r w'. destruct (sql (w_conn w)). intros [= <- <-].
  apply Hconn.
Qed.

Lemma Step_conn_rollback : Step R conn_rollback.
Proof. intros w r w' [= <- <-]. apply Hconn. Qed.

Lemma Step_conn_commit : closed_commit R → Step R (conn_commit env).
Proof.
  intros C. apply Step_bind; [apply Step_statement|].
  intros _ w r w' [= <- <-]. apply C.
Qed.

Lemma Step_get_db_connection {A} (body : App A) :
  Step R body → Step R (get_db_connection body).
Proof.
  intros Hb w r w'. unfold get_db_connection, connect, bind.
  destruct (body (set_conn (w_db w) w)) as [r1 w1] eqn:E.
  intros [= <- <-]. etrans; [apply Hconn|].
  etrans; [by eapply Hb|]. apply Hconn.
Qed.

End Store.

End Step.

Global Instance same_db_preorder : PreOrder same_db.
Proof.
split; [by intros ? |].
intros ??? H1 H2; unfold same_db in *; congruence.
Qed.

(** ** Ordering and dictionaries *)

Lemma elem_of_insert_by {A} (key : A → Z) (r x : A) l :
  x ∈ insert_by key r l ↔ x = r ∨ x ∈ l.
Proof.
  induction l as [|y l IH]; simpl.
  - rewrite list_elem_of_singleton, elem_of_nil. tauto.
  - case_decide; rewrite !elem_of_cons; [tauto|]. rewrite IH. tauto.
Qed.

Lemma elem_of_order_by {A} (key : A → Z) (x : A) l :
  x ∈ order_by key l ↔ x ∈ l.
Proof.
  induction l as [|y l IH]; simpl; [done|].
  by rewrite elem_of_insert_by, IH, elem_of_cons.
Qed.

Lemma dict_get_set {K V} `{EqDecision K} (k k' : K) (v : V) d :
  dict_get k (dict_set k' v d)
  = if decide (k = k') then Some v else dict_get k d.
Proof.
  induction d as [|[k0 v0] d IH]; simpl.
  - done.
  - destruct (decide (k' = k0)) as [->|Hne]; simpl.
    + by destruct (decide (k = k0)).
    + rewrite IH. destruct (decide (k = k0)) as [->|]; [|done].
      by rewrite decide_False by done.
Qed.

Lemma dict_get_options (text : string) opts d opt :
  dict_get text (foldl (λ d opt, dict_set (oj_text opt) opt d) d opts)
  = Some opt →
  opt ∈ opts ∨ dict_get text d = Some opt.
Proof.
  revert d. induction opts as [|o opts IH]; intros d; simpl; [auto|].
  intros [H|H]%IH; [left; by right|].
  rewrite dict_get_set in H. case_decide; [|auto].
  injection H as <-. left. by left.
Qed.

(** ** The questionnaire *)

Lemma closed_conn_same_db : closed_conn same_db.
Proof. by intros ??. Qed.
Lemma closed_stmt_same_db : closed_stmt same_db.
Proof. by intros ??. Qed.
Lemma closed_emit_same_db x : closed_emit same_db x.
Proof. by intros ?. Qed.
Lemma closed_session_same_db : closed_session same_db.
Proof. by intros ??. Qed.

Create HintDb step discriminated.
Global Hint Resolve closed_conn_same_db closed_stmt_same_db
  closed_emit_same_db closed_session_same_db : step.

Section Questionnaire.

Variable env : Env.
Variable inputs : Inputs.


(** A read-only query in a connection of its own. *)
Lemma read_query_same_db {A} (q : Database → A) :
  Step same_db (get_db_connection (cur_execute env (query q))).
Proof.
  apply Step_get_db_connection; [apply _ | auto with step|].
  apply Step_cur_execute; [apply _ | auto with step..].
Qed.

Lemma read_query_Ok {A} (q : Database → A) w a w' :
  get_db_connection (cur_execute env (query q)) w = (Ok a, w') →
  a = q (w_db w).
Proof.
  unfold get_db_connection, connect, bind at 1.
  destruct (cur_execute env (query q) (set_conn (w_db w) w))
    as [r1 w1] eqn:E.
  intros [= -> <-]. by apply cur_execute_Ok in E as (_ & _ & ->).
Qed.

Lemma questionnaire_loop_same_db data responses answered :
  Step same_db (questionnaire_loop inputs data responses answered).
Proof.
  revert responses answered.
  induction data as [|q data IH]; intros responses answered; simpl.
  - apply Step_ret; apply _.
  - destruct (qr_options q).
    + apply Step_bind; [apply _ | apply Step_emit; auto with step|]. intros _.
      destruct (negb _); [|apply IH].
      destruct (dict_get _ _); [apply IH | apply Step_raise; apply _].
    + apply Step_bind; [apply _ | apply Step_emit; auto with step |].
      intros; apply IH.
Qed.

Lemma questionnaire_loop_Ok data responses answered w rs qa w' :
  questionnaire_loop inputs data responses answered w = (Ok (rs, qa), w') →
  ∃ new, rs = responses ++ new ∧ Forall (offered data) new.
Proof.
  revert responses answered w.
  induction data as [|q data IH]; intros responses answered w; simpl.
  - intros [= <- <- <-]. exists []. by rewrite app_nil_r.
  - assert (∀ new, Forall (offered data) new → Forall (offered (q :: data)) new)
      as Hmono.
    { intros new Hnew. eapply Forall_impl; [exact Hnew|].
      intros r (q' & opts & opt & ? & ?).
      exists q', opts, opt. split; [by right | done]. }
    destruct (qr_options q) as [opts|] eqn:Hopts.
    + intros (_ & w1 & _ & H)%bind_Ok.
      destruct (negb _).
      * destruct (dict_get _ _) as [opt|] eqn:Hget; [|done].
        apply IH in H as (new & -> & Hnew).
        exists ((qr_question_id q, oj_option_id opt, oj_value opt) :: new).
        split; [by rewrite <- app_assoc|]. constructor; [|by apply Hmono].
        apply dict_get_options in Hget as [Hin|Hget]; [|done].
        exists q, opts, opt. split; [by left | done].
      * apply IH in H as (new & -> & Hnew). exists new. auto.
    + intros (_ & w1 & _ & H)%bind_Ok.
      apply IH in H as (new & -> & Hnew). exists new. auto.
Qed.

(** Options offered by the rows of the question query are rows of
    [response_options] of the requested assessment type. *)
Lemma offered_option atype db r :
  offered (select_assessment_questions atype db) r →
  ∃ o, o ∈ response_options db ∧ option_type_id o = atype ∧
       option_id o = r.1.2 ∧ option_value o = r.2.
Proof.
  intros (q & opts & opt & Hq & Hopts & Hopt & ->).
  unfold select_assessment_questions in Hq.
  apply elem_of_order_by, list_elem_of_bind in Hq as (aq & Hq & Haq).
  apply list_elem_of_filter in Haq as [Htype _].
  destruct (filter _ (response_options db)) as [|o0 os] eqn:Hf;
    [by apply elem_of_nil in Hq|].
  apply list_elem_of_singleton in Hq as ->. cbn [qr_options] in Hopts.
  assert (opts = order_by oj_order (option_json <$> o0 :: os)) as ->
    by congruence.
  apply elem_of_order_by, list_elem_of_fmap in Hopt as (o & -> & Ho).
  rewrite <- Hf in Ho. apply list_elem_of_filter in Ho as [Ho1 Ho2].
  exists o. split_and!; [done | congruence | done..].
Qed.

End Questionnaire.

(** C5. Whatever a run of the questionnaire page of an assessment type
    other than "RELATIONSHIP" writes to the store is one response whose
    total score is the sum of the raw values of the selected options,
    together with detail rows that carry exactly those raw values. *)
Theorem C5_raw_values_for_other_types env inputs atype acode w r w' :
  select_code atype (w_db w) = Some acode →
  acode ≠ "RELATIONSHIP" →
  render_questionnaire env inputs atype w = (r, w') →
  w_db w' = w_db w ∨
  ∃ uid responses sev,
    Forall
      (λ a, ∃ o, o ∈ response_options (w_db w) ∧ option_type_id o = atype ∧
                 option_id o = a.1.2 ∧ option_value o = a.2)
      responses ∧
    w_db w' =
      saved_database env (w_db w) uid atype responses (sum_values responses)
        sev.
Proof.
  intros Hcode Hne H. unfold render_questionnaire in H.
  apply bind_inv in H as [(e & E & _) | (data & w1 & E1 & H)];
    [left; by apply read_query_same_db in E|].
  pose proof (read_query_same_db _ _ _ _ _ E1) as D1.
  apply read_query_Ok in E1 as Hdata. unfold same_db in D1.
  destruct data as [|q0 data0] eqn:Edata.
  { left. injection H as _ <-. done. }
  rewrite <- Edata in *. clear Edata q0 data0.
  apply bind_inv in H as [(e & E & _) | (row & w2 & E2 & H)];
    [left; apply read_query_same_db in E; unfold same_db in *; congruence|].
  apply read_query_same_db in E2 as D2. unfold same_db in D2.
  apply bind_inv in H as [(e & E & _) | (ttl & w3 & E3 & H)];
    [left; apply (Step_subscript same_db) in E; unfold same_db in *;
     congruence|].
  apply (Step_subscript same_db) in E3 as D3. unfold same_db in D3.
  apply bind_inv in H as [(e & [=] & _) | ([] & w4 & [= <-] & H)].
  apply bind_inv in H as [(e & [=] & _) | ([] & w5 & [= <-] & H)].
  apply bind_inv in H as [(e & E & _) | ([rs qa] & w6 & E6 & H)].
  { left. apply questionnaire_loop_same_db in E. unfold same_db in *.
    simpl in E. congruence. }
  apply questionnaire_loop_same_db in E6 as D6. unfold same_db in D6.
  simpl in D6.
  apply questionnaire_loop_Ok in E6 as (new & -> & Hnew). simpl in *.
  apply bind_inv in H as [(e & [=] & _) | ([] & w7 & [= <-] & H)].
  destruct (in_form_submit inputs "Submit Assessment");
    [|left; injection H as _ <-; simpl; congruence].
  destruct (negb (all (dict_values qa)));
    [left; injection H as _ <-; simpl; congruence|].
  apply bind_inv in H as [(e & E & _) | (uid & w8 & E8 & H)].
  { left. apply (Step_current_user same_db) in E. unfold same_db in *.
    simpl in E. congruence. }
  apply (Step_current_user same_db) in E8 as D8. unfold same_db in D8.
  simpl in D8.
  assert (w_db w8 = w_db w) as D by congruence.
  destruct (save_assessment_response_cases env uid atype new
              (sum_values new) w8)
    as (w9 & _ & [(E & _ & acode' & stored & score & sev & Hc & Hsc & _ & Hd)
                 | (E & Hd & _)]).
  - apply bind_inv in H as [(e & E' & _) | (ok & w9' & E' & H)];
      [congruence|].
    rewrite E in E'. injection E' as <- <-.
    rewrite D, Hcode in Hc. injection Hc as <-.
    rewrite (proj2 (String.eqb_neq _ _) Hne) in Hsc. destruct Hsc as [-> ->].
    right. exists uid, new, sev. split.
    + eapply Forall_impl; [exact Hnew|]. intros a Ha. rewrite Hdata in Ha.
      by apply offered_option.
    + rewrite <- D, <- Hd.
      apply bind_inv in H as [(e & [=] & _) | ([] & w10 & [= <-] & H)].
      apply bind_inv in H as [(e & [=] & _) | ([] & w11 & [= <-] & H)].
      by injection H as _ <-.
  - apply bind_inv in H as [(e & E' & _) | (ok & w9' & E' & H)];
      [congruence|].
    rewrite E in E'. injection E' as <- <-. injection H as _ <-.
    left. congruence.
Qed.

(** ** The history query *)

Lemma add_to_group_keys k d groups k' :
  k' ∈ (add_to_group k d groups).*1 ↔ k' = k ∨ k' ∈ groups.*1.
Proof.
  induction groups as [|[k0 ds] groups IH]; simpl.
  - rewrite list_elem_of_singleton, elem_of_nil. tauto.
  - case_decide; simpl; rewrite !elem_of_cons; [|rewrite IH]; 
      intuition congruence.
Qed.

Lemma foldl_add_to_group_keys rows groups k :
  k ∈ (foldl (λ groups r, add_to_group r.1 r.2 groups) groups rows).*1
  ↔ k ∈ groups.*1 ∨ k ∈ rows.*1.
Proof.
  revert groups. induction rows as [|[k0 d] rows IH]; intros groups; simpl.
  - rewrite elem_of_nil. tauto.
  - rewrite IH, add_to_group_keys, elem_of_cons. tauto.
Qed.

Lemma group_by_key_keys rows k :
  k ∈ (group_by_key rows).*1 ↔ k ∈ rows.*1.
Proof.
  unfold group_by_key. rewrite foldl_add_to_group_keys. simpl.
  rewrite elem_of_nil. tauto.
Qed.

Lemma history_key_row g : history_key (history_row g) = g.1.
Proof. by destruct g as [[[[[[??]?]?]?]?]?]. Qed.

(** The rows of the history are the distinct keys of the join. *)
Lemma select_history_keys uid db k :
  k ∈ history_key <$> select_history uid db ↔ k ∈ (history_join uid db).*1.
Proof.
  rewrite <- group_by_key_keys. unfold select_history, order_by_desc.
  rewrite !list_elem_of_fmap. split.
  - intros (e & -> & (g & -> & Hg)%elem_of_order_by%list_elem_of_fmap).
    exists g. by rewrite history_key_row.
  - intros (g & -> & Hg). exists (history_row g).
    rewrite history_key_row. split; [done|].
    apply elem_of_order_by, list_elem_of_fmap. eauto.
Qed.

Lemma elem_of_history_join uid db k :
  k ∈ (history_join uid db).*1 ↔
  ∃ ar aty sl rd aq ro,
    ar ∈ assessment_responses db ∧ response_user_id ar = uid ∧
    aty ∈ assessment_types db ∧
    assessment_type_id aty = response_type_id ar ∧
    sl ∈ severity_levels db ∧ severity_id sl = response_severity_id ar ∧
    rd ∈ response_details db ∧ detail_response_id rd = response_id ar ∧
    aq ∈ assessment_questions db ∧ question_id aq = detail_question_id rd ∧
    ro ∈ response_options db ∧ option_id ro = selected_option_id rd ∧
    k = (response_id ar, code aty, title aty, total_score ar,
         severity_label sl, created_at ar).
Proof.
  unfold history_join. rewrite list_elem_of_fmap. split.
  - intros ([k' d] & -> & H).
    apply list_elem_of_bind in H as (ar & H & [? ?]%list_elem_of_filter).
    apply list_elem_of_bind in H as (aty & H & [? ?]%list_elem_of_filter).
    apply list_elem_of_bind in H as (sl & H & [? ?]%list_elem_of_filter).
    apply list_elem_of_bind in H as (rd & H & [? ?]%list_elem_of_filter).
    apply list_elem_of_bind in H as (aq & H & [? ?]%list_elem_of_filter).
    apply list_elem_of_bind in H as (ro & H & [? ?]%list_elem_of_filter).
    apply list_elem_of_singleton in H as [= -> ->].
    exists ar, aty, sl, rd, aq, ro. by split_and!.
  - intros (ar & aty & sl & rd & aq & ro & ? & ? & ? & ? & ? & ? & ? & ? &
            ? & ? & ? & ? & ->).
    eexists (_, _). split; [reflexivity|].
    apply list_elem_of_bind. exists ar. split; [|by apply list_elem_of_filter].
    apply list_elem_of_bind. exists aty. split; [|by apply list_elem_of_filter].
    apply list_elem_of_bind. exists sl. split; [|by apply list_elem_of_filter].
    apply list_elem_of_bind. exists rd. split; [|by apply list_elem_of_filter].
    apply list_elem_of_bind. exists aq. split; [|by apply list_elem_of_filter].
    apply list_elem_of_bind. exists ro. split; [|by apply list_elem_of_filter].
    by apply list_elem_of_singleton.
Qed.

Lemma NoDup_fmap_eq {A B} (f : A → B) (l : list A) x y :
  NoDup (f <$> l) → x ∈ l → y ∈ l → f x = f y → x = y.
Proof.
  induction l as [|a l IH]; simpl; [by intros _ ?%elem_of_nil|].
  intros [Hn Hd]%NoDup_cons [->|Hx]%elem_of_cons [->|Hy]%elem_of_cons Hf;
    auto.
  - destruct Hn. rewrite Hf. apply list_elem_of_fmap. eauto.
  - destruct Hn. rewrite <- Hf. apply list_elem_of_fmap. eauto.
Qed.

Lemma head_filter_Some {A} (P : A → Prop) `{∀ x, Decision (P x)} l x :
  head (filter P l) = Some x → x ∈ l ∧ P x.
Proof.
  intros Hh. assert (x ∈ filter P l) as [? ?]%list_elem_of_filter; [|done].
  destruct (filter P l); [done|]. injection Hh as ->. by left.
Qed.

(** C6. After a successful save, every row that the history query returns
    for the new response carries the total score stored by the save and
    the label of the band the save selected; and there is such a row in
    the history of the saving user as soon as one stored answer refers to
    an existing question and option.  The store is assumed to assign a
    fresh [response_id] and to keep [severity_id] a key of its table. *)
Theorem C6_history_round_trip env uid atype responses total w w' w2 rows w3 :
  (∀ ar, ar ∈ assessment_responses (w_db w) →
         response_id ar ≠ new_response_id env (assessment_responses (w_db w))) →
  NoDup (severity_id <$> severity_levels (w_db w)) →
  save_assessment_response env uid atype responses total w = (Ok true, w') →
  w_db w2 = w_db w' →
  get_user_assessment_history env uid w2 = (Ok rows, w3) →
  ∃ stored score band,
    head (matching_bands atype score (w_db w)) = Some band ∧
    w_db w' = saved_database env (w_db w) uid atype stored score
                (severity_id band) ∧
    (∀ e, e ∈ rows →
          h_response_id e =
            new_response_id env (assessment_responses (w_db w)) →
          h_total_score e = score ∧
          h_severity_label e = severity_label band) ∧
    ((∃ r aq ro, r ∈ stored ∧
                 aq ∈ assessment_questions (w_db w) ∧ question_id aq = r.1.1 ∧
                 ro ∈ response_options (w_db w) ∧ option_id ro = r.1.2) →
     ∃ e, e ∈ rows ∧
          h_response_id e =
            new_response_id env (assessment_responses (w_db w))).
Proof.
  intros Hfresh Hkey Hsave Hdb Hhist.
  set (rid := new_response_id env (assessment_responses (w_db w))) in *.
  apply save_assessment_response_true in Hsave
    as (_ & _ & acode & stored & score & sev & Hcode & _ & Hsev & Hsaved).
  unfold select_severity in Hsev.
  destruct (head (matching_bands atype score (w_db w))) as [band|] eqn:Hband;
    [|done].
  injection Hsev as <-. exists stored, score, band.
  split; [done|]. split; [done|].
  apply read_query_Ok in Hhist as ->. rewrite Hdb, Hsaved. clear Hdb Hsaved.
  apply head_filter_Some in Hband as (Hband & Hbt & Hbs).
  split.
  - intros e He Hrid.
    assert (history_key e ∈ history_key <$> select_history uid
              (saved_database env (w_db w) uid atype stored score
                 (severity_id band))) as Hk
      by (apply list_elem_of_fmap; eauto).
    apply select_history_keys, elem_of_history_join in Hk
      as (ar & aty & sl & rd & aq & ro & Har & _ & _ & _ & Hsl & Hsid & _ & _
          & _ & _ & _ & _ & Hk).
    injection Hk as Hk1 _ _ Hk4 Hk5 _. simpl in Har, Hsl.
    apply elem_of_app in Har as [Har | ->%list_elem_of_singleton].
    { destruct (Hfresh ar Har). congruence. }
    simpl in *. split; [done|]. rewrite Hk5. f_equal.
    by apply (NoDup_fmap_eq severity_id (severity_levels (w_db w))).
  - intros (r & aq & ro & Hr & Haq & Hqid & Hro & Hoid).
    unfold select_code in Hcode.
    destruct (head (filter _ (assessment_types (w_db w)))) as [aty|] eqn:Ha;
      [|done].
    apply head_filter_Some in Ha as [Hat Hatid].
    set (db' := saved_database _ _ _ _ _ _ _).
    set (h := header_row env (w_db w) uid atype score (severity_id band)).
    assert ((rid, code aty, title aty, score, severity_label band, now env)
            ∈ (history_join uid db').*1) as Hk.
    { apply elem_of_history_join.
      exists h, aty, band, (detail_row rid r), aq, ro. simpl.
      split_and!; try done.
      - apply elem_of_app. right. by left.
      - apply elem_of_app. right. apply list_elem_of_fmap. eauto. }
    apply select_history_keys, list_elem_of_fmap in Hk as (e & He & Hin).
    exists e. split; [done|]. by injection He as <- _ _ _ _ _.
Qed.

(** ** Logout *)

Global Instance same_session_preorder : PreOrder same_session.
Proof.
  split; [by intros ? | intros ??? H1 H2; unfold same_session in *; congruence].
Qed.

Lemma closed_conn_same_session : closed_conn same_session.
Proof. by intros ??. Qed.
Lemma closed_stmt_same_session : closed_stmt same_session.
Proof. by intros ??. Qed.
Lemma closed_emit_same_session x : closed_emit same_session x.
Proof. by intros ?. Qed.
Lemma closed_commit_same_session : closed_commit same_session.
Proof. by intros ?. Qed.

Global Hint Resolve closed_conn_same_session closed_stmt_same_session
  closed_emit_same_session closed_commit_same_session : step.

Lemma set_session_id w : set_session (w_session w) w = w.
Proof. by destruct w. Qed.

Lemma for_each_session_del keys w :
  for_each keys session_del w
  = (Ok tt, set_session (foldl (λ s k, delete k s) (w_session w) keys) w).
Proof.
  revert w. induction keys as [|k keys IH]; intros w; simpl.
  - by rewrite set_session_id.
  - unfold bind, session_del at 1. by rewrite IH.
Qed.

Lemma foldl_delete_lookup (s : gmap string Value) keys k :
  foldl (λ s k, delete k s) s keys !! k
  = if decide (k ∈ keys) then None else s !! k.
Proof.
  revert s. induction keys as [|k0 keys IH]; intros s; simpl; [done|].
  rewrite IH. destruct (decide (k = k0)) as [->|Hne].
  - rewrite lookup_delete_eq. rewrite (decide_True (P := k0 ∈ k0 :: keys));
      [by case_decide | by left].
  - rewrite lookup_delete_ne by done.
    destruct (decide (k ∈ keys)).
    + rewrite decide_True; [done | by right].
    + rewrite decide_False; [done|]. by intros [?|?]%elem_of_cons.
Qed.

Lemma logout_clears w :
  logout w = (Raise RerunException, set_session ∅ w).
Proof.
  unfold logout, bind, session_keys. rewrite for_each_session_del.
  unfold rerun, raise. f_equal. unfold set_session. simpl. f_equal.
  apply map_eq. intros k. rewrite foldl_delete_lookup, lookup_empty.
  case_decide as Hk; [done|].
  destruct (w_session w !! k) as [v|] eqn:E; [|done].
  destruct Hk. apply list_elem_of_fmap. exists (k, v).
  split; [done|]. by apply elem_of_map_to_list.
Qed.

Lemma bind_session_lookup {B} k (f : option Value → App B) w :
  bind (session_lookup k) f w = f (w_session w !! k) w.
Proof. done. Qed.

Lemma bind_bind_session_lookup {B C} k (f : option Value → App B)
    (g : B → App C) w :
  bind (bind (session_lookup k) f) g w = bind (f (w_session w !! k)) g w.
Proof. done. Qed.

Section Authentication.

Variable env : Env.
Variable inputs : Inputs.

Lemma init_database_same_session : Step same_session (init_database env).
Proof.
  unfold init_database.
  apply Step_get_db_connection; [apply _ | auto with step|].
  apply Step_bind; [apply _ | apply Step_cur_execute; auto with step;
                              apply _|].
  intros row. apply Step_bind; [apply _ | apply Step_subscript; apply _|].
  intros []; simpl; [apply Step_ret; apply _|].
  apply Step_bind; [apply _ | apply Step_cur_execute; auto with step;
                              apply _|].
  intros _. apply Step_conn_commit; auto with step. apply _.
Qed.

(** While the session has no [current_user], [main] offers the login and
    sign-up forms and nothing else. *)
Lemma main_unauthenticated w :
  w_session w !! "current_user" = None →
  main env inputs w = auth_page env inputs w.
Proof.
  intros Hs. unfold main, auth_page.
  apply bind_cong. intros [] w1 [= <-].
  apply bind_cong. intros [] w2 E.
  apply init_database_same_session in E. unfold same_session in E.
  simpl in E. rewrite bind_session_lookup. by rewrite E, Hs.
Qed.

End Authentication.

Section Reauthentication.

Variable env : Env.
Variable inputs : Inputs.

Lemma cur_execute_same_session {A} (sql : Database → Database * A) :
  Step same_session (cur_execute env sql).
Proof. apply Step_cur_execute; auto with step. apply _. Qed.

Lemma conn_commit_same_session : Step same_session (conn_commit env).
Proof. apply Step_conn_commit; auto with step. apply _. Qed.

Lemma cur_execute_same_db {A} (sql : Database → Database * A) :
  Step same_db (cur_execute env sql).
Proof. apply Step_cur_execute; auto with step. apply _. Qed.

Lemma init_database_same_db : Step same_db (init_database env).
Proof.
  unfold init_database.
  apply Step_get_db_connection; [apply _ | auto with step|].
  intros w r w' H.
  apply bind_inv in H as [(e & E & _) | (row & w1 & E & H)];
    [by apply cur_execute_same_db in E|].
  pose proof E as (_ & _ & ->)%cur_execute_Ok.
  apply cur_execute_same_db in E.
  simpl in H. injection H as _ <-. done.
Qed.

(** The statements of [login_user] and [register_user] after the session
    has been written: they leave the session alone. *)
Lemma login_tail_same_session uid :
  Step same_session
    (cur_execute env (update_last_login uid (now env)) ;;
     conn_commit env ;; ret true).
Proof.
  apply Step_bind; [apply _ | apply cur_execute_same_session|].
  intros _. apply Step_bind; [apply _ | | intros; apply Step_ret; apply _].
  apply conn_commit_same_session.
Qed.

Lemma login_user_session mail password w r w' :
  login_user env mail password w = (r, w') →
  match select_login mail (hash_password env password) (w_db w) with
  | Some (uid, adm) =>
      w_session w' = w_session w ∨
      w_session w' =
        <["is_admin_view" := VBool adm]>
          (<["is_admin" := VBool adm]>
             (<["current_user" := VInt uid]> (w_session w)))
  | None => w_session w' = w_session w
  end.
Proof.
  unfold login_user, get_db_connection, connect. unfold bind at 1.
  set (w0 := set_conn (w_db w) w).
  destruct (bind _ _ w0) as [r1 w1] eqn:H. intros [= <- <-].
  change (w_session (conn_close w1)) with (w_session w1).
  change (w_session w) with (w_session w0).
  change (w_db w) with (w_conn w0). clearbody w0.
  apply bind_inv in H as [(e & E & _) | (row & w2 & E & H)].
  { apply cur_execute_same_session in E.
    unfold same_session in E. rewrite E. by repeat case_match; auto. }
  apply cur_execute_Ok in E as (_ & -> & ->). simpl in *.
  destruct (select_login _ _ _) as [[uid adm]|]; [|by injection H as _ <-].
  right.
  apply bind_inv in H as [(e & [=] & _) | ([] & w3 & [= <-] & H)].
  apply bind_inv in H as [(e & [=] & _) | ([] & w4 & [= <-] & H)].
  apply bind_inv in H as [(e & [=] & _) | ([] & w5 & [= <-] & H)].
  by apply login_tail_same_session in H.
Qed.

Lemma register_user_session mail password dept town w r w' :
  register_user env mail password dept town w = (r, w') →
  w_session w' = w_session w ∨
  (mail ∉ (email <$> users (w_db w)) ∧
   w_session w' =
     <["is_admin" := VBool false]>
       (<["current_user" := VInt (new_user_id env (users (w_db w)))]>
          (w_session w))).
Proof.
  unfold register_user, get_db_connection, connect. unfold bind at 1.
  set (w0 := set_conn (w_db w) w).
  destruct (try_except _ _ _ w0) as [r1 w1] eqn:H. intros [= <- <-].
  change (w_session (conn_close w1)) with (w_session w1).
  change (w_session w) with (w_session w0).
  change (w_db w) with (w_conn w0). clearbody w0.
  unfold try_except in H.
  destruct (bind _ _ w0) as [[b|e] w2] eqn:E.
  - injection H as _ <-. right.
    apply bind_Ok in E as (row & w3 & E1 & E).
    unfold insert_user in E1.
    apply bind_Ok in E1
      as ([] & w4 & (-> & _)%statement_inv & E1). simpl in E1.
    case_bool_decide as Hin; [done|]. injection E1 as <- <-.
    split; [done|].
    apply bind_Ok in E as (uid & w5 & [[= <-] ->]%subscript_Ok & E).
    apply bind_Ok in E as ([] & w6 & (_ & -> & _)%cur_execute_Ok & E).
    apply bind_Ok in E as ([] & w7 & E7 & E).
    apply conn_commit_same_session in E7.
    apply bind_Ok in E as ([] & w8 & [= <-] & E).
    apply bind_Ok in E as ([] & w9 & [= <-] & [= _ <-]).
    simpl. unfold same_session in E7. by rewrite E7.
  - assert (w_session w2 = w_session w0) as Hs.
    { clear H. unfold insert_user in E.
      apply bind_Raise in E as [E | (row & w3 & E1 & E)].
      { apply bind_Raise in E as [(-> & _)%statement_inv
                                 | ([] & w4 & (-> & _)%statement_inv & E)];
          [done|].
        simpl in E. case_bool_decide; by injection E as _ <-. }
      apply bind_Ok in E1
        as ([] & w4 & (-> & _)%statement_inv & E1). simpl in E1.
      case_bool_decide as Hin; [done|]. injection E1 as <- <-.
      apply bind_Raise in E as [E | (uid & w5 & [[= <-] ->]%subscript_Ok & E)];
        [done|].
      apply bind_Raise in E as [E | ([] & w6 & E1 & E)].
      { by apply cur_execute_same_session in E. }
      apply cur_execute_Ok in E1 as (_ & -> & _).
      apply bind_Raise in E as [E | ([] & w7 & E1 & E)].
      { by apply conn_commit_same_session in E. }
      apply bind_Raise in E as [[=] | ([] & w8 & _ & E)].
      apply bind_Raise in E as [[=] | ([] & w9 & _ & [=])]. }
    left. destruct (is_IntegrityError e).
    + injection H as _ <-. done.
    + injection H as _ <-. done.
Qed.

(** After a run of the authentication page that started without a
    [current_user], the session has one only if the login form was
    submitted with the credentials of a user of the store, or the sign-up
    form with an unused e-mail address. *)
Lemma auth_page_requires_credentials w r w' v :
  w_session w !! "current_user" = None →
  auth_page env inputs w = (r, w') →
  w_session w' !! "current_user" = Some v →
  (in_form_submit inputs "Login" = true ∧
   ∃ uid adm,
     select_login (in_text inputs "Email")
       (hash_password env (in_text inputs "Password")) (w_db w)
     = Some (uid, adm) ∧ v = VInt uid) ∨
  (in_form_submit inputs "Sign Up" = true ∧
   in_text inputs "Email" ∉ (email <$> users (w_db w)) ∧
   v = VInt (new_user_id env (users (w_db w)))).
Proof.
  intros Hnone H Hsome. unfold auth_page in H.
  apply bind_inv in H as [(e & [=] & _) | ([] & w1 & [= <-] & H)].
  apply bind_inv in H as [(e & E & _) | ([] & w2 & E & H)].
  { apply init_database_same_session in E. unfold same_session in E.
    simpl in E. congruence. }
  pose proof (init_database_same_session _ _ _ _ E) as S2.
  apply init_database_same_db in E as D2.
  unfold same_session, same_db in *. simpl in *.
  unfold login_or_signup in H.
  apply bind_inv in H as [(e & [=] & _) | ([] & w3 & [= <-] & H)].
  cbv zeta in H. destruct (String.eqb _ "Login").
  - unfold render_login in H.
    do 5 apply bind_inv in H as [(e & [=] & _) | ([] & ? & [= <-] & H)].
    destruct (in_form_submit inputs "Login");
      [|injection H as _ <-; simpl in *; congruence].
    apply bind_inv in H as [(e & E' & _) | (ok & w4 & E' & H)].
    + apply login_user_session in E'. simpl in E'. rewrite D2 in E'.
      destruct (select_login _ _ (w_db w)) as [[uid adm]|];
        [|simpl in *; congruence].
      destruct E' as [E'|E']; [simpl in *; congruence|].
      left. split; [done|]. exists uid, adm. split; [done|].
      rewrite E' in Hsome. simpl in Hsome.
      rewrite !lookup_insert_ne, lookup_insert_eq in Hsome by done.
      congruence.
    + apply login_user_session in E'. simpl in E'. rewrite D2 in E'.
      assert (w_session w' = w_session w4) as Hw.
      { destruct ok.
        - by apply bind_inv in H
            as [(e & [=] & _) | ([] & ? & [= <-] & [= _ <-])].
        - by injection H as _ <-. }
      rewrite Hw in Hsome.
      destruct (select_login _ _ (w_db w)) as [[uid adm]|];
        [|simpl in *; congruence].
      destruct E' as [E'|E']; [simpl in *; congruence|].
      left. split; [done|]. exists uid, adm. split; [done|].
      rewrite E' in Hsome. simpl in Hsome.
      rewrite !lookup_insert_ne, lookup_insert_eq in Hsome by done.
      congruence.
  - unfold render_signup in H.
    do 7 apply bind_inv in H as [(e & [=] & _) | ([] & ? & [= <-] & H)].
    destruct (in_form_submit inputs "Sign Up");
      [|injection H as _ <-; simpl in *; congruence].
    match type of H with
    | bind _ _ ?w0 = _ => set (wr := w0) in H
    end.
    assert (w_session wr = w_session w) as Sr by done.
    assert (w_db wr = w_db w) as Dr by done. clearbody wr.
    assert (∀ r1 w4,
              register_user env (in_text inputs "Email")
                (in_text inputs "Password") (in_text inputs "Department")
                (in_text inputs "City") wr = (r1, w4) →
              w_session w4 !! "current_user" = Some v →
              in_text inputs "Email" ∉ (email <$> users (w_db w)) ∧
              v = VInt (new_user_id env (users (w_db w)))) as Hreg.
    { intros r1 w4 [E'|[Hin E']]%register_user_session;
        [congruence|].
      rewrite Dr in *. intros Hv. split; [done|]. rewrite E' in Hv.
      rewrite lookup_insert_ne, lookup_insert_eq in Hv by done.
      congruence. }
    right. split; [done|].
    apply bind_inv in H as [(e & E' & _) | (ok & w4 & E' & H)];
      [by eapply Hreg|].
    eapply Hreg; [exact E'|].
    destruct ok.
    + by apply bind_inv in H
        as [(e & [=] & _) | ([] & ? & [= <-] & [= _ <-])].
    + by injection H as _ <-.
Qed.

End Reauthentication.


(** The questionnaire run of user 1 on the anxiety assessment stores the
    total 6 = 2 + 3 + 1 with the raw values. *)
Lemma C5_anxiety_questionnaire :
  select_code 2 Sample.db = Some "ANXIETY" ∧
  render_questionnaire Sample.env Sample.anxiety_inputs 2
    (Sample.world Sample.db Sample.alice_session)
  = Sample.questionnaire_run ∧
  total_score <$> assessment_responses (w_db Sample.questionnaire_run.2)
  = [6] ∧
  response_value <$> response_details (w_db Sample.questionnaire_run.2)
  = [2; 3; 1] ∧
  (w_db Sample.questionnaire_run.2 = Sample.db ∨
   ∃ uid responses sev,
     Forall
       (λ a, ∃ o, o ∈ response_options Sample.db ∧ option_type_id o = 2 ∧
                  option_id o = a.1.2 ∧ option_value o = a.2)
       responses ∧
     w_db Sample.questionnaire_run.2 =
       saved_database Sample.env Sample.db uid 2 responses
         (sum_values responses) sev).
Proof.
  assert (select_code 2 Sample.db = Some "ANXIETY") as Hcode by reflexivity.
  assert ("ANXIETY" ≠ "RELATIONSHIP") as Hne by discriminate.
  assert (render_questionnaire Sample.env Sample.anxiety_inputs 2
            (Sample.world Sample.db Sample.alice_session)
          = (Sample.questionnaire_run.1, Sample.questionnaire_run.2)) as Hrun
    by (vm_compute; reflexivity).
  split; [exact Hcode|]. split; [exact Hrun|].
  split; [reflexivity|]. split; [reflexivity|].
  exact (C5_raw_values_for_other_types Sample.env Sample.anxiety_inputs 2
           "ANXIETY" (Sample.world Sample.db Sample.alice_session)
           Sample.questionnaire_run.1 Sample.questionnaire_run.2
           Hcode Hne Hrun).
Defined.

(** The history of user 1 after a second save shows, for the new response
    2, the total 22 and the label of the band selected by the save. *)
Lemma C6_history_of_second_save :
  (λ e, (h_response_id e, h_total_score e, h_severity_label e))
    <$> Sample.history_rows
  = [(1, 10, "Severe"); (2, 22, "Moderate")] ∧
  ∃ stored score band,
    head (matching_bands 1 score Sample.db1) = Some band ∧
    w_db Sample.second_saved =
      saved_database Sample.env Sample.db1 1 1 stored score
        (severity_id band) ∧
    (∀ e, e ∈ Sample.history_rows →
          h_response_id e =
            new_response_id Sample.env (assessment_responses Sample.db1) →
          h_total_score e = score ∧
          h_severity_label e = severity_label band) ∧
    ((∃ r aq ro, r ∈ stored ∧
                 aq ∈ assessment_questions Sample.db1 ∧
                 question_id aq = r.1.1 ∧
                 ro ∈ response_options Sample.db1 ∧ option_id ro = r.1.2) →
     ∃ e, e ∈ Sample.history_rows ∧
          h_response_id e =
            new_response_id Sample.env (assessment_responses Sample.db1)).
Proof.
  split; [reflexivity|].
  apply (C6_history_round_trip Sample.env 1 1 Sample.relationship_answers 0
           (Sample.world Sample.db1 ∅) Sample.second_saved
           (Sample.world (w_db Sample.second_saved) ∅) Sample.history_rows
           Sample.history_read).
  - intros ar ->%list_elem_of_singleton. by vm_compute.
  - by apply (bool_decide_unpack _); vm_compute.
  - by vm_compute.
  - reflexivity.
  - by vm_compute.
Defined.

(** ** The radar series *)

Lemma radar_series_from cats scores l :
  foldl
    (λ acc response,
       let '(categories, scores) := acc in
       if bool_decide (assessment_type response ∈ categories)
       then (categories, scores)
       else (categories ++ [assessment_type response],
             scores ++ [h_total_score response]))
    (cats, scores) l
  = (cats ++ (assessment_type <$> first_entries_from cats l),
     scores ++ (h_total_score <$> first_entries_from cats l)).
Proof.
  revert cats scores. induction l as [|e l IH]; intros cats scores; simpl.
  - by rewrite !app_nil_r.
  - case_bool_decide; rewrite IH; [done|]. simpl. by rewrite <- !app_assoc.
Qed.

Lemma radar_series_first_entries l :
  radar_series l
  = (assessment_type <$> first_entries l, h_total_score <$> first_entries l).
Proof. unfold radar_series. by rewrite radar_series_from. Qed.

Lemma first_entries_from_sublist seen l :
  sublist (first_entries_from seen l) l.
Proof.
  revert seen. induction l as [|e l IH]; intros seen; simpl; [done|].
  case_bool_decide; [apply sublist_cons | apply sublist_skip]; apply IH.
Qed.

Lemma first_entries_from_unseen seen l e :
  e ∈ first_entries_from seen l → assessment_type e ∉ seen.
Proof.
  revert seen. induction l as [|x l IH]; intros seen; simpl;
    [by intros ?%elem_of_nil|].
  case_bool_decide as Hx; [apply IH|].
  intros [->|He]%elem_of_cons; [done|].
  apply IH in He. intros Hin. apply He, elem_of_app. by left.
Qed.

Lemma first_entries_from_NoDup seen l :
  NoDup (assessment_type <$> first_entries_from seen l).
Proof.
  revert seen. induction l as [|x l IH]; intros seen; simpl;
    [constructor|].
  case_bool_decide as Hx; [apply IH|]. simpl. constructor; [|apply IH].
  intros (e & He & Hin%first_entries_from_unseen)%list_elem_of_fmap.
  apply Hin, elem_of_app. right. rewrite He. by left.
Qed.

Lemma first_entries_from_complete seen l c :
  c ∈ assessment_type <$> l → c ∉ seen →
  c ∈ assessment_type <$> first_entries_from seen l.
Proof.
  revert seen. induction l as [|x l IH]; intros seen; simpl;
    [by intros ?%elem_of_nil|].
  intros [->|Hc]%elem_of_cons Hseen.
  - rewrite bool_decide_eq_false_2 by done. by left.
  - case_bool_decide as Hx; [by apply IH|].
    destruct (decide (c = assessment_type x)) as [->|Hne]; [by left|].
    right. apply IH; [done|].
    intros [?|?%list_elem_of_singleton]%elem_of_app; done.
Qed.

Lemma first_entries_from_most_recent seen l e e' :
  StronglySorted (λ a b, h_created_at b ≤ h_created_at a) l →
  e ∈ first_entries_from seen l → e' ∈ l →
  assessment_type e' = assessment_type e →
  h_created_at e' ≤ h_created_at e.
Proof.
  revert seen. induction l as [|x l IH]; intros seen; simpl;
    [by intros _ ?%elem_of_nil|].
  intros [Hx Hl]%StronglySorted_cons He He' Ht.
  rewrite Forall_forall in Hx.
  case_bool_decide as Hseen.
  - apply elem_of_cons in He' as [->|He']; [|by eapply IH].
    apply first_entries_from_unseen in He. congruence.
  - apply elem_of_cons in He as [->|He].
    + apply elem_of_cons in He' as [->|He']; [lia|]. by apply Hx.
    + apply elem_of_cons in He' as [->|He']; [|by eapply IH].
      apply first_entries_from_unseen in He. destruct He.
      apply elem_of_app. right. rewrite Ht. by left.
Qed.

Lemma insert_by_sorted {A} (key : A → Z) r l :
  StronglySorted (λ a b, key a ≤ key b) l →
  StronglySorted (λ a b, key a ≤ key b) (insert_by key r l).
Proof.
  induction l as [|x l IH]; simpl; [by repeat constructor|].
  intros [Hx Hl]%StronglySorted_cons. rewrite Forall_forall in Hx.
  case_decide.
  - apply StronglySorted_cons. split.
    + constructor; [done|]. apply Forall_forall. intros y Hy.
      specialize (Hx y Hy). simpl in Hx. lia.
    + apply StronglySorted_cons. by rewrite Forall_forall.
  - apply StronglySorted_cons. split; [|by apply IH].
    apply Forall_forall.
    intros y [->|Hy]%elem_of_insert_by; [lia | by apply Hx].
Qed.

Lemma order_by_sorted {A} (key : A → Z) l :
  StronglySorted (λ a b, key a ≤ key b) (order_by key l).
Proof.
  induction l; simpl; [constructor | by apply insert_by_sorted].
Qed.

(** The history is most recent first. *)
Lemma select_history_sorted uid db :
  StronglySorted (λ a b, h_created_at b ≤ h_created_at a)
    (select_history uid db).
Proof.
  unfold select_history, order_by_desc.
  generalize (history_row <$> group_by_key (history_join uid db)).
  intros l. pose proof (order_by_sorted (λ x, - h_created_at x) l) as H.
  induction H as [|x l' Hl IH Hx]; constructor; [done|].
  eapply Forall_impl; [exact Hx|]. simpl. intros; lia.
Qed.

(** Every entry of [first_entries_from] sits in the history at a position
    before which no entry has its assessment type, and these positions
    increase along the list. *)
Lemma first_entries_from_positions seen l :
  ∃ positions : list nat,
    StronglySorted lt positions ∧
    Forall2
      (λ i e, l !! i = Some e ∧ assessment_type e ∉ seen ∧
              ∀ j e', (j < i)%nat → l !! j = Some e' →
                      assessment_type e' ≠ assessment_type e)
      positions (first_entries_from seen l).
Proof.
  revert seen. induction l as [|x l IH]; intros seen; simpl.
  - exists []. split; constructor.
  - case_bool_decide as Hx.
    + destruct (IH seen) as (ps & Hs & Hp). exists (S <$> ps). split.
      * clear Hp. induction Hs as [|p ps Hs IHs Hf]; simpl; constructor;
          [done|].
        apply Forall_fmap. eapply Forall_impl; [exact Hf|].
        simpl. intros; lia.
      * apply Forall2_fmap_l. eapply Forall2_impl; [exact Hp|].
        simpl. intros i e (Hi & Hn & Hfirst). split_and!; [done..|].
        intros [|j] e' Hj; simpl.
        -- intros [= <-] Heq. congruence.
        -- apply Hfirst. lia.
    + destruct (IH (seen ++ [assessment_type x])) as (ps & Hs & Hp).
      exists (0%nat :: (S <$> ps)). split.
      * constructor.
        -- clear Hp. induction Hs as [|p ps Hs IHs Hf]; simpl; constructor;
             [done|].
           apply Forall_fmap. eapply Forall_impl; [exact Hf|].
           simpl. intros; lia.
        -- apply Forall_fmap, Forall_true. simpl. intros; lia.
      * constructor.
        -- split_and!; [done..|]. intros; lia.
        -- apply Forall2_fmap_l. eapply Forall2_impl; [exact Hp|].
           simpl. intros i e (Hi & Hn & Hfirst).
           rewrite elem_of_app, list_elem_of_singleton in Hn.
           split_and!; [done | tauto |].
           intros [|j] e' Hj; simpl.
           ++ intros [= <-] Heq. apply Hn. by right.
           ++ apply Hfirst. lia.
Qed.

(** ** The dashboard *)

Global Instance same_state_preorder : PreOrder same_state.
Proof.
  split; [by intros ? |].
  intros ??? (? & ? & ?) (? & ? & ?). unfold same_state. 
  split_and!; congruence.
Qed.

Lemma closed_conn_same_state : closed_conn same_state.
Proof. by intros ??. Qed.
Lemma closed_stmt_same_state : closed_stmt same_state.
Proof. by intros ??. Qed.

Global Instance no_new_preorder P : PreOrder (no_new P).
Proof. split; [by intros ??? | intros ??? H1 H2 x ??; eauto]. Qed.

Lemma closed_conn_no_new P : closed_conn (no_new P).
Proof. by intros ????. Qed.
Lemma closed_stmt_no_new P : closed_stmt (no_new P).
Proof. by intros ????. Qed.
Lemma closed_session_no_new P : closed_session (no_new P).
Proof. by intros ????. Qed.
Lemma closed_commit_no_new P : closed_commit (no_new P).
Proof. by intros ???. Qed.
Lemma closed_emit_no_new (P : Widget → Prop) x :
  ¬ P x → closed_emit (no_new P) x.
Proof.
  intros Hx w y Hy [?|Hy'%list_elem_of_singleton]%elem_of_app;
    [done | by subst].
Qed.

Global Hint Resolve closed_conn_same_state closed_stmt_same_state
  closed_conn_no_new closed_stmt_no_new closed_session_no_new
  closed_commit_no_new : step.

Section Fetch.

Variable env : Env.

Lemma read_row_same_state {A} (q : Database → option A) :
  Step same_state
    (get_db_connection (row <- cur_execute env (query q) ;; subscript row)).
Proof.
  apply Step_get_db_connection; [apply _ | auto with step|].
  apply Step_bind; [apply _ | | intros; apply Step_subscript; apply _].
  apply Step_cur_execute; auto with step. apply _.
Qed.

Lemma read_row_Ok {A} (q : Database → option A) w a w' :
  get_db_connection (row <- cur_execute env (query q) ;; subscript row) w
  = (Ok a, w') →
  q (w_db w) = Some a.
Proof.
  unfold get_db_connection, connect. unfold bind at 1.
  destruct (bind _ _ (set_conn (w_db w) w)) as [r1 w1] eqn:E.
  intros [= -> <-].
  apply bind_Ok in E as (row & w2 & (_ & _ & Hrow)%cur_execute_Ok & E).
  apply subscript_Ok in E as [-> _]. by rewrite Hrow.
Qed.

Lemma read_query_same_state {A} (q : Database → A) :
  Step same_state (get_db_connection (cur_execute env (query q))).
Proof.
  apply Step_get_db_connection; [apply _ | auto with step|].
  apply Step_cur_execute; auto with step. apply _.
Qed.

Lemma current_user_Ok w uid w' :
  current_user w = (Ok uid, w') →
  w_session w !! "current_user" = Some (VInt uid) ∧ w' = w.
Proof.
  unfold current_user, session_attr.
  rewrite bind_bind_session_lookup.
  destruct (w_session w !! "current_user") as [[]|]; simpl; try done.
  by intros [= <- <-].
Qed.

End Fetch.

(** Solves goals [Step R m] by following the structure of [m]. *)
Ltac step_tac :=
  repeat
    (intros;
     lazymatch goal with
     | |- PreOrder _ => apply _
     | |- closed_emit (no_new _) _ =>
         apply closed_emit_no_new;
         first [by intros (? & ? & [=]) | by intros [=]]
     | |- closed_emit _ _ => solve [auto with step]
     | |- closed_conn _ => solve [auto with step]
     | |- closed_stmt _ => solve [auto with step]
     | |- closed_session _ => solve [auto with step]
     | |- closed_commit _ => solve [auto with step]
     | |- Step _ (ret _) => apply Step_ret
     | |- Step _ (raise _) => apply Step_raise
     | |- Step _ rerun => apply Step_rerun
     | |- Step _ (bind _ _) => apply Step_bind
     | |- Step _ (emit _) => apply Step_emit
     | |- Step _ (session_set _ _) => apply Step_session_set
     | |- Step _ (session_del _) => apply Step_session_del
     | |- Step _ (session_lookup _) => apply Step_session_lookup
     | |- Step _ (session_getattr _ _) => apply Step_session_getattr
     | |- Step _ (session_attr _) => apply Step_session_attr
     | |- Step _ session_keys => apply Step_session_keys
     | |- Step _ current_user => apply Step_current_user
     | |- Step _ (subscript _) => apply Step_subscript
     | |- Step _ (list_index _ _) => apply Step_list_index
     | |- Step _ (cur_execute _ _) => apply Step_cur_execute
     | |- Step _ (conn_commit _) => apply Step_conn_commit
     | |- Step _ conn_rollback => apply Step_conn_rollback
     | |- Step _ (get_db_connection _) => apply Step_get_db_connection
     | |- Step _ (for_each _ _) => apply Step_for_each
     | |- Step _ (try_except _ _ _) => apply Step_try_except
     | |- Step _ (match ?x with _ => _ end) => destruct x
     | |- Step _ _ => solve [auto with step]
     end).

Section Dashboard.

Variable env : Env.
Variable inputs : Inputs.

Lemma render_history_row_no_chart admin response :
  Step (no_new is_chart) (render_history_row inputs admin response).
Proof. unfold render_history_row. step_tac. Qed.

Lemma render_selected_response_no_chart admin :
  Step (no_new is_chart) (render_selected_response inputs admin).
Proof.
  unfold render_selected_response, render_response_details. step_tac.
Qed.

(** A chart emitted by the body of the dashboard is the radar chart of the
    history, and the admin view is active. *)
Lemma dashboard_body_chart profile settings history w r w' x :
  dashboard_body inputs profile settings history w = (r, w') →
  is_chart x → x ∈ w_out w' →
  x ∈ w_out w ∨
  (admin_view_active (w_session w) settings.1 = true ∧
   x = StPlotlyChart (radar_series history).2 (radar_series history).1).
Proof.
  intros H Hx Hin. unfold dashboard_body in H.
  apply bind_inv in H as [(e & [=] & _) | ([] & w1 & [= <-] & H)].
  apply bind_inv in H as [(e & [=] & _) | ([] & w2 & [= <-] & H)].
  apply bind_inv in H as [(e & [=] & _) | (iav & w3 & [= <- <-] & H)].
  simpl in H.
  change (truthy (default (VBool true) (w_session w !! "is_admin_view"))
          && settings.1) with (admin_view_active (w_session w) settings.1)
    in H.
  assert (x ∈ (w_out w ++ [StHeader [FStr "Dashboard"]]) ++
                [StSubheader
                   [FStr "Welcome, ";
                    FStr (match full_name profile.2 with
                          | Some n => if String.eqb n "" then profile.1
                                      else n
                          | None => profile.1
                          end)]] →
          x ∈ w_out w) as Hbase.
  { intros [[?|Hh%list_elem_of_singleton]%elem_of_app
           |Hh%list_elem_of_singleton]%elem_of_app; [done|..];
      destruct Hx as (? & ? & ->); discriminate. }
  unfold dashboard_view in H.
  destruct history as [|e0 history0] eqn:Eh.
  { left. injection H as _ <-. apply Hbase.
    simpl in Hin. apply elem_of_app in Hin as [?|Hh%list_elem_of_singleton];
      [done|]. destruct Hx as (? & ? & ->); discriminate. }
  rewrite <- Eh in *. clear Eh e0 history0.
  match type of H with
  | bind _ ?k ?w0 = _ =>
      assert (Step (no_new is_chart) (k tt)) as Hrest
  end.
  { step_tac.
    - intros. apply render_history_row_no_chart.
    - intros. apply render_selected_response_no_chart. }
  destruct (admin_view_active (w_session w) settings.1).
  - destruct (radar_series history) as [categories scores] eqn:Er.
    apply bind_inv in H as [(e & [=] & _) | ([] & w4 & [= <-] & H)].
    apply Hrest in H. apply H in Hin; [|done]. simpl in Hin.
    apply elem_of_app in Hin as [Hin|Hin%list_elem_of_singleton].
    + left. by apply Hbase.
    + by right.
  - apply bind_inv in H as [(e & [=] & _) | ([] & w4 & [= <-] & H)].
    apply Hrest in H. apply H in Hin; [|done]. left. by apply Hbase.
Qed.

End Dashboard.

(** C7. A radar chart that a run of the dashboard adds to the page belongs
    to a logged-in user who is an administrator of the store and whose
    admin view is active; its categories and scores are those of the
    entries of the history (most recent first) that are the first of their
    assessment type: every type of the history exactly once, in the order
    in which the types first occur, each with the total score of its most
    recent response. *)
Theorem C7_radar_series env inputs w r w' scores categories :
  render_dashboard env inputs w = (r, w') →
  StPlotlyChart scores categories ∈ w_out w' →
  StPlotlyChart scores categories ∉ w_out w →
  ∃ uid hide history firsts positions,
    w_session w !! "current_user" = Some (VInt uid) ∧
    select_user_settings uid (w_db w) = Some (true, hide) ∧
    truthy (default (VBool true) (w_session w !! "is_admin_view")) = true ∧
    history = select_history uid (w_db w) ∧
    categories = assessment_type <$> firsts ∧
    scores = h_total_score <$> firsts ∧
    NoDup categories ∧
    (∀ c, c ∈ categories ↔ c ∈ assessment_type <$> history) ∧
    StronglySorted lt positions ∧
    Forall2
      (λ i e, history !! i = Some e ∧
              ∀ j e', (j < i)%nat → history !! j = Some e' →
                      assessment_type e' ≠ assessment_type e)
      positions firsts ∧
    (∀ e e', e ∈ firsts → e' ∈ history →
             assessment_type e' = assessment_type e →
             h_created_at e' ≤ h_created_at e).
Proof.
  intros H Hin Hnew. unfold render_dashboard in H.
  assert (∀ {A} (m : App A) e w0 w1,
            Step same_state m → w_out w0 = w_out w →
            m w0 = (Raise e, w1) → w1 = w' → False) as Hraise.
  { intros A m e w0 w1 Hm Ho E <-. apply Hm in E as (_ & _ & Ho').
    apply Hnew. congruence. }
  apply bind_inv in H as [(e & E & _) | (uid & w1 & E1 & H)].
  { destruct (Hraise _ _ _ _ _ (Step_current_user same_state) eq_refl E
                eq_refl). }
  apply current_user_Ok in E1 as [Hu ->].
  apply bind_inv in H as [(e & E & _) | (profile & w2 & E2 & H)].
  { destruct (Hraise _ _ _ _ _ (read_row_same_state env _) eq_refl E
                eq_refl). }
  apply read_row_same_state in E2 as (D2 & S2 & O2).
  apply bind_inv in H as [(e & E & _) | (uid2 & w3 & E3 & H)].
  { destruct (Hraise _ _ _ _ _ (Step_current_user same_state) O2 E
                eq_refl). }
  apply current_user_Ok in E3 as [Hu3 ->].
  rewrite S2, Hu in Hu3. injection Hu3 as <-.
  apply bind_inv in H as [(e & E & _) | ([adm hide] & w4 & E4 & H)].
  { destruct (Hraise _ _ _ _ _ (read_row_same_state env _) O2 E eq_refl). }
  pose proof E4 as Hset. apply read_row_Ok in Hset. rewrite D2 in Hset.
  apply read_row_same_state in E4 as (D4 & S4 & O4).
  apply bind_inv in H as [(e & E & _) | (uid3 & w5 & E5 & H)].
  { destruct (Hraise _ _ _ _ _ (Step_current_user same_state)
                (eq_trans O4 O2) E eq_refl). }
  apply current_user_Ok in E5 as [Hu5 ->].
  rewrite S4, S2, Hu in Hu5. injection Hu5 as <-.
  apply bind_inv in H as [(e & E & _) | (history & w6 & E6 & H)].
  { destruct (Hraise _ _ _ _ _ (read_query_same_state env _)
                (eq_trans O4 O2) E eq_refl). }
  pose proof E6 as Hhist. apply read_query_Ok in Hhist.
  rewrite D4, D2 in Hhist.
  apply read_query_same_state in E6 as (D6 & S6 & O6).
  eapply dashboard_body_chart in H as [Hold | [Hadm Hx]];
    [| |by eexists _, _|exact Hin].
  { destruct Hnew. congruence. }
  injection Hx as -> ->. rewrite radar_series_first_entries. simpl.
  unfold admin_view_active in Hadm. rewrite S6, S4, S2 in Hadm.
  simpl in Hadm. apply andb_true_iff in Hadm as [Hiav ->].
  destruct (first_entries_from_positions [] history) as (ps & Hs & Hp).
  exists uid, hide, history, (first_entries history), ps.
  split_and!; try done.
  - apply first_entries_from_NoDup.
  - intros c. split.
    + intros (e & -> & He)%list_elem_of_fmap. apply list_elem_of_fmap.
      exists e. split; [done|].
      eapply elem_of_sublist; [exact He | apply first_entries_from_sublist].
    + intros Hc. apply first_entries_from_complete; [done|].
      by intros ?%elem_of_nil.
  - eapply Forall2_impl; [exact Hp|]. simpl. by intros i e (? & _ & ?).
  - intros e e' He He'. rewrite Hhist in *.
    eapply first_entries_from_most_recent; [|exact He|exact He'].
    apply select_history_sorted.
Qed.

(** ** Independence of the admin-view flag *)

Lemma flag_equiv_fields w1 w2 :
  flag_equiv w1 w2 ↔
  w_db w1 = w_db w2 ∧ w_conn w1 = w_conn w2 ∧ w_out w1 = w_out w2 ∧
  w_stmt w1 = w_stmt w2 ∧
  delete "is_admin_view" (w_session w1)
  = delete "is_admin_view" (w_session w2).
Proof.
  unfold flag_equiv, erase_flag, set_session. split.
  - intros [= -> -> -> -> ->]. by split_and!.
  - intros (-> & -> & -> & -> & ->). done.
Qed.

Lemma flag_equiv_lookup w1 w2 k :
  flag_equiv w1 w2 → k ≠ "is_admin_view" →
  w_session w1 !! k = w_session w2 !! k.
Proof.
  intros (_ & _ & _ & _ & Hs)%flag_equiv_fields Hk.
  rewrite <- (lookup_delete_ne (w_session w1) "is_admin_view" k) by done.
  rewrite Hs. by apply lookup_delete_ne.
Qed.

Lemma select_user_settings_users uid db1 db2 :
  users db1 = users db2 →
  select_user_settings uid db1 = select_user_settings uid db2.
Proof. unfold select_user_settings. by intros ->. Qed.

Lemma not_admin_in_users uid db1 db2 :
  users db1 = users db2 → not_admin_in uid db1 → not_admin_in uid db2.
Proof.
  intros Hu H adm hide. rewrite <- (select_user_settings_users uid _ _ Hu).
  apply H.
Qed.

Lemma Blind_ret {A} (a : A) : Blind (ret a).
Proof. by intros w1 w2 P E. Qed.

Lemma Blind_raise {A} e : Blind (@raise A e).
Proof. by intros w1 w2 P E. Qed.

Lemma Blind_rerun {A} : Blind (@rerun A).
Proof. apply Blind_raise. Qed.

Lemma Blind_bind {A B} (m : App A) (k : A → App B) :
  Blind m → (∀ a, Blind (k a)) → Blind (bind m k).
Proof.
  intros Hm Hk w1 w2 P E. destruct (Hm w1 w2 P E) as (Hr & E' & P').
  unfold bind.
  destruct (m w1) as [[a|e] w1'], (m w2) as [[b|e2] w2']; simpl in *;
    try discriminate; injection Hr as <-; [by apply Hk | done].
Qed.

Lemma Blind_for_each {A} (l : list A) (body : A → App unit) :
  (∀ x, Blind (body x)) → Blind (for_each l body).
Proof.
  intros Hb. induction l; simpl; [apply Blind_ret|].
  apply Blind_bind; auto.
Qed.

Lemma Blind_try_except {A} (m : App A) catches h :
  Blind m → (∀ e, Blind (h e)) → Blind (try_except m catches h).
Proof.
  intros Hm Hh w1 w2 P E. destruct (Hm w1 w2 P E) as (Hr & E' & P').
  unfold try_except.
  destruct (m w1) as [[a|e] w1'], (m w2) as [[b|e2] w2']; simpl in *;
    try discriminate; injection Hr as <-; [done|].
  destruct (catches e); [by apply Hh | done].
Qed.

Lemma Blind_subscript {A} (row : option A) : Blind (subscript row).
Proof. destruct row; [apply Blind_ret | apply Blind_raise]. Qed.

Lemma Blind_list_index l x : Blind (list_index l x).
Proof.
  unfold list_index.
  destruct (list_find _ l) as [[]|]; [apply Blind_ret | apply Blind_raise].
Qed.

Lemma Blind_emit x : Blind (emit x).
Proof.
  intros w1 w2 P E. simpl. split; [done|]. split; [|done].
  apply flag_equiv_fields in E as (? & ? & ? & ? & ?).
  apply flag_equiv_fields. simpl. split_and!; congruence.
Qed.

Lemma Blind_session_lookup k :
  k ≠ "is_admin_view" → Blind (session_lookup k).
Proof.
  intros Hk w1 w2 P E. simpl. split; [|done].
  f_equal. by apply flag_equiv_lookup.
Qed.

Lemma Blind_session_getattr k d :
  k ≠ "is_admin_view" → Blind (session_getattr k d).
Proof.
  intros Hk. apply Blind_bind; [by apply Blind_session_lookup|].
  intros; apply Blind_ret.
Qed.

Lemma Blind_session_attr k : k ≠ "is_admin_view" → Blind (session_attr k).
Proof.
  intros Hk. apply Blind_bind; [by apply Blind_session_lookup|].
  intros [v|]; [apply Blind_ret | apply Blind_raise].
Qed.

Lemma Blind_current_user : Blind current_user.
Proof.
  apply Blind_bind; [by apply Blind_session_attr|].
  intros []; first [apply Blind_ret | apply Blind_raise].
Qed.

Lemma Blind_session_set k v :
  k ≠ "is_admin" → k ≠ "current_user" → Blind (session_set k v).
Proof.
  intros H1 H2 w1 w2 [Pa Pu] E. simpl. split; [done|]. split.
  - apply flag_equiv_fields in E as (? & ? & ? & ? & Hs).
    apply flag_equiv_fields. simpl. split_and!; try done.
    destruct (decide (k = "is_admin_view")) as [->|Hk].
    + by rewrite !delete_insert_eq.
    + rewrite !delete_insert_ne by done. by rewrite Hs.
  - split; simpl.
    + by rewrite lookup_insert_ne.
    + intros uid. rewrite lookup_insert_ne by done. apply Pu.
Qed.

Lemma Blind_session_del k : Blind (session_del k).
Proof.
  intros w1 w2 [Pa Pu] E. simpl. split; [done|]. split.
  - apply flag_equiv_fields in E as (? & ? & ? & ? & Hs).
    apply flag_equiv_fields. simpl. split_and!; try done.
    rewrite (delete_delete (w_session w1)), (delete_delete (w_session w2)).
    by rewrite Hs.
  - split; simpl.
    + destruct (decide (k = "is_admin")) as [->|Hk].
      * by rewrite lookup_delete_eq.
      * by rewrite lookup_delete_ne.
    + intros uid Hu. apply Pu.
      destruct (decide (k = "current_user")) as [->|Hk].
      * by rewrite lookup_delete_eq in Hu.
      * by rewrite lookup_delete_ne in Hu.
Qed.

Lemma Blind_logout : Blind logout.
Proof.
  intros w1 w2 P E. rewrite !logout_clears. simpl. split; [done|].
  split.
  - apply flag_equiv_fields in E as (? & ? & ? & ? & Hs).
    apply flag_equiv_fields. simpl. by split_and!.
  - split; simpl; [done|]. intros uid. by rewrite lookup_empty.
Qed.

Section BlindStore.

Variable env : Env.

Lemma Blind_statement : Blind (statement env).
Proof.
  intros w1 w2 P E. unfold statement.
  pose proof E as (? & ? & ? & Hn & ?)%flag_equiv_fields. rewrite Hn.
  assert (flag_equiv (set_stmt (S (w_stmt w2)) w1)
            (set_stmt (S (w_stmt w2)) w2)).
  { apply flag_equiv_fields. simpl. by split_and!. }
  destruct (db_fault env (w_stmt w2)); simpl; by split_and!.
Qed.

Lemma Blind_cur_execute {A} (sql : Database → Database * A) :
  (∀ db, users (sql db).1 = users db) → Blind (cur_execute env sql).
Proof.
  intros Hu. apply Blind_bind; [apply Blind_statement|].
  intros _ w1 w2 [Pa Pu] E.
  pose proof E as (? & Hc & ? & ? & ?)%flag_equiv_fields. rewrite Hc.
  specialize (Hu (w_conn w2)).
  destruct (sql (w_conn w2)) as [db' a]. simpl in *. split; [done|]. split.
  - apply flag_equiv_fields. simpl. by split_and!.
  - split; [done|]. simpl. intros uid [? ?]%Pu. split; [done|].
    eapply not_admin_in_users; [|done]. congruence.
Qed.

Lemma Blind_conn_commit : Blind (conn_commit env).
Proof.
  apply Blind_bind; [apply Blind_statement|].
  intros _ w1 w2 [Pa Pu] E.
  pose proof E as (? & Hc & ? & ? & ?)%flag_equiv_fields.
  simpl. split; [done|]. split.
  - apply flag_equiv_fields. simpl. by split_and!.
  - split; [done|]. simpl. intros uid [? ?]%Pu. done.
Qed.

Lemma Blind_conn_rollback : Blind conn_rollback.
Proof.
  intros w1 w2 [Pa Pu] E.
  pose proof E as (? & Hc & ? & ? & ?)%flag_equiv_fields.
  simpl. split; [done|]. split.
  - apply flag_equiv_fields. simpl. by split_and!.
  - split; [done|]. simpl. intros uid [? ?]%Pu. done.
Qed.

Lemma Blind_get_db_connection {A} (body : App A) :
  Blind body → Blind (get_db_connection body).
Proof.
  intros Hb w1 w2 [Pa Pu] E.
  pose proof E as (? & Hc & ? & ? & ?)%flag_equiv_fields.
  unfold get_db_connection, connect, bind.
  destruct (Hb (set_conn (w_db w1) w1) (set_conn (w_db w2) w2))
    as (Hr & E' & [Pa' Pu']).
  { split; [done|]. simpl. intros uid [? ?]%Pu. done. }
  { apply flag_equiv_fields. simpl. by split_and!. }
  destruct (body (set_conn (w_db w1) w1)) as [r1 w1'],
           (body (set_conn (w_db w2) w2)) as [r2 w2']. simpl in *.
  split; [done|].
  pose proof E' as (? & ? & ? & ? & ?)%flag_equiv_fields. split.
  - apply flag_equiv_fields. simpl. by split_and!.
  - split; [done|]. simpl. intros uid [? ?]%Pu'. done.
Qed.

End BlindStore.

(** Solves goals [Blind m] by following the structure of [m]. *)
Ltac blind_tac :=
  repeat
    (intros;
     lazymatch goal with
     | |- _ ≠ _ => done
     | |- users _ = users _ => reflexivity
     | |- Blind (ret _) => apply Blind_ret
     | |- Blind (raise _) => apply Blind_raise
     | |- Blind rerun => apply Blind_rerun
     | |- Blind logout => apply Blind_logout
     | |- Blind (bind _ _) => apply Blind_bind
     | |- Blind (emit _) => apply Blind_emit
     | |- Blind (session_set _ _) => apply Blind_session_set
     | |- Blind (session_del _) => apply Blind_session_del
     | |- Blind (session_lookup _) => apply Blind_session_lookup
     | |- Blind (session_getattr _ _) => apply Blind_session_getattr
     | |- Blind (session_attr _) => apply Blind_session_attr
     | |- Blind current_user => apply Blind_current_user
     | |- Blind (subscript _) => apply Blind_subscript
     | |- Blind (list_index _ _) => apply Blind_list_index
     | |- Blind (cur_execute _ _) => apply Blind_cur_execute
     | |- Blind (conn_commit _) => apply Blind_conn_commit
     | |- Blind conn_rollback => apply Blind_conn_rollback
     | |- Blind (get_db_connection _) => apply Blind_get_db_connection
     | |- Blind (for_each _ _) => apply Blind_for_each
     | |- Blind (try_except _ _ _) => apply Blind_try_except
     | |- Blind (match ?x with _ => _ end) => destruct x
     end).

Lemma bind_unfold {A B} (m : App A) (k : A → App B) w :
  bind m k w = match m w with
               | (Ok a, w') => k a w'
               | (Raise e, w') => (Raise e, w')
               end.
Proof. done. Qed.

Section BlindPages.

Variable env : Env.
Variable inputs : Inputs.

Lemma Blind_init_database : Blind (init_database env).
Proof. unfold init_database. blind_tac. Qed.

Lemma Blind_get_user_profile uid : Blind (get_user_profile env uid).
Proof. unfold get_user_profile. blind_tac. Qed.

Lemma Blind_get_user_settings uid : Blind (get_user_settings env uid).
Proof. unfold get_user_settings. blind_tac. Qed.

Lemma Blind_get_user_assessment_history uid :
  Blind (get_user_assessment_history env uid).
Proof. unfold get_user_assessment_history. blind_tac. Qed.

Lemma Blind_get_assessment_types : Blind (get_assessment_types env).
Proof. unfold get_assessment_types. blind_tac. Qed.

Lemma Blind_get_assessment_questions atype :
  Blind (get_assessment_questions env atype).
Proof. unfold get_assessment_questions. blind_tac. Qed.

Lemma Blind_update_user_profile uid name a g years dept town :
  Blind (update_user_profile env uid name a g years dept town).
Proof. unfold update_user_profile. blind_tac. Qed.

Lemma Blind_adjust_responses responses adjusted :
  Blind (adjust_responses env responses adjusted).
Proof.
  revert adjusted. induction responses as [|[[q o] v] rest IH];
    intros adjusted; simpl; [apply Blind_ret|].
  blind_tac; intros; apply IH.
Qed.

Lemma Blind_save_assessment_response uid atype responses total :
  Blind (save_assessment_response env uid atype responses total).
Proof.
  unfold save_assessment_response, save_transaction. blind_tac.
  intros. apply Blind_adjust_responses.
Qed.

Lemma Blind_questionnaire_loop data responses answered :
  Blind (questionnaire_loop inputs data responses answered).
Proof.
  revert responses answered. induction data as [|q data IH];
    intros responses answered; simpl; [apply Blind_ret|].
  blind_tac; intros; apply IH.
Qed.

Lemma Blind_render_questionnaire atype :
  Blind (render_questionnaire env inputs atype).
Proof.
  unfold render_questionnaire. blind_tac.
  - intros. apply Blind_get_assessment_questions.
  - intros. apply Blind_questionnaire_loop.
  - intros. apply Blind_save_assessment_response.
Qed.

Lemma Blind_render_profile : Blind (render_profile env inputs).
Proof.
  unfold render_profile. blind_tac.
  - intros. apply Blind_get_user_profile.
  - intros. apply Blind_update_user_profile.
Qed.

Lemma Blind_render_history_row admin response :
  Blind (render_history_row inputs admin response).
Proof. unfold render_history_row. blind_tac. Qed.

Lemma Blind_render_selected_response admin :
  Blind (render_selected_response inputs admin).
Proof.
  unfold render_selected_response, render_response_details. blind_tac.
Qed.

Lemma Blind_dashboard_view admin history :
  Blind (dashboard_view inputs admin history).
Proof.
  unfold dashboard_view. blind_tac;
    intros;
    first [apply Blind_render_history_row
          | apply Blind_render_selected_response].
Qed.

(** With a user who is not an administrator of the store the value read
    from [is_admin_view] is immaterial. *)
Lemma Blind_dashboard_body profile settings history :
  settings.1 = false →
  Blind (dashboard_body inputs profile settings history).
Proof.
  intros Hs. unfold dashboard_body. rewrite Hs.
  apply Blind_bind; [apply Blind_emit|]. intros _.
  apply Blind_bind; [apply Blind_emit|]. intros _.
  intros w1 w2 P E. unfold session_getattr.
  rewrite !bind_bind_session_lookup. unfold bind, ret.
  rewrite !andb_false_r. by apply Blind_dashboard_view.
Qed.

(** The settings read for the user of a non-administrator session never
    say [is_admin]. *)
Lemma Blind_render_dashboard : Blind (render_dashboard env inputs).
Proof.
  unfold render_dashboard.
  apply Blind_bind; [apply Blind_current_user|]. intros uid0.
  apply Blind_bind; [apply Blind_get_user_profile|]. intros profile.
  intros w1 w2 P E.
  destruct (Blind_current_user w1 w2 P E) as (Hr & E1 & P1).
  rewrite (bind_unfold current_user _ w1), (bind_unfold current_user _ w2).
  destruct (current_user w1) as [[uid|e] w1'] eqn:C1,
           (current_user w2) as [[uid'|e'] w2'] eqn:C2; simpl in Hr, E1, P1;
    try discriminate; injection Hr as <-; [|done].
  apply current_user_Ok in C1 as [Hu ->].
  apply current_user_Ok in C2 as [_ ->].
  destruct (Blind_get_user_settings uid w1 w2 P E) as (Hr & E2 & P2).
  rewrite (bind_unfold (get_user_settings env uid) _ w1),
    (bind_unfold (get_user_settings env uid) _ w2).
  destruct (get_user_settings env uid w1) as [[settings|e] w1'] eqn:G1,
           (get_user_settings env uid w2) as [[settings'|e'] w2'] eqn:G2;
    simpl in Hr, E2, P2; try discriminate; injection Hr as <-; [|done].
  assert (settings.1 = false) as Hs.
  { apply read_row_Ok in G1. destruct settings as [adm hide].
    destruct P as [_ Pu]. destruct (Pu uid Hu) as [Hdb _].
    by eapply Hdb. }
  revert w1' w2' P2 E2 G1 G2. 
  enough (Blind (uid <- current_user ;;
                 assessment_history <- get_user_assessment_history env uid ;;
                 dashboard_body inputs profile settings assessment_history))
    as Hb by (intros; by apply Hb).
  apply Blind_bind; [apply Blind_current_user|]. intros uid1.
  apply Blind_bind; [apply Blind_get_user_assessment_history|].
  intros history. by apply Blind_dashboard_body.
Qed.

End BlindPages.

Lemma bind_ret_l {A B} (a : A) (k : A → App B) w : bind (ret a) k w = k a w.
Proof. done. Qed.

Lemma bind_assoc {A B C} (m : App A) (f : A → App B) (g : B → App C) w :
  bind (bind m f) g w = bind m (λ a, bind (f a) g) w.
Proof. unfold bind. by destruct (m w) as [[a|e] w1]. Qed.

Section BlindMain.

Variable env : Env.
Variable inputs : Inputs.

Lemma Blind_menu : Blind (menu env inputs).
Proof.
  unfold menu. blind_tac; intros;
    first [ apply Blind_render_dashboard
          | apply Blind_get_assessment_types
          | apply Blind_render_questionnaire
          | apply Blind_render_profile ].
Qed.

(** For a session whose [is_admin] is not set the toggle is skipped. *)
Lemma navigation_skips_toggle w :
  truthy (default (VBool false) (w_session w !! "is_admin")) = false →
  (is_admin <- session_getattr "is_admin" (VBool false) ;;
   (if truthy is_admin then admin_view_toggle inputs else ret tt) ;;
   menu env inputs) w
  = menu env inputs w.
Proof.
  intros H. unfold session_getattr. rewrite bind_bind_session_lookup.
  rewrite bind_ret_l, H. done.
Qed.

Lemma Blind_navigation : Blind (navigation env inputs).
Proof.
  unfold navigation.
  apply Blind_bind; [apply Blind_emit|]. intros _ w1 w2 P E.
  pose proof P as [Pa _].
  rewrite navigation_skips_toggle by done.
  rewrite navigation_skips_toggle
    by (by rewrite <- (flag_equiv_lookup w1 w2 "is_admin")).
  by apply Blind_menu.
Qed.

End BlindMain.

(** C8. For a logged-in user who is not an administrator (neither in the
    session nor in the store), two runs of the script from sessions that
    differ only in [is_admin_view] return the same result, emit the same
    widgets, leave the same store and end in sessions that again differ
    only in [is_admin_view]. *)
Theorem C8_admin_view_flag_is_inert env inputs db s1 s2 uid :
  delete "is_admin_view" s1 = delete "is_admin_view" s2 →
  s1 !! "current_user" = Some (VInt uid) →
  truthy (default (VBool false) (s1 !! "is_admin")) = false →
  not_admin_in uid db →
  (main env inputs (initial_world db s1)).1
  = (main env inputs (initial_world db s2)).1 ∧
  w_out (main env inputs (initial_world db s1)).2
  = w_out (main env inputs (initial_world db s2)).2 ∧
  w_db (main env inputs (initial_world db s1)).2
  = w_db (main env inputs (initial_world db s2)).2 ∧
  delete "is_admin_view" (w_session (main env inputs (initial_world db s1)).2)
  = delete "is_admin_view"
      (w_session (main env inputs (initial_world db s2)).2).
Proof.
  intros Hs Hu Ha Hdb.
  set (w1 := initial_world db s1). set (w2 := initial_world db s2).
  assert (flag_equiv w1 w2) as E by (by apply flag_equiv_fields).
  assert (non_admin w1) as P.
  { split; [done|]. simpl. intros uid'. rewrite Hu. by intros [= <-]. }
  enough ((main env inputs w1).1 = (main env inputs w2).1 ∧
          flag_equiv (main env inputs w1).2 (main env inputs w2).2)
    as [Hr (? & _ & ? & _ & ?)%flag_equiv_fields] by done.
  assert (Blind (emit (StTitle [FStr "Mental Health Assessment Platform"]) ;;
                 init_database env)) as Hpre.
  { apply Blind_bind; [apply Blind_emit|]. intros _.
    apply Blind_init_database. }
  destruct (Hpre w1 w2 P E) as (Hr & E' & P').
  assert (∀ r w', (emit (StTitle [FStr "Mental Health Assessment Platform"]) ;;
                   init_database env) w1 = (r, w') →
                  w_session w' = s1) as Hsess.
  { intros r w' H.
    apply bind_inv in H as [(e & [=] & _) | ([] & w3 & [= <-] & H)].
    by apply init_database_same_session in H. }
  assert (∀ w, main env inputs w
               = bind (emit (StTitle
                               [FStr "Mental Health Assessment Platform"]) ;;
                       init_database env)
                   (λ _, user <- session_lookup "current_user" ;;
                         match user with
                         | None => login_or_signup env inputs
                         | Some _ => navigation env inputs
                         end) w) as Hmain
    by (intros w; unfold main; by rewrite bind_assoc).
  rewrite !Hmain, !bind_unfold with (m := bind (emit _) _).
  destruct (bind (emit _) (λ _, init_database env) w1)
    as [[[]|e] w1'] eqn:E1,
    (bind (emit _) (λ _, init_database env) w2) as [[[]|e'] w2'] eqn:E2;
    simpl in Hr, E', P'; try discriminate; [|by injection Hr as <-].
  rewrite !bind_session_lookup.
  rewrite <- (flag_equiv_lookup w1' w2' "current_user") by done.
  rewrite (Hsess _ _ eq_refl), Hu.
  by destruct (Blind_navigation env inputs w1' w2' P' E') as (? & ? & _).
Qed.

(** ** What the normal view shows of the scores *)

Lemma bind_emit {B} x (k : unit → App B) w :
  bind (emit x) k w
  = k tt {| w_db := w_db w; w_conn := w_conn w; w_session := w_session w;
            w_out := w_out w ++ [x]; w_stmt := w_stmt w |}.
Proof. done. Qed.

Lemma truthy_redact_value v : truthy (redact_value v) = truthy v.
Proof. by destruct v. Qed.

Lemma redact_equiv_lookup w1 w2 k :
  redact_equiv w1 w2 →
  redact_value <$> (w_session w1 !! k) = redact_value <$> (w_session w2 !! k).
Proof. intros [_ Hs]. by rewrite <- !lookup_fmap, Hs. Qed.

Lemma Related_ret {A} (a : A) : Related (ret a) (ret a).
Proof. by intros w1 w2 E. Qed.

Lemma Related_raise {A} e : Related (@raise A e) (raise e).
Proof. by intros w1 w2 E. Qed.

Lemma Related_bind {A B} (m1 m2 : App A) (k1 k2 : A → App B) :
  Related m1 m2 → (∀ a, Related (k1 a) (k2 a)) →
  Related (bind m1 k1) (bind m2 k2).
Proof.
  intros Hm Hk w1 w2 E. destruct (Hm w1 w2 E) as (Hr & E').
  unfold bind.
  destruct (m1 w1) as [[a|e] w1'], (m2 w2) as [[b|e2] w2']; simpl in *;
    try discriminate; injection Hr as <-; [by apply Hk | done].
Qed.

Lemma Related_emit x : Related (emit x) (emit x).
Proof.
  intros w1 w2 [Ho Hs]. simpl. split; [done|]. split; simpl; [|done].
  by rewrite Ho.
Qed.

Lemma Related_session_set k v1 v2 :
  redact_value v1 = redact_value v2 →
  Related (session_set k v1) (session_set k v2).
Proof.
  intros Hv w1 w2 [Ho Hs]. simpl. split; [done|]. split; simpl; [done|].
  by rewrite !fmap_insert, Hv, Hs.
Qed.

Lemma Related_session_del k : Related (session_del k) (session_del k).
Proof.
  intros w1 w2 [Ho Hs]. simpl. split; [done|]. split; simpl; [done|].
  by rewrite !fmap_delete, Hs.
Qed.

Lemma Related_for_each {A} (l1 l2 : list A) (b1 b2 : A → App unit) :
  Forall2 (λ x y, Related (b1 x) (b2 y)) l1 l2 →
  Related (for_each l1 b1) (for_each l2 b2).
Proof.
  induction 1; simpl; [apply Related_ret|].
  apply Related_bind; [done | by intros].
Qed.

Section NormalView.

Variable inputs : Inputs.

Lemma Related_render_history_row e1 e2 :
  redact e1 = redact e2 →
  Related (render_history_row inputs false e1)
    (render_history_row inputs false e2).
Proof.
  intros [= Hid Hty Hti Hcr Hde]. unfold render_history_row.
  rewrite Hid, Hti, Hcr.
  apply Related_bind; [apply Related_emit|]. intros _.
  apply Related_bind; [|intros; apply Related_emit].
  apply Related_bind; [apply Related_emit|]. intros _.
  apply Related_bind; [apply Related_emit|]. intros _.
  destruct (in_view_response inputs (h_response_id e2));
    [|apply Related_ret].
  apply Related_session_set. simpl. unfold redact. by f_equal; f_equal.
Qed.

Lemma Related_render_response_details r1 r2 :
  redact r1 = redact r2 →
  Related (render_response_details inputs false r1)
    (render_response_details inputs false r2).
Proof.
  intros [= Hid Hty Hti Hcr Hde]. unfold render_response_details.
  rewrite Hti, Hcr, Hde.
  apply Related_bind; [apply Related_emit|]. intros _.
  apply Related_bind; [apply Related_emit|]. intros _.
  apply Related_bind; [apply Related_ret|]. intros _.
  apply Related_bind; [apply Related_emit|]. intros _.
  apply Related_bind.
  { apply Related_for_each, Forall2_same_length_lookup_2; [done|].
    intros i x y Hx Hy. rewrite Hx in Hy. injection Hy as <-.
    apply Related_bind; [apply Related_emit|]. intros _.
    apply Related_emit. }
  intros _. apply Related_bind; [apply Related_emit|]. intros _.
  destruct (in_button inputs "Close");
    [apply Related_session_del | apply Related_ret].
Qed.

Lemma Related_render_selected_response :
  Related (render_selected_response inputs false)
    (render_selected_response inputs false).
Proof.
  intros w1 w2 E. unfold render_selected_response.
  rewrite !bind_session_lookup.
  pose proof (redact_equiv_lookup w1 w2 "selected_response" E) as Hl.
  destruct (w_session w1 !! "selected_response") as [v1|],
           (w_session w2 !! "selected_response") as [v2|];
    try discriminate; [|done].
  injection Hl as Hv.
  destruct v1 as [| | | |r1], v2 as [| | | |r2]; try discriminate;
    try done.
  injection Hv as Hv. rewrite !bind_ret_l.
  apply Related_render_response_details; [|done].
  unfold redact. by f_equal.
Qed.

Lemma Related_dashboard_view h1 h2 :
  redact <$> h1 = redact <$> h2 →
  Related (dashboard_view inputs false h1) (dashboard_view inputs false h2).
Proof.
  intros Hh. unfold dashboard_view.
  destruct h1 as [|e1 h1'], h2 as [|e2 h2']; try discriminate;
    [apply Related_emit|].
  apply Related_bind; [apply Related_ret|]. intros _.
  apply Related_bind; [apply Related_emit|]. intros _.
  apply Related_bind; [apply Related_emit|]. intros _.
  apply Related_bind; [apply Related_emit|]. intros _.
  apply Related_bind.
  { apply Related_bind; [apply Related_emit|]. intros _.
    apply Related_emit. }
  intros _. apply Related_bind; [apply Related_emit|]. intros _.
  apply Related_bind; [|intros; apply Related_render_selected_response].
  apply Related_for_each.
  assert (Forall2 (λ x y, redact x = redact y) (e1 :: h1') (e2 :: h2'))
    as HF by (by apply Forall2_fmap, list_eq_Forall2).
  eapply Forall2_impl; [exact HF|].
  intros x y Hxy. by apply Related_render_history_row.
Qed.

End NormalView.

(** The history handed to the page of a user who is not an administrator
    carries the total score and the severity label of the stored
    response. *)
Lemma C2_history_carries_scores_for_everyone :
  select_user_settings 1 Sample.db1 = Some (false, false) ∧
  admin_view_active Sample.alice_session false = false ∧
  ∃ e w',
    get_user_assessment_history Sample.env 1
      (Sample.world Sample.db1 Sample.alice_session)
    = (Ok [e], w') ∧
    history_row_get "total_score" e = Some (VInt 10) ∧
    history_row_get "severity_label" e = Some (VStr "Severe").
Proof.
  split; [reflexivity|]. split; [reflexivity|].
  eexists _, _. split; [by vm_compute|]. by split.
Qed.

(** C2 (amended). Every history entry handed to the dashboard has its
    [total_score] and [severity_label]; in a role context that is not
    admin the page built from the entries does not depend on these two
    fields: two histories, and two sessions, that agree up to the scores
    and labels of their entries give the same result and the same
    output. *)
Theorem C2_normal_view_ignores_scores inputs profile settings h1 h2 w1 w2 :
  admin_view_active (w_session w1) settings.1 = false →
  redact <$> h1 = redact <$> h2 →
  redact_equiv w1 w2 →
  Forall
    (λ e, history_row_get "total_score" e = Some (VInt (h_total_score e)) ∧
          history_row_get "severity_label" e
          = Some (VStr (h_severity_label e)))
    h1 ∧
  (dashboard_body inputs profile settings h1 w1).1
  = (dashboard_body inputs profile settings h2 w2).1 ∧
  w_out (dashboard_body inputs profile settings h1 w1).2
  = w_out (dashboard_body inputs profile settings h2 w2).2 ∧
  redact_equiv (dashboard_body inputs profile settings h1 w1).2
    (dashboard_body inputs profile settings h2 w2).2.
Proof.
  intros Hadm Hh E. split; [by apply Forall_true|].
  enough ((dashboard_body inputs profile settings h1 w1).1
          = (dashboard_body inputs profile settings h2 w2).1 ∧
          redact_equiv (dashboard_body inputs profile settings h1 w1).2
            (dashboard_body inputs profile settings h2 w2).2)
    as [? [? ?]] by done.
  revert w1 w2 Hadm E.
  enough (∀ w1 w2,
            admin_view_active (w_session w1) settings.1 = false →
            redact_equiv w1 w2 →
            let m1 := (is_admin_view <- session_getattr "is_admin_view"
                                          (VBool true) ;;
                       dashboard_view inputs
                         (truthy is_admin_view && settings.1) h1) in
            let m2 := (is_admin_view <- session_getattr "is_admin_view"
                                          (VBool true) ;;
                       dashboard_view inputs
                         (truthy is_admin_view && settings.1) h2) in
            (m1 w1).1 = (m2 w2).1 ∧ redact_equiv (m1 w1).2 (m2 w2).2)
    as Hrest.
  { intros w1 w2 Hadm [Ho Hs]. unfold dashboard_body.
    rewrite !bind_emit.
    apply Hrest; [done|]. split; simpl; [by rewrite Ho | done]. }
  intros w1 w2 Hadm E m1 m2. subst m1 m2. unfold session_getattr.
  rewrite !bind_bind_session_lookup, !bind_ret_l.
  assert (truthy (default (VBool true) (w_session w2 !! "is_admin_view"))
          = truthy (default (VBool true) (w_session w1 !! "is_admin_view")))
    as ->.
  { pose proof (redact_equiv_lookup w1 w2 "is_admin_view" E) as Hl.
    destruct (w_session w1 !! "is_admin_view") as [v1|],
             (w_session w2 !! "is_admin_view") as [v2|];
      try discriminate; [|done].
    injection Hl as Hl. simpl.
    by rewrite <- (truthy_redact_value v1), Hl, truthy_redact_value. }
  unfold admin_view_active in Hadm. rewrite Hadm.
  by apply Related_dashboard_view.
Qed.

(** The dashboard of user 1, not an administrator, is the same page for
    the stored history and for the history with scores and labels
    removed. *)
Lemma C2_dashboard_of_alice :
  admin_view_active Sample.alice_session false = false ∧
  w_out (dashboard_body Sample.dashboard_inputs
           ("alice@example.org", Sample.profile 1 "Alice") (false, false)
           (select_history 1 Sample.db1)
           (Sample.world Sample.db1 Sample.alice_session)).2
  = w_out (dashboard_body Sample.dashboard_inputs
             ("alice@example.org", Sample.profile 1 "Alice") (false, false)
             (redact <$> select_history 1 Sample.db1)
             (Sample.world Sample.db1 Sample.alice_session)).2.
Proof.
  split; [reflexivity|].
  apply (C2_normal_view_ignores_scores Sample.dashboard_inputs
           ("alice@example.org", Sample.profile 1 "Alice") (false, false)
           (select_history 1 Sample.db1)
           (redact <$> select_history 1 Sample.db1)
           (Sample.world Sample.db1 Sample.alice_session)
           (Sample.world Sample.db1 Sample.alice_session)).
  - reflexivity.
  - by vm_compute.
  - by split.
Defined.

(** The dashboard of the administrator shows one point per assessment
    type: the anxiety score of time 300 and the relationship score. *)
Lemma C7_radar_of_administrator :
  render_dashboard Sample.env Sample.dashboard_inputs
    (Sample.world Sample.admin_db Sample.bob_session)
  = (Sample.admin_dashboard.1, Sample.admin_dashboard.2) ∧
  ∃ uid hide history firsts positions,
    Sample.bob_session !! "current_user" = Some (VInt uid) ∧
    select_user_settings uid Sample.admin_db = Some (true, hide) ∧
    truthy (default (VBool true) (Sample.bob_session !! "is_admin_view"))
    = true ∧
    history = select_history uid Sample.admin_db ∧
    ["ANXIETY"; "RELATIONSHIP"] = assessment_type <$> firsts ∧
    [5; 22] = h_total_score <$> firsts ∧
    NoDup ["ANXIETY"; "RELATIONSHIP"] ∧
    (∀ c, c ∈ ["ANXIETY"; "RELATIONSHIP"] ↔ c ∈ assessment_type <$> history) ∧
    StronglySorted lt positions ∧
    Forall2
      (λ i e, history !! i = Some e ∧
              ∀ j e', (j < i)%nat → history !! j = Some e' →
                      assessment_type e' ≠ assessment_type e)
      positions firsts ∧
    (∀ e e', e ∈ firsts → e' ∈ history →
             assessment_type e' = assessment_type e →
             h_created_at e' ≤ h_created_at e).
Proof.
  assert (render_dashboard Sample.env Sample.dashboard_inputs
            (Sample.world Sample.admin_db Sample.bob_session)
          = (Sample.admin_dashboard.1, Sample.admin_dashboard.2)) as Hrun
    by (by vm_compute).
  split; [exact Hrun|].
  apply (C7_radar_series Sample.env Sample.dashboard_inputs
           (Sample.world Sample.admin_db Sample.bob_session)
           Sample.admin_dashboard.1 Sample.admin_dashboard.2
           [5; 22] ["ANXIETY"; "RELATIONSHIP"] Hrun).
  - apply (list_elem_of_lookup_2 _ 2). reflexivity.
  - by intros ?%elem_of_nil.
Defined.

(** For user 1, not an administrator, the page is the same whether
    [is_admin_view] is [False] or [True] in the session. *)
Lemma C8_alice_with_and_without_flag :
  w_out (main Sample.env Sample.dashboard_inputs
           (initial_world Sample.db1 Sample.alice_session)).2
  = w_out (main Sample.env Sample.dashboard_inputs
             (initial_world Sample.db1 Sample.alice_session_flagged)).2 ∧
  (main Sample.env Sample.dashboard_inputs
     (initial_world Sample.db1 Sample.alice_session)).1
  = (main Sample.env Sample.dashboard_inputs
       (initial_world Sample.db1 Sample.alice_session_flagged)).1.
Proof.
  destruct (C8_admin_view_flag_is_inert Sample.env Sample.dashboard_inputs
              Sample.db1 Sample.alice_session Sample.alice_session_flagged 1)
    as (Hr & Ho & _).
  - by vm_compute.
  - reflexivity.
  - reflexivity.
  - intros adm hide. by vm_compute; intros [= <- _].
  - by split.
Defined.

(** For user 2, an administrator, the flag does change the page: the
    hypotheses of the theorem above cannot be dropped. *)
Lemma flag_matters_for_an_administrator :
  render_dashboard Sample.env Sample.dashboard_inputs
    (initial_world Sample.admin_db Sample.bob_session)
  ≠ render_dashboard Sample.env Sample.dashboard_inputs
      (initial_world Sample.admin_db Sample.bob_session_normal).
Proof. by vm_compute. Qed.

(** ** The logout button *)

Section LogoutButton.

Variable env : Env.
Variable inputs : Inputs.

Lemma adjust_responses_quiet responses adjusted :
  Step (no_new is_logout_button) (adjust_responses env responses adjusted).
Proof.
  revert adjusted. induction responses as [|[[q o] v] rest IH];
    intros adjusted; simpl; step_tac; intros; apply IH.
Qed.

Lemma questionnaire_loop_quiet data responses answered :
  Step (no_new is_logout_button)
    (questionnaire_loop inputs data responses answered).
Proof.
  revert responses answered. induction data as [|q data IH];
    intros responses answered; simpl; step_tac; intros; apply IH.
Qed.

Lemma render_questionnaire_quiet atype :
  Step (no_new is_logout_button) (render_questionnaire env inputs atype).
Proof.
  unfold render_questionnaire, get_assessment_questions,
    save_assessment_response, save_transaction.
  step_tac; intros;
    first [apply questionnaire_loop_quiet | apply adjust_responses_quiet].
Qed.

Lemma render_profile_quiet :
  Step (no_new is_logout_button) (render_profile env inputs).
Proof.
  unfold render_profile, get_user_profile, update_user_profile. step_tac.
Qed.

Lemma render_dashboard_quiet :
  Step (no_new is_logout_button) (render_dashboard env inputs).
Proof.
  unfold render_dashboard, get_user_profile, get_user_settings,
    get_user_assessment_history, dashboard_body, dashboard_view,
    render_history_row, render_selected_response, render_response_details.
  step_tac.
Qed.

Lemma get_assessment_types_quiet :
  Step (no_new is_logout_button) (get_assessment_types env).
Proof. unfold get_assessment_types. step_tac. Qed.

(** In a run of the menu in which the logout button is shown and has been
    clicked, the session ends empty and the script is rerun. *)
Lemma menu_logout w r w' :
  menu env inputs w = (r, w') →
  in_button inputs "Logout" = true →
  SidebarButton "Logout" ∈ w_out w' →
  SidebarButton "Logout" ∉ w_out w →
  r = Raise RerunException ∧ w_session w' = ∅.
Proof.
  intros H Hclick Hin Hnot. unfold menu in H. rewrite Hclick in H.
  assert (∀ {A} (m : App A) w0 r0,
            Step (no_new is_logout_button) m → m w0 = (r0, w') →
            SidebarButton "Logout" ∉ w_out w0 → False) as Hquiet.
  { intros A m w0 r0 Hm E Hn. apply Hn. by eapply (Hm _ _ _ E). }
  assert (∀ {A} (m : App A) w0 r0 w1,
            Step (no_new is_logout_button) m → m w0 = (r0, w1) →
            SidebarButton "Logout" ∉ w_out w0 →
            SidebarButton "Logout" ∉ w_out w1) as Hkeep.
  { intros A m w0 r0 w1 Hm E Hn Hin1. apply Hn. by eapply (Hm _ _ _ E). }
  apply bind_inv in H as [(e & [=] & _) | ([] & w1 & E1 & H)].
  assert (SidebarButton "Logout" ∉ w_out w1) as N1.
  { eapply Hkeep; [|exact E1|exact Hnot]. step_tac. }
  apply bind_inv in H as [(e & [=] & _) | (forced & w2 & [= <- <-] & H)].
  apply bind_inv in H as [(e & E & _) | (section & w3 & E3 & H)].
  { exfalso. eapply Hquiet; [|exact E|exact N1]. step_tac. }
  assert (SidebarButton "Logout" ∉ w_out w3) as N3.
  { eapply Hkeep; [|exact E3|exact N1]. step_tac. }
  apply bind_inv in H as [(e & E & _) | ([] & w4 & E4 & H)].
  { exfalso. eapply Hquiet; [|exact E|exact N3].
    step_tac; intros;
      first [ apply render_dashboard_quiet
            | apply get_assessment_types_quiet
            | apply render_questionnaire_quiet
            | apply render_profile_quiet ]. }
  apply bind_inv in H as [(e & [=] & _) | ([] & w5 & [= <-] & H)].
  rewrite logout_clears in H. by injection H as <- <-.
Qed.

End LogoutButton.

(** C9. Logout deletes every key of the session, whatever it holds: the
    user, the role and view flags, the forced section and the selected
    response are gone together; this is what happens in every run of the
    menu that shows the logout button when the button has been clicked.
    From then on [main] shows the login and sign-up forms only, and the
    session gets a user again only through the credentials of a user of
    the store or a new registration. *)
Theorem C9_logout_clears_session env inputs w :
  logout w = (Raise RerunException, set_session ∅ w) ∧
  (∀ k, w_session (logout w).2 !! k = None) ∧
  w_db (logout w).2 = w_db w ∧
  (∀ r w',
     menu env inputs w = (r, w') →
     in_button inputs "Logout" = true →
     SidebarButton "Logout" ∈ w_out w' →
     SidebarButton "Logout" ∉ w_out w →
     r = Raise RerunException ∧ w_session w' = ∅) ∧
  ∀ w2 r w3 v,
    w_session w2 = w_session (logout w).2 →
    main env inputs w2 = (r, w3) →
    auth_page env inputs w2 = (r, w3) ∧
    (w_session w3 !! "current_user" = Some v →
     (in_form_submit inputs "Login" = true ∧
      ∃ uid adm,
        select_login (in_text inputs "Email")
          (hash_password env (in_text inputs "Password")) (w_db w2)
        = Some (uid, adm) ∧ v = VInt uid) ∨
     (in_form_submit inputs "Sign Up" = true ∧
      in_text inputs "Email" ∉ (email <$> users (w_db w2)) ∧
      v = VInt (new_user_id env (users (w_db w2))))).
Proof.
  rewrite logout_clears. simpl.
  split_and!; [done | done | done | apply menu_logout |].
  intros w2 r w3 v Hs Hmain.
  assert (w_session w2 !! "current_user" = None) as Hnone by by rewrite Hs.
  rewrite main_unauthenticated in Hmain by done. split; [done|].
  by eapply auth_page_requires_credentials.
Qed.

(** * Further properties of the store functions *)

(** ** Functions that only read *)

Section Reads.

Variable env : Env.

(** A query in a connection of its own either fails with the error of the
    store or returns the result on the committed store. *)
Lemma read_query_run {A} (q : Database → A) w :
  get_db_connection (cur_execute env (query q)) w =
  match db_fault env (w_stmt w) with
  | None => (Ok (q (w_db w)), after_read w)
  | Some d => (Raise (Psycopg2Error d), after_read w)
  end.
Proof.
  cbv [get_db_connection connect bind cur_execute statement query].
  simpl. by destruct (db_fault env (w_stmt w)).
Qed.

(** The same for a query whose first row is subscripted. *)
Lemma read_row_run {A} (q : Database → option A) w :
  get_db_connection (row <- cur_execute env (query q) ;; subscript row) w =
  match db_fault env (w_stmt w) with
  | None =>
      match q (w_db w) with
      | Some a => (Ok a, after_read w)
      | None => (Raise TypeError, after_read w)
      end
  | Some d => (Raise (Psycopg2Error d), after_read w)
  end.
Proof.
  cbv [get_db_connection connect bind cur_execute statement query].
  simpl. destruct (db_fault env (w_stmt w)); [done|].
  change (w_conn (set_stmt (S (w_stmt w)) (set_conn (w_db w) w)))
    with (w_db w).
  by destruct (q (w_db w)).
Qed.

End Reads.

(** ** Grouping and ordering *)

Lemma add_to_group_NoDup k d groups :
  NoDup groups.*1 → NoDup (add_to_group k d groups).*1.
Proof.
  induction groups as [|[k0 ds] groups IH]; simpl.
  - intros _. apply NoDup_singleton.
  - intros [Hn Hd]%NoDup_cons. case_decide; simpl.
    + by apply NoDup_cons.
    + apply NoDup_cons. split; [|auto].
      rewrite add_to_group_keys. intros [->|?]; done.
Qed.

Lemma group_by_key_NoDup rows : NoDup (group_by_key rows).*1.
Proof.
  unfold group_by_key.
  assert (NoDup ([] : list (HistoryKey * list DetailJson)).*1) as H
    by constructor.
  revert H. generalize ([] : list (HistoryKey * list DetailJson)).
  induction rows as [|r rows IH]; intros groups H; simpl; [done|].
  by apply IH, add_to_group_NoDup.
Qed.

(** What a group holds after a row has been added. *)
Lemma add_to_group_sound (P : HistoryKey → list DetailJson → Prop) k d
    groups :
  (∀ k' ds', (k', ds') ∈ groups → P k' ds') →
  P k [d] →
  (∀ ds', (k, ds') ∈ groups → P k (ds' ++ [d])) →
  ∀ k' ds', (k', ds') ∈ add_to_group k d groups → P k' ds'.
Proof.
  induction groups as [|[k0 ds] groups IH]; simpl; intros Hg H1 H2 k' ds'.
  - by intros [= -> ->]%list_elem_of_singleton.
  - case_decide as Hk.
    + subst k0. intros [[= -> ->]|Hin]%elem_of_cons.
      * apply H2. by left.
      * apply Hg. by right.
    + intros [[= -> ->]|Hin]%elem_of_cons.
      * apply Hg. by left.
      * revert Hin. apply IH; [|done|].
        -- intros ???. apply Hg. by right.
        -- intros ??. apply H2. by right.
Qed.

Lemma foldl_add_to_group_sound (all rows : list (HistoryKey * DetailJson))
    groups :
  (∀ r, r ∈ rows → r ∈ all) →
  (∀ k ds, (k, ds) ∈ groups → ds ≠ [] ∧ ∀ d, d ∈ ds → (k, d) ∈ all) →
  ∀ k ds,
    (k, ds) ∈ foldl (λ groups r, add_to_group r.1 r.2 groups) groups rows →
    ds ≠ [] ∧ ∀ d, d ∈ ds → (k, d) ∈ all.
Proof.
  revert groups. induction rows as [|[k0 d0] rows IH]; intros groups Hr Hg;
    simpl; [done|].
  apply IH; [intros; apply Hr; by right|].
  apply add_to_group_sound; [done|..].
  - split; [done|]. intros d ->%list_elem_of_singleton. apply Hr. by left.
  - intros ds' [Hne Hin]%Hg. split; [by destruct ds'|].
    intros d [?| ->%list_elem_of_singleton]%elem_of_app; [auto|].
    apply Hr. by left.
Qed.

(** Every group is not empty and holds objects of rows with its key. *)
Lemma group_by_key_sound rows k ds :
  (k, ds) ∈ group_by_key rows → ds ≠ [] ∧ ∀ d, d ∈ ds → (k, d) ∈ rows.
Proof.
  apply (foldl_add_to_group_sound rows rows []); [done|].
  by intros ?? ?%elem_of_nil.
Qed.

Lemma add_to_group_keeps k d groups k' d' :
  (∃ ds, (k', ds) ∈ groups ∧ d' ∈ ds) →
  ∃ ds, (k', ds) ∈ add_to_group k d groups ∧ d' ∈ ds.
Proof.
  induction groups as [|[k0 ds0] groups IH]; simpl;
    intros (ds & Hin & Hd); [by apply elem_of_nil in Hin|].
  apply elem_of_cons in Hin as [[= -> ->]|Hin].
  - case_decide.
    + exists (ds0 ++ [d]). split; [by left|]. apply elem_of_app. by left.
    + exists ds0. split; [by left | done].
  - case_decide.
    + exists ds. split; [by right | done].
    + destruct IH as (ds' & ? & ?); [by exists ds|].
      exists ds'. split; [by right | done].
Qed.

Lemma add_to_group_adds k d groups :
  ∃ ds, (k, ds) ∈ add_to_group k d groups ∧ d ∈ ds.
Proof.
  induction groups as [|[k0 ds0] groups IH]; simpl.
  - exists [d]. split; by left.
  - case_decide.
    + subst k0. exists (ds0 ++ [d]). split; [by left|].
      apply elem_of_app. right. by left.
    + destruct IH as (ds & ? & ?). exists ds. split; [by right | done].
Qed.

Lemma foldl_add_to_group_complete (rows : list (HistoryKey * DetailJson))
    groups k d :
  (k, d) ∈ rows ∨ (∃ ds, (k, ds) ∈ groups ∧ d ∈ ds) →
  ∃ ds,
    (k, ds) ∈ foldl (λ groups r, add_to_group r.1 r.2 groups) groups rows ∧
    d ∈ ds.
Proof.
  revert groups. induction rows as [|[k0 d0] rows IH]; intros groups; simpl.
  - by intros [?%elem_of_nil|?].
  - intros [[[= -> ->]|Hin]%elem_of_cons|Hg]; apply IH; [right|by left|right].
    + apply add_to_group_adds.
    + by apply add_to_group_keeps.
Qed.

(** Every row is aggregated in the group of its key. *)
Lemma group_by_key_complete rows k d :
  (k, d) ∈ rows → ∃ ds, (k, ds) ∈ group_by_key rows ∧ d ∈ ds.
Proof. intros H. apply foldl_add_to_group_complete. by left. Qed.

Lemma insert_by_Permutation {A} (key : A → Z) r l :
  insert_by key r l ≡ₚ r :: l.
Proof.
  induction l as [|x l IH]; simpl; [done|].
  case_decide; [done|]. rewrite IH. apply Permutation_swap.
Qed.

Lemma order_by_Permutation {A} (key : A → Z) l : order_by key l ≡ₚ l.
Proof.
  induction l as [|x l IH]; simpl; [done|].
  by rewrite insert_by_Permutation, IH.
Qed.

(** The rows of the history join, with their aggregated objects. *)
Lemma elem_of_history_join_row uid db k d :
  (k, d) ∈ history_join uid db ↔
  ∃ ar aty sl rd aq ro,
    ar ∈ assessment_responses db ∧ response_user_id ar = uid ∧
    aty ∈ assessment_types db ∧
    assessment_type_id aty = response_type_id ar ∧
    sl ∈ severity_levels db ∧ severity_id sl = response_severity_id ar ∧
    rd ∈ response_details db ∧ detail_response_id rd = response_id ar ∧
    aq ∈ assessment_questions db ∧ question_id aq = detail_question_id rd ∧
    ro ∈ response_options db ∧ option_id ro = selected_option_id rd ∧
    k = (response_id ar, code aty, title aty, total_score ar,
         severity_label sl, created_at ar) ∧
    d = {| dj_question := question_text aq; dj_answer := option_text ro;
           dj_value := response_value rd |}.
Proof.
  unfold history_join. split.
  - intros H.
    apply list_elem_of_bind in H as (ar & H & [? ?]%list_elem_of_filter).
    apply list_elem_of_bind in H as (aty & H & [? ?]%list_elem_of_filter).
    apply list_elem_of_bind in H as (sl & H & [? ?]%list_elem_of_filter).
    apply list_elem_of_bind in H as (rd & H & [? ?]%list_elem_of_filter).
    apply list_elem_of_bind in H as (aq & H & [? ?]%list_elem_of_filter).
    apply list_elem_of_bind in H as (ro & H & [? ?]%list_elem_of_filter).
    apply list_elem_of_singleton in H as [= -> ->].
    exists ar, aty, sl, rd, aq, ro. by split_and!.
  - intros (ar & aty & sl & rd & aq & ro & ? & ? & ? & ? & ? & ? & ? & ? &
            ? & ? & ? & ? & -> & ->).
    apply list_elem_of_bind. exists ar. split; [|by apply list_elem_of_filter].
    apply list_elem_of_bind. exists aty. split; [|by apply list_elem_of_filter].
    apply list_elem_of_bind. exists sl. split; [|by apply list_elem_of_filter].
    apply list_elem_of_bind. exists rd. split; [|by apply list_elem_of_filter].
    apply list_elem_of_bind. exists aq. split; [|by apply list_elem_of_filter].
    apply list_elem_of_bind. exists ro. split; [|by apply list_elem_of_filter].
    by apply list_elem_of_singleton.
Qed.

Lemma elem_of_select_history uid db e :
  e ∈ select_history uid db ↔
  ∃ g, g ∈ group_by_key (history_join uid db) ∧ e = history_row g.
Proof.
  unfold select_history, order_by_desc.
  rewrite elem_of_order_by, list_elem_of_fmap.
  split; intros (g & ? & ?); by exists g.
Qed.

(** What every row of the history query shows. *)
Lemma select_history_sound uid db e :
  e ∈ select_history uid db →
  shows_response uid db e ∧ h_response_details e ≠ [] ∧
  Forall (shows_answer (h_response_id e) db) (h_response_details e).
Proof.
  intros ([k ds] & Hg & ->)%elem_of_select_history.
  apply group_by_key_sound in Hg as [Hne Hds].
  assert (h_response_details (history_row (k, ds)) = ds) as Hdet
    by by destruct k as [[[[[??]?]?]?]?].
  assert (h_response_id (history_row (k, ds)) = k.1.1.1.1.1) as Hrid
    by by destruct k as [[[[[??]?]?]?]?].
  rewrite Hdet, Hrid. split_and!; [|done|].
  - destruct ds as [|d ds]; [done|].
    assert ((k, d) ∈ history_join uid db) as Hd by (apply Hds; by left).
    apply elem_of_history_join_row in Hd
      as (ar & aty & sl & rd & aq & ro & ? & ? & ? & ? & ? &
          ? & ? & ? & ? & ? & ? & ? & -> & _).
    exists ar, aty, sl. by rewrite history_key_row.
  - apply Forall_forall. intros d Hd.
    apply Hds, elem_of_history_join_row in Hd
      as (ar & aty & sl & rd & aq & ro & ? & ? & ? & ? & ? &
          ? & ? & ? & ? & ? & ? & ? & -> & ->).
    by exists rd, aq, ro.
Qed.

(** ** The runs of the functions that write *)

Section Runs.

Variable env : Env.

(** [login_user], statement by statement. *)
Lemma login_user_run mail pw w :
  login_user env mail pw w =
  match db_fault env (w_stmt w) with
  | Some d => (Raise (Psycopg2Error d), after_read w)
  | None =>
      match select_login mail (hash_password env pw) (w_db w) with
      | None => (Ok false, after_read w)
      | Some (uid, adm) =>
          let s := logged_in uid adm (w_session w) in
          match db_fault env (S (w_stmt w)) with
          | Some d =>
              (Raise (Psycopg2Error d),
               closed_world (w_db w) s (w_out w) (S (S (w_stmt w))))
          | None =>
              match db_fault env (S (S (w_stmt w))) with
              | Some d =>
                  (Raise (Psycopg2Error d),
                   closed_world (w_db w) s (w_out w)
                     (S (S (S (w_stmt w)))))
              | None =>
                  (Ok true,
                   closed_world
                     (update_last_login uid (now env) (w_db w)).1 s
                     (w_out w) (S (S (S (w_stmt w)))))
              end
          end
      end
  end.
Proof.
  cbv [login_user get_db_connection connect bind cur_execute statement
       query conn_commit session_set ret].
  simpl. destruct (db_fault env (w_stmt w)); [done|].
  change (w_conn (set_stmt (S (w_stmt w)) (set_conn (w_db w) w)))
    with (w_db w).
  destruct (select_login _ _ _) as [[uid adm]|]; [|done].
  simpl. destruct (db_fault env (S (w_stmt w))); [done|].
  simpl. by destruct (db_fault env (S (S (w_stmt w)))).
Qed.

(** [register_user], statement by statement. *)
Lemma register_user_run mail pw dept town w :
  register_user env mail pw dept town w =
  let caught (d : DbError) (n : nat) : Result bool * World :=
    (if is_IntegrityError (Psycopg2Error d)
     then Ok false else Raise (Psycopg2Error d),
     closed_world (w_db w) (w_session w) (w_out w) n) in
  match db_fault env (w_stmt w) with
  | Some d => caught d (S (w_stmt w))
  | None =>
      if bool_decide (mail ∈ email <$> users (w_db w))
      then caught IntegrityError (S (w_stmt w))
      else
        match db_fault env (S (w_stmt w)) with
        | Some d => caught d (S (S (w_stmt w)))
        | None =>
            match db_fault env (S (S (w_stmt w))) with
            | Some d => caught d (S (S (S (w_stmt w))))
            | None =>
                (Ok true,
                 closed_world
                   (registered_database env (w_db w) mail
                      (hash_password env pw) dept town)
                   (signed_up (new_user_id env (users (w_db w)))
                      (w_session w))
                   (w_out w) (S (S (S (w_stmt w)))))
            end
        end
  end.
Proof.
  cbv [register_user get_db_connection connect bind try_except insert_user
       cur_execute statement conn_commit conn_rollback session_set ret
       subscript].
  simpl. destruct (db_fault env (w_stmt w)) as [[]|]; [done..|].
  simpl. case_bool_decide; [done|].
  simpl. destruct (db_fault env (S (w_stmt w))) as [[]|]; [done..|].
  simpl. by destruct (db_fault env (S (S (w_stmt w)))) as [[]|].
Qed.

(** [update_user_profile], statement by statement. *)
Lemma update_user_profile_run uid name a g years dept town w :
  update_user_profile env uid name a g years dept town w =
  match db_fault env (w_stmt w) with
  | Some d => (Raise (Psycopg2Error d), after_read w)
  | None =>
      match db_fault env (S (w_stmt w)) with
      | Some d =>
          (Raise (Psycopg2Error d),
           closed_world (w_db w) (w_session w) (w_out w)
             (S (S (w_stmt w))))
      | None =>
          (Ok tt,
           closed_world
             (update_profile_row uid name a g years dept town (now env)
                (w_db w)).1
             (w_session w) (w_out w) (S (S (w_stmt w))))
      end
  end.
Proof.
  cbv [update_user_profile get_db_connection connect bind cur_execute
       statement conn_commit ret].
  simpl. destruct (db_fault env (w_stmt w)); [done|].
  simpl. by destruct (db_fault env (S (w_stmt w))).
Qed.

(** [toggle_admin_mode], statement by statement. *)
Lemma toggle_admin_mode_run uid hide w :
  toggle_admin_mode env uid hide w =
  match db_fault env (w_stmt w) with
  | Some d => (Raise (Psycopg2Error d), after_read w)
  | None =>
      match db_fault env (S (w_stmt w)) with
      | Some d =>
          (Raise (Psycopg2Error d),
           closed_world (w_db w) (w_session w) (w_out w)
             (S (S (w_stmt w))))
      | None =>
          (Ok tt,
           closed_world (update_hide_scores uid hide (w_db w)).1
             (w_session w) (w_out w) (S (S (w_stmt w))))
      end
  end.
Proof.
  cbv [toggle_admin_mode get_db_connection connect bind cur_execute
       statement conn_commit ret].
  simpl. destruct (db_fault env (w_stmt w)); [done|].
  simpl. by destruct (db_fault env (S (w_stmt w))).
Qed.

(** [init_database] on a store that has its tables. *)
Lemma init_database_run w :
  init_database env w =
  match db_fault env (w_stmt w) with
  | Some d => (Raise (Psycopg2Error d), after_read w)
  | None => (Ok tt, after_read w)
  end.
Proof.
  cbv [init_database get_db_connection connect bind cur_execute statement
       query subscript ret].
  simpl. by destruct (db_fault env (w_stmt w)).
Qed.

End Runs.

(** ** Reading the history *)

(** X1. [get_user_assessment_history] either fails with the error of the
    store or returns rows that each show a response of that very user,
    with the score and time stored for it, the code and title of its
    assessment type and the label of its severity band; each row lists at
    least one answer, and every answer it lists is stored for that
    response.  The store, the session and the output are left alone. *)
Theorem history_shows_own_responses env uid w :
  match get_user_assessment_history env uid w with
  | (Ok rows, w') =>
      w_db w' = w_db w ∧ w_session w' = w_session w ∧ w_out w' = w_out w ∧
      Forall
        (λ e, shows_response uid (w_db w) e ∧
              h_response_details e ≠ [] ∧
              Forall (shows_answer (h_response_id e) (w_db w))
                (h_response_details e))
        rows
  | (Raise e, w') =>
      w_db w' = w_db w ∧ w_session w' = w_session w ∧ w_out w' = w_out w ∧
      ∃ d, db_fault env (w_stmt w) = Some d ∧ e = Psycopg2Error d
  end.
Proof.
  unfold get_user_assessment_history. rewrite read_query_run.
  destruct (db_fault env (w_stmt w)) as [d|]; [by eauto 10|].
  split_and!; [done..|]. apply Forall_forall.
  intros e. apply select_history_sound.
Qed.

(** X2. The rows returned by [get_user_assessment_history] are ordered from
    the most recent to the oldest, no two of them have the same grouping
    columns, and every answer of the user that joins with its response,
    assessment type, severity band, question and option is listed in the
    row of its response. *)
Theorem history_is_ordered_and_complete env uid w :
  match get_user_assessment_history env uid w with
  | (Ok rows, _) =>
      StronglySorted (λ a b, h_created_at b ≤ h_created_at a) rows ∧
      NoDup (history_key <$> rows) ∧
      ∀ ar aty sl rd aq ro,
        ar ∈ assessment_responses (w_db w) → response_user_id ar = uid →
        aty ∈ assessment_types (w_db w) →
        assessment_type_id aty = response_type_id ar →
        sl ∈ severity_levels (w_db w) →
        severity_id sl = response_severity_id ar →
        rd ∈ response_details (w_db w) →
        detail_response_id rd = response_id ar →
        aq ∈ assessment_questions (w_db w) →
        question_id aq = detail_question_id rd →
        ro ∈ response_options (w_db w) →
        option_id ro = selected_option_id rd →
        ∃ e, e ∈ rows ∧
             history_key e = (response_id ar, code aty, title aty,
                              total_score ar, severity_label sl,
                              created_at ar) ∧
             {| dj_question := question_text aq;
                dj_answer := option_text ro;
                dj_value := response_value rd |} ∈ h_response_details e
  | (Raise _, _) => True
  end.
Proof.
  unfold get_user_assessment_history. rewrite read_query_run.
  destruct (db_fault env (w_stmt w)) as [d|]; [done|].
  split_and!.
  - apply select_history_sorted.
  - unfold select_history, order_by_desc.
    rewrite order_by_Permutation, <- list_fmap_compose.
    assert (history_key ∘ history_row
              <$> group_by_key (history_join uid (w_db w))
            = (group_by_key (history_join uid (w_db w))).*1) as ->
      by (apply list_fmap_ext; intros ???; apply history_key_row).
    apply group_by_key_NoDup.
  - intros ar aty sl rd aq ro ????????????.
    destruct (group_by_key_complete (history_join uid (w_db w))
                (response_id ar, code aty, title aty, total_score ar,
                 severity_label sl, created_at ar)
                {| dj_question := question_text aq;
                   dj_answer := option_text ro;
                   dj_value := response_value rd |}) as (ds & Hg & Hd).
    { apply elem_of_history_join_row.
      exists ar, aty, sl, rd, aq, ro. by split_and!. }
    eexists (history_row (_, ds)). split_and!.
    + apply elem_of_select_history. eexists. split; [exact Hg | done].
    + by rewrite history_key_row.
    + done.
Qed.

(** ** Reading the questions and the assessment types *)

Lemma order_by_nil_inv {A} (key : A → Z) l : order_by key l = [] → l = [].
Proof.
  intros H. apply Permutation_nil_r. by rewrite <- H, order_by_Permutation.
Qed.

Lemma elem_of_select_assessment_questions atype db q :
  q ∈ select_assessment_questions atype db ↔
  options_of atype db ≠ [] ∧
  ∃ aq, aq ∈ assessment_questions db ∧ question_type_id aq = atype ∧
        q = question_row db aq.
Proof.
  unfold select_assessment_questions.
  rewrite elem_of_order_by, list_elem_of_bind. split.
  - intros (aq & Hq & [Ht Haq]%list_elem_of_filter).
    destruct (filter _ (response_options db)) as [|o os] eqn:Hf;
      [by apply elem_of_nil in Hq|].
    apply list_elem_of_singleton in Hq as ->. split.
    + unfold options_of. rewrite <- Ht, Hf.
      by intros ?%order_by_nil_inv.
    + exists aq. split_and!; [done..|].
      unfold question_row, options_of. by rewrite Hf.
  - intros (Hne & aq & Haq & Ht & ->). exists aq.
    split; [|by apply list_elem_of_filter].
    unfold question_row, options_of in *. rewrite Ht.
    destruct (filter _ (response_options db)) as [|o os] eqn:Hf; [done|].
    by apply list_elem_of_singleton.
Qed.

(** X3. [get_assessment_questions] returns the questions of the assessment
    type in [question_order]; every row is a question of that type and
    carries the same list of options, which is not empty: all options of
    the type, in [option_order].  A type without options has no rows at
    all, whatever questions it has; otherwise every question of the type
    has its row. *)
Theorem questions_carry_all_options_of_their_type env atype w :
  match get_assessment_questions env atype w with
  | (Ok rows, w') =>
      w_db w' = w_db w ∧ w_session w' = w_session w ∧ w_out w' = w_out w ∧
      StronglySorted
        (λ a b, qr_question_order a ≤ qr_question_order b) rows ∧
      Forall
        (λ q, options_of atype (w_db w) ≠ [] ∧
              qr_options q = Some (options_of atype (w_db w)) ∧
              ∃ aq, aq ∈ assessment_questions (w_db w) ∧
                    question_type_id aq = atype ∧
                    qr_question_id q = question_id aq ∧
                    qr_question_order q = question_order aq ∧
                    qr_question_text q = question_text aq)
        rows ∧
      (options_of atype (w_db w) = [] → rows = []) ∧
      (options_of atype (w_db w) ≠ [] →
       ∀ aq, aq ∈ assessment_questions (w_db w) →
             question_type_id aq = atype →
             question_row (w_db w) aq ∈ rows)
  | (Raise e, w') =>
      w_db w' = w_db w ∧ w_session w' = w_session w ∧ w_out w' = w_out w ∧
      ∃ d, db_fault env (w_stmt w) = Some d ∧ e = Psycopg2Error d
  end.
Proof.
  unfold get_assessment_questions. rewrite read_query_run.
  destruct (db_fault env (w_stmt w)) as [d|]; [by eauto 10|].
  split_and!; [done..| | | |].
  - apply order_by_sorted.
  - apply Forall_forall.
    intros q (Hne & aq & Haq & Ht & ->)%elem_of_select_assessment_questions.
    split; [done|]. split; [by rewrite <- Ht|]. by exists aq.
  - intros Hnil.
    destruct (select_assessment_questions atype (w_db w)) as [|q l] eqn:E;
      [done|].
    assert (q ∈ select_assessment_questions atype (w_db w)) as Hq
      by (rewrite E; by left).
    by apply elem_of_select_assessment_questions in Hq as [? _].
  - intros Hne aq Haq Ht. apply elem_of_select_assessment_questions.
    split; [done|]. by exists aq.
Qed.

(** X4. [get_assessment_types] returns every row of the table of
    assessment types exactly once, in ascending order of their keys, and
    leaves the store, the session and the output alone. *)
Theorem assessment_types_are_listed_in_key_order env w :
  match get_assessment_types env w with
  | (Ok types, w') =>
      w_db w' = w_db w ∧ w_session w' = w_session w ∧ w_out w' = w_out w ∧
      types ≡ₚ assessment_types (w_db w) ∧
      StronglySorted
        (λ a b, assessment_type_id a ≤ assessment_type_id b) types
  | (Raise e, w') =>
      w_db w' = w_db w ∧ w_session w' = w_session w ∧ w_out w' = w_out w ∧
      ∃ d, db_fault env (w_stmt w) = Some d ∧ e = Psycopg2Error d
  end.
Proof.
  unfold get_assessment_types. rewrite read_query_run.
  destruct (db_fault env (w_stmt w)) as [d|]; [by eauto 10|].
  split_and!; [done..| |].
  - apply order_by_Permutation.
  - apply order_by_sorted.
Qed.

(** ** Logging in and registering *)

Lemma head_filter_None {A} (P : A → Prop) `{∀ x, Decision (P x)} l :
  head (filter P l) = None → ∀ x, x ∈ l → ¬ P x.
Proof.
  intros Hh x Hx HP.
  assert (x ∈ filter P l) as Hin by by apply list_elem_of_filter.
  destruct (filter P l); [by apply elem_of_nil in Hin | done].
Qed.

Lemma select_login_Some mail hash db uid adm :
  select_login mail hash db = Some (uid, adm) →
  ∃ u, u ∈ users db ∧ email u = mail ∧ password_hash u = hash ∧
       user_id u = uid ∧ is_admin u = adm.
Proof.
  unfold select_login.
  destruct (head _) as [u|] eqn:Hu; [|done]. intros [= <- <-].
  apply head_filter_Some in Hu as (? & ? & ?). by exists u.
Qed.

Lemma select_login_None mail hash db :
  select_login mail hash db = None →
  ∀ u, u ∈ users db → email u = mail → password_hash u ≠ hash.
Proof.
  unfold select_login.
  destruct (head _) as [u|] eqn:Hu; [done|]. intros _ u Hin Hm Hh.
  by eapply (head_filter_None _ _ Hu u).
Qed.

(** X5. [login_user] returns [True] only for the e-mail address and the
    password digest of a user of the store; the session then holds the key
    of that user and its [is_admin] flag, also as [is_admin_view], and the
    store differs by the login time of that user only.  It returns [False]
    only if no user has that address with that digest, and then changes
    neither the session nor the store.  Otherwise it fails with the error
    of the store, which is unchanged.  It never writes to the page. *)
Theorem login_user_checks_credentials env mail pw w :
  match login_user env mail pw w with
  | (Ok true, w') =>
      ∃ u, u ∈ users (w_db w) ∧ email u = mail ∧
           password_hash u = hash_password env pw ∧
           w_session w' = logged_in (user_id u) (is_admin u) (w_session w) ∧
           w_db w' = (update_last_login (user_id u) (now env) (w_db w)).1 ∧
           w_out w' = w_out w
  | (Ok false, w') =>
      (∀ u, u ∈ users (w_db w) → email u = mail →
            password_hash u ≠ hash_password env pw) ∧
      w_session w' = w_session w ∧ w_db w' = w_db w ∧ w_out w' = w_out w
  | (Raise e, w') =>
      (∃ d, e = Psycopg2Error d) ∧ w_db w' = w_db w ∧ w_out w' = w_out w
  end.
Proof.
  rewrite login_user_run.
  destruct (db_fault env (w_stmt w)) as [d|]; [by eauto|].
  destruct (select_login _ _ _) as [[uid adm]|] eqn:Hhit.
  - apply select_login_Some in Hhit as (u & ? & ? & ? & <- & <-). cbv zeta.
    destruct (db_fault env (S (w_stmt w))) as [d|]; [by eauto|].
    destruct (db_fault env (S (S (w_stmt w)))) as [d|]; [by eauto|].
    by exists u.
  - split; [|done]. by apply select_login_None.
Qed.

Lemma logged_in_current_user uid adm s :
  logged_in uid adm s !! "current_user" = Some (VInt uid).
Proof.
  unfold logged_in. by rewrite !lookup_insert_ne, lookup_insert_eq by done.
Qed.

(** X6. [login_user] writes the session before it records the login time:
    when the credentials are those of a user and the update of the login
    time or its commit fails, the error of the store is raised, the store
    is unchanged, and the session nevertheless holds that user. *)
Theorem login_outlives_failed_timestamp env mail pw w uid adm d :
  db_fault env (w_stmt w) = None →
  select_login mail (hash_password env pw) (w_db w) = Some (uid, adm) →
  db_fault env (S (w_stmt w)) = Some d ∨
  (db_fault env (S (w_stmt w)) = None ∧
   db_fault env (S (S (w_stmt w))) = Some d) →
  ∃ w',
    login_user env mail pw w = (Raise (Psycopg2Error d), w') ∧
    w_db w' = w_db w ∧
    w_session w' = logged_in uid adm (w_session w) ∧
    w_session w' !! "current_user" = Some (VInt uid).
Proof.
  intros H0 Hhit Hd. rewrite login_user_run, H0, Hhit. cbv zeta.
  destruct Hd as [-> | [-> ->]]; eexists;
    (split_and!; [done..|apply logged_in_current_user]).
Qed.

(** X7. [register_user] creates the account as a whole or not at all.  If
    it returns [True] the store has one more user, not an administrator,
    whose password is kept as its digest only, together with the profile
    of that user, and the session holds the new key with [is_admin] unset;
    if it returns [False] (a violated constraint) or fails with another
    error of the store, neither the store nor the session has changed. *)
Theorem register_user_all_or_nothing env mail pw dept town w :
  match register_user env mail pw dept town w with
  | (Ok true, w') =>
      w_db w' = registered_database env (w_db w) mail
                  (hash_password env pw) dept town ∧
      w_session w' =
        signed_up (new_user_id env (users (w_db w))) (w_session w) ∧
      w_out w' = w_out w
  | (Ok false, w') =>
      w_db w' = w_db w ∧ w_session w' = w_session w ∧ w_out w' = w_out w
  | (Raise e, w') =>
      (∃ d, e = Psycopg2Error d ∧ d ≠ IntegrityError) ∧
      w_db w' = w_db w ∧ w_session w' = w_session w ∧ w_out w' = w_out w
  end.
Proof.
  rewrite register_user_run. cbv zeta.
  destruct (db_fault env (w_stmt w)) as [d|].
  { destruct d; simpl; first [done | split; [by eexists | done]]. }
  case_bool_decide; [done|].
  destruct (db_fault env (S (w_stmt w))) as [d|].
  { destruct d; simpl; first [done | split; [by eexists | done]]. }
  destruct (db_fault env (S (S (w_stmt w)))) as [d|]; [|done].
  destruct d; simpl; first [done | split; [by eexists | done]].
Qed.

Lemma select_login_app_new mail hash db u :
  mail ∉ (email <$> users db) → email u = mail → password_hash u = hash →
  select_login mail hash (with_users (users db ++ [u]) db)
  = Some (user_id u, is_admin u).
Proof.
  intros Hnew Hm Hh. unfold select_login. simpl.
  rewrite filter_app.
  assert (filter (λ u0, email u0 = mail ∧ password_hash u0 = hash)
            (users db) = []) as ->.
  { induction (users db) as [|u0 l IH]; [done|].
    rewrite fmap_cons, not_elem_of_cons in Hnew. destruct Hnew as [Hne Hl].
    rewrite filter_cons_False by (intros [? _]; congruence). auto. }
  simpl. rewrite filter_cons_True by done. done.
Qed.

Lemma select_login_app_other mail hash db u :
  mail ∉ (email <$> users db) → password_hash u ≠ hash →
  select_login mail hash (with_users (users db ++ [u]) db) = None.
Proof.
  intros Hnew Hh. unfold select_login. simpl.
  rewrite filter_app.
  assert (filter (λ u0, email u0 = mail ∧ password_hash u0 = hash)
            (users db) = []) as ->.
  { induction (users db) as [|u0 l IH]; [done|].
    rewrite fmap_cons, not_elem_of_cons in Hnew. destruct Hnew as [Hne Hl].
    rewrite filter_cons_False by (intros [? _]; congruence). auto. }
  simpl. by rewrite filter_cons_False by (intros [_ ?]; congruence).
Qed.

(** X8. A user who has registered can log in: after [register_user] has
    returned [True], [login_user] with the same address and password, on
    a store that answers, returns [True] and puts the key assigned at
    registration into the session, without administrator rights; with a
    password of another digest it returns [False]. *)
Theorem registered_user_can_log_in env mail pw dept town w w1 w2 :
  register_user env mail pw dept town w = (Ok true, w1) →
  w_db w2 = w_db w1 →
  (∀ n, db_fault env n = None) →
  (∃ w3,
     login_user env mail pw w2 = (Ok true, w3) ∧
     w_session w3 =
       logged_in (new_user_id env (users (w_db w))) false (w_session w2)) ∧
  ∀ pw',
    hash_password env pw' ≠ hash_password env pw →
    (login_user env mail pw' w2).1 = Ok false.
Proof.
  intros Hreg Hdb Hok. rewrite register_user_run in Hreg. cbv zeta in Hreg.
  rewrite !Hok in Hreg. case_bool_decide as Hnew; [done|].
  injection Hreg as <-.
  assert (∀ hash l db', select_login mail hash (with_user_profiles l db')
                        = select_login mail hash db') as Hprof by done.
  split.
  - rewrite login_user_run, !Hok, Hdb. simpl.
    unfold registered_database. rewrite Hprof.
    rewrite (select_login_app_new _ _ _ (new_user env (w_db w) mail _))
      by done.
    simpl. by eexists.
  - intros pw' Hne. rewrite login_user_run, !Hok, Hdb. simpl.
    unfold registered_database. rewrite Hprof.
    by rewrite select_login_app_other by (simpl; congruence).
Qed.

(** ** Profiles and settings *)

Lemma filter_fmap_preserved {A} (P : A → Prop) `{∀ x, Decision (P x)}
    (f : A → A) (l : list A) :
  (∀ x, P (f x) ↔ P x) → filter P (f <$> l) = f <$> filter P l.
Proof.
  intros Hf. induction l as [|x l IH]; [done|]. rewrite fmap_cons.
  destruct (decide (P x)).
  - rewrite !filter_cons_True by (first [done | by apply Hf]).
    rewrite fmap_cons. by f_equal.
  - by rewrite !filter_cons_False by (first [done | by rewrite Hf]).
Qed.

(** The join of users and profiles after the profile rows have been
    rewritten by a function that keeps their user key. *)
Lemma profile_join_fmap (f : UserProfile → UserProfile)
    (us : list User) (ps : list UserProfile) :
  (∀ p, profile_user_id (f p) = profile_user_id p) →
  (u ← us;
   p ← filter (λ p, profile_user_id p = user_id u) (f <$> ps);
   [(email u, p)])
  = (λ mp, (mp.1, f mp.2)) <$>
      (u ← us;
       p ← filter (λ p, profile_user_id p = user_id u) ps;
       [(email u, p)]).
Proof.
  intros Hf. induction us as [|u us IH]; [done|].
  rewrite !bind_cons, fmap_app, IH. f_equal.
  rewrite filter_fmap_preserved by (intros p; by rewrite Hf).
  induction (filter _ ps) as [|p l IHl]; [done|].
  rewrite fmap_cons, !bind_cons, fmap_app, IHl. done.
Qed.

Lemma select_user_profile_Some uid db mail p :
  select_user_profile uid db = Some (mail, p) →
  p ∈ user_profiles db ∧ profile_user_id p = uid ∧
  ∃ u, u ∈ users db ∧ user_id u = uid ∧ email u = mail.
Proof.
  unfold select_user_profile. intros Hh.
  match type of Hh with head ?l = _ => assert ((mail, p) ∈ l) as Hin end.
  { destruct (mbind _ _); [done|]. injection Hh as ->. by left. }
  apply list_elem_of_bind in Hin as (u & Hin & [Hu ?]%list_elem_of_filter).
  apply list_elem_of_bind in Hin as (p' & Hin & [Hp ?]%list_elem_of_filter).
  apply list_elem_of_singleton in Hin as [= -> ->].
  split; [done|]. split; [congruence|]. by exists u.
Qed.

Lemma select_user_profile_updated uid name a g years dept town t db mail p :
  select_user_profile uid db = Some (mail, p) →
  select_user_profile uid
    (update_profile_row uid name a g years dept town t db).1
  = Some (mail, updated_profile uid name a g years dept town t).
Proof.
  intros Hsel. pose proof Hsel as (_ & Hp & _)%select_user_profile_Some.
  unfold select_user_profile in *. cbn [update_profile_row fst].
  cbn [with_user_profiles users user_profiles].
  rewrite profile_join_fmap by (intros p0; by case_decide).
  destruct (mbind _ _) as [|mp l]; [done|]. injection Hsel as ->.
  simpl. rewrite decide_True by done. by rewrite Hp.
Qed.

(** X9. What [update_user_profile] writes is what [get_user_profile]
    reads: for a user with a profile and a store that answers, the update
    returns normally and the profile read afterwards has the name, age,
    gender, years of service, department and city just written, with the
    e-mail address of the user as before. *)
Theorem profile_update_round_trip env uid name a g years dept town w mail p :
  select_user_profile uid (w_db w) = Some (mail, p) →
  (∀ n, db_fault env n = None) →
  ∃ w1,
    update_user_profile env uid name a g years dept town w = (Ok tt, w1) ∧
    ∀ w2, w_db w2 = w_db w1 →
      (get_user_profile env uid w2).1
      = Ok (mail, updated_profile uid name a g years dept town (now env)).
Proof.
  intros Hsel Hok. rewrite update_user_profile_run, !Hok.
  eexists. split; [done|]. intros w2 Hdb.
  unfold get_user_profile. rewrite read_row_run, Hok, Hdb.
  cbn [w_db closed_world]. by erewrite select_user_profile_updated.
Qed.

(** X10. [update_user_profile] changes nothing but the profile rows of the
    user it is called for: every other table is as before, the profile
    table has the same user keys in the same places, the rows of other
    users are untouched, and a user without a profile row is not given
    one.  It returns normally or fails with the error of the store. *)
Theorem update_user_profile_touches_one_user env uid name a g years dept
    town w :
  match update_user_profile env uid name a g years dept town w with
  | (r, w') =>
      with_user_profiles [] (w_db w') = with_user_profiles [] (w_db w) ∧
      profile_user_id <$> user_profiles (w_db w')
      = profile_user_id <$> user_profiles (w_db w) ∧
      (∀ i p, user_profiles (w_db w) !! i = Some p →
              profile_user_id p ≠ uid →
              user_profiles (w_db w') !! i = Some p) ∧
      ((∀ p, p ∈ user_profiles (w_db w) → profile_user_id p ≠ uid) →
       w_db w' = w_db w) ∧
      w_session w' = w_session w ∧ w_out w' = w_out w ∧
      (r = Ok tt ∨ ∃ d, r = Raise (Psycopg2Error d))
  end.
Proof.
  rewrite update_user_profile_run.
  assert (∀ n d,
            let w' := closed_world (w_db w) (w_session w) (w_out w) n in
            with_user_profiles [] (w_db w') = with_user_profiles [] (w_db w) ∧
            profile_user_id <$> user_profiles (w_db w')
            = profile_user_id <$> user_profiles (w_db w) ∧
            (∀ i p, user_profiles (w_db w) !! i = Some p →
                    profile_user_id p ≠ uid →
                    user_profiles (w_db w') !! i = Some p) ∧
            ((∀ p, p ∈ user_profiles (w_db w) → profile_user_id p ≠ uid) →
             w_db w' = w_db w) ∧
            w_session w' = w_session w ∧ w_out w' = w_out w ∧
            (Raise (Psycopg2Error d) = Ok tt ∨
             ∃ d0, @Raise unit (Psycopg2Error d) = Raise (Psycopg2Error d0)))
    as Hsame.
  { intros n d. simpl. split_and!; eauto. }
  destruct (db_fault env (w_stmt w)) as [d|]; [apply Hsame|].
  destruct (db_fault env (S (w_stmt w))) as [d|]; [apply Hsame|].
  simpl. split_and!; [done| | | |done|done|by left].
  - rewrite <- list_fmap_compose. apply list_fmap_ext.
    intros i p _. simpl. by case_decide.
  - intros i p Hi Hne. rewrite list_lookup_fmap, Hi. simpl.
    by rewrite decide_False.
  - intros Hnone. destruct (w_db w) as [us ps ts qs os ss rs ds]. simpl in *.
    unfold with_user_profiles. simpl. f_equal.
    rewrite <- (list_fmap_id ps) at 2. apply list_fmap_ext.
    intros i p Hi. simpl. rewrite decide_False; [done|].
    apply Hnone. by eapply list_elem_of_lookup_2.
Qed.

Lemma select_user_settings_updated uid hide db adm h :
  select_user_settings uid db = Some (adm, h) →
  select_user_settings uid (update_hide_scores uid hide db).1
  = Some (adm, hide).
Proof.
  unfold select_user_settings. cbn [update_hide_scores fst].
  cbn [with_users users].
  rewrite filter_fmap_preserved by (intros u; by case_decide).
  destruct (filter _ (users db)) as [|u l] eqn:Hf; [done|].
  assert (user_id u = uid) as Hu.
  { assert (u ∈ filter (λ u, user_id u = uid) (users db)) as Hin
      by (rewrite Hf; by left).
    by apply list_elem_of_filter in Hin as [? _]. }
  simpl. intros [= <- <-]. by rewrite decide_True.
Qed.

(** X11. [toggle_admin_mode] sets the [hide_scores] flag that
    [get_user_settings] reads, and nothing else: for a user of the store
    and a store that answers, the settings read after the call are the
    [is_admin] flag as it was and the [hide_scores] flag as given, and no
    user has gained or lost [is_admin], its e-mail address or its
    password. *)
Theorem hide_scores_round_trip env uid hide w adm h :
  select_user_settings uid (w_db w) = Some (adm, h) →
  (∀ n, db_fault env n = None) →
  ∃ w1,
    toggle_admin_mode env uid hide w = (Ok tt, w1) ∧
    (λ u, (user_id u, email u, password_hash u, is_admin u, last_login u))
      <$> users (w_db w1)
    = (λ u, (user_id u, email u, password_hash u, is_admin u, last_login u))
        <$> users (w_db w) ∧
    ∀ w2, w_db w2 = w_db w1 →
      (get_user_settings env uid w2).1 = Ok (adm, hide).
Proof.
  intros Hsel Hok. rewrite toggle_admin_mode_run, !Hok.
  eexists. split; [done|]. split.
  - simpl. rewrite <- list_fmap_compose. apply list_fmap_ext.
    intros i u _. simpl. by case_decide.
  - intros w2 Hdb.
    unfold get_user_settings. rewrite read_row_run, Hok, Hdb.
    cbn [w_db closed_world]. by erewrite select_user_settings_updated.
Qed.

(** * What a run of the script does to the store *)

Global Instance on_db_preorder (R : relation Database) `{!PreOrder R} :
  PreOrder (on_db R).
Proof.
  split.
  - intros w. unfold on_db. reflexivity.
  - intros w1 w2 w3 H1 H2. unfold on_db in *. by etrans.
Qed.

Section Evolution.

Context (R : relation Database) `{!PreOrder R}.

Lemma closed_conn_on_db : closed_conn (on_db R).
Proof. intros ?; intros; unfold on_db; simpl; reflexivity. Qed.
Lemma closed_stmt_on_db : closed_stmt (on_db R).
Proof. intros ?; intros; unfold on_db; simpl; reflexivity. Qed.
Lemma closed_emit_on_db x : closed_emit (on_db R) x.
Proof. intros ?; intros; unfold on_db; simpl; reflexivity. Qed.
Lemma closed_session_on_db : closed_session (on_db R).
Proof. intros ?; intros; unfold on_db; simpl; reflexivity. Qed.

Variable env : Env.
Variable inputs : Inputs.

(** What the statements that write are required to respect. *)
Hypothesis R_login : ∀ db uid t, R db (update_last_login uid t db).1.
Hypothesis R_register :
  ∀ db mail hash dept town,
    R db (registered_database env db mail hash dept town).
Hypothesis R_profile :
  ∀ db uid name a g years dept town t,
    R db (update_profile_row uid name a g years dept town t db).1.
Hypothesis R_save :
  ∀ db uid atype stored score sev,
    R db (saved_database env db uid atype stored score sev).

Lemma init_database_evolves : Step (on_db R) (init_database env).
Proof.
  intros w r w'. rewrite init_database_run.
  destruct (db_fault env (w_stmt w)); intros [= <- <-];
    unfold on_db; simpl; reflexivity.
Qed.

Lemma login_user_evolves mail pw : Step (on_db R) (login_user env mail pw).
Proof.
  intros w r w'. rewrite login_user_run. unfold on_db.
  repeat case_match; intros [= <- <-]; simpl;
    first [reflexivity | apply R_login].
Qed.

Lemma register_user_evolves mail pw dept town :
  Step (on_db R) (register_user env mail pw dept town).
Proof.
  intros w r w'. rewrite register_user_run. unfold on_db. cbv zeta.
  repeat case_match; intros [= <- <-]; simpl;
    first [reflexivity | apply R_register].
Qed.

Lemma update_user_profile_evolves uid name a g years dept town :
  Step (on_db R) (update_user_profile env uid name a g years dept town).
Proof.
  intros w r w'. rewrite update_user_profile_run. unfold on_db.
  repeat case_match; intros [= <- <-]; simpl;
    first [reflexivity | apply R_profile].
Qed.

Lemma save_assessment_response_evolves uid atype responses total :
  Step (on_db R) (save_assessment_response env uid atype responses total).
Proof.
  intros w r w' H. unfold on_db.
  destruct (save_assessment_response_cases env uid atype responses total w)
    as (w'' & _ & [(E & _ & _ & stored & score & sev & _ & _ & _ & Hd)
                  | (E & Hd & _)]);
    rewrite E in H; injection H as <- <-; rewrite Hd;
    [apply R_save | reflexivity].
Qed.

End Evolution.

Global Hint Resolve closed_conn_on_db closed_stmt_on_db closed_emit_on_db
  closed_session_on_db init_database_evolves login_user_evolves
  register_user_evolves update_user_profile_evolves
  save_assessment_response_evolves : step.

Section EvolutionOfMain.

Context (R : relation Database) `{!PreOrder R}.
Variable env : Env.
Variable inputs : Inputs.
Hypothesis R_login : ∀ db uid t, R db (update_last_login uid t db).1.
Hypothesis R_register :
  ∀ db mail hash dept town,
    R db (registered_database env db mail hash dept town).
Hypothesis R_profile :
  ∀ db uid name a g years dept town t,
    R db (update_profile_row uid name a g years dept town t db).1.
Hypothesis R_save :
  ∀ db uid atype stored score sev,
    R db (saved_database env db uid atype stored score sev).

Lemma questionnaire_loop_evolves data responses answered :
  Step (on_db R) (questionnaire_loop inputs data responses answered).
Proof.
  revert responses answered. induction data as [|q data IH];
    intros responses answered; simpl; step_tac; intros; apply IH.
Qed.

Lemma render_questionnaire_evolves atype :
  Step (on_db R) (render_questionnaire env inputs atype).
Proof.
  unfold render_questionnaire, get_assessment_questions.
  step_tac; intros; apply questionnaire_loop_evolves.
Qed.

Lemma render_profile_evolves : Step (on_db R) (render_profile env inputs).
Proof. unfold render_profile, get_user_profile. step_tac. Qed.

Lemma render_dashboard_evolves :
  Step (on_db R) (render_dashboard env inputs).
Proof.
  unfold render_dashboard, get_user_profile, get_user_settings,
    get_user_assessment_history, dashboard_body, dashboard_view,
    render_history_row, render_selected_response, render_response_details.
  step_tac.
Qed.

(** Whatever a run of [main] does to the store respects [R]. *)
Lemma main_evolves : Step (on_db R) (main env inputs).
Proof.
  unfold main, login_or_signup, render_login, render_signup, navigation,
    admin_view_toggle, menu, logout, get_assessment_types.
  step_tac; intros;
    first [apply render_dashboard_evolves | apply render_questionnaire_evolves
          | apply render_profile_evolves].
Qed.

End EvolutionOfMain.

Global Instance same_catalogue_preorder : PreOrder same_catalogue.
Proof.
  split; [by intros ?|]. intros ??? H1 H2. unfold same_catalogue in *.
  congruence.
Qed.

Global Instance responses_kept_preorder : PreOrder responses_kept.
Proof.
  split; [by intros ?|]. intros ??? [H1 H2] [H3 H4].
  split; by etrans.
Qed.

Global Instance accounts_kept_preorder : PreOrder accounts_kept.
Proof.
  split.
  - intros db. split; [|done]. exists []. by rewrite app_nil_r.
  - intros db1 db2 db3 [(new1 & H1 & F1) P1] [(new2 & H2 & F2) P2].
    split; [|by etrans]. exists (new1 ++ new2).
    split; [|by apply Forall_app].
    by rewrite H2, app_assoc, !(fmap_app _ _ new2), H1.
Qed.

(** X12. A run of [main], whatever the session, the widget state and the
    failures of the store, leaves the assessment catalogue as it was: the
    assessment types, the questions, the options and the severity bands
    are never written. *)
Theorem main_never_writes_the_catalogue env inputs w :
  catalogue (w_db (main env inputs w).2) = catalogue (w_db w).
Proof.
  destruct (main env inputs w) as [r w'] eqn:E.
  by apply (main_evolves same_catalogue) in E.
Qed.

(** X13. A run of [main] never deletes or rewrites a stored response or a
    stored answer: the rows of both tables are still there afterwards,
    unchanged and in the same places, possibly followed by new rows. *)
Theorem main_keeps_stored_responses env inputs w :
  assessment_responses (w_db w)
    `prefix_of` assessment_responses (w_db (main env inputs w).2) ∧
  response_details (w_db w)
    `prefix_of` response_details (w_db (main env inputs w).2).
Proof.
  destruct (main env inputs w) as [r w'] eqn:E.
  apply (main_evolves responses_kept) in E; [done|..].
  - by intros.
  - by intros.
  - by intros.
  - intros. split; simpl; by apply prefix_app_r.
Qed.

(** X14. A run of [main] never deletes a user and never changes the key,
    the e-mail address, the password digest, the [is_admin] flag or the
    [hide_scores] flag of one: the users are as before, possibly followed
    by new users, none of them an administrator; and the profile rows
    keep their user keys, possibly followed by new rows. *)
Theorem main_keeps_accounts_and_grants_no_rights env inputs w :
  (∃ new,
     account <$> users (w_db (main env inputs w).2)
     = account <$> (users (w_db w) ++ new) ∧
     Forall (λ u, is_admin u = false ∧ hide_scores u = false) new) ∧
  (profile_user_id <$> user_profiles (w_db w)) `prefix_of`
    (profile_user_id <$> user_profiles (w_db (main env inputs w).2)).
Proof.
  destruct (main env inputs w) as [r w'] eqn:E.
  apply (main_evolves accounts_kept) in E; [done|..].
  - intros db uid t. split; [|done]. exists []. split; [|done].
    rewrite app_nil_r. simpl. rewrite <- list_fmap_compose.
    apply list_fmap_ext. intros i u _. simpl. by case_decide.
  - intros db mail hash dept town. split.
    + exists [new_user env db mail hash]. split; [done|].
      by repeat constructor.
    + simpl. rewrite fmap_app. by apply prefix_app_r.
  - intros db uid name a g years dept town t. split.
    + exists []. by rewrite app_nil_r.
    + simpl. rewrite <- list_fmap_compose.
      erewrite list_fmap_ext; [done|].
      intros i p _. simpl. by case_decide.
  - intros db uid atype stored score sev. split; [|done].
    exists []. by rewrite app_nil_r.
Qed.

(** ** Runs in which no form is submitted *)

(** As [step_tac], with [tac] tried first on every goal. *)
Ltac step_tac_with tac :=
  repeat
    (intros;
     first
       [ tac
       | lazymatch goal with
         | |- PreOrder _ => apply _
         | |- closed_emit _ _ => solve [auto with step]
         | |- closed_conn _ => solve [auto with step]
         | |- closed_stmt _ => solve [auto with step]
         | |- closed_session _ => solve [auto with step]
         | |- Step _ (ret _) => apply Step_ret
         | |- Step _ (raise _) => apply Step_raise
         | |- Step _ rerun => apply Step_rerun
         | |- Step _ (bind _ _) => apply Step_bind
         | |- Step _ (emit _) => apply Step_emit
         | |- Step _ (session_set _ _) => apply Step_session_set
         | |- Step _ (session_del _) => apply Step_session_del
         | |- Step _ (session_lookup _) => apply Step_session_lookup
         | |- Step _ (session_getattr _ _) => apply Step_session_getattr
         | |- Step _ (session_attr _) => apply Step_session_attr
         | |- Step _ session_keys => apply Step_session_keys
         | |- Step _ current_user => apply Step_current_user
         | |- Step _ (subscript _) => apply Step_subscript
         | |- Step _ (list_index _ _) => apply Step_list_index
         | |- closed_commit _ => solve [auto with step]
         | |- Step _ (cur_execute _ _) => apply Step_cur_execute
         | |- Step _ (conn_commit _) => apply Step_conn_commit
         | |- Step _ conn_rollback => apply Step_conn_rollback
         | |- Step _ (try_except _ _ _) => apply Step_try_except
         | |- Step _ (get_db_connection _) => apply Step_get_db_connection
         | |- Step _ (for_each _ _) => apply Step_for_each
         | |- Step _ (match ?x with _ => _ end) => destruct x
         | |- Step _ _ => solve [auto with step]
         end ]).

Section Idle.

Variable env : Env.
Variable inputs : Inputs.
Hypothesis idle : ∀ label, in_form_submit inputs label = false.

Lemma render_dashboard_same_db : Step same_db (render_dashboard env inputs).
Proof.
  unfold render_dashboard, get_user_profile, get_user_settings,
    get_user_assessment_history, dashboard_body, dashboard_view,
    render_history_row, render_selected_response, render_response_details.
  step_tac.
Qed.

Lemma main_idle_same_db : Step same_db (main env inputs).
Proof.
  unfold main, login_or_signup, render_login, render_signup, navigation,
    admin_view_toggle, menu, logout, get_assessment_types,
    render_questionnaire, get_assessment_questions, render_profile,
    get_user_profile.
  step_tac_with
    ltac:(first
            [ rewrite idle
            | apply init_database_same_db
            | apply questionnaire_loop_same_db
            | apply render_dashboard_same_db ]).
Qed.

End Idle.

(** X15. A run of [main] in which no form is submitted only reads the
    store: whatever the session, the other widgets and the failures of
    the store, the committed store is the same afterwards. *)
Theorem main_without_submission_only_reads env inputs w :
  (∀ label, in_form_submit inputs label = false) →
  w_db (main env inputs w).2 = w_db w.
Proof.
  intros Hidle. destruct (main env inputs w) as [r w'] eqn:E.
  by apply main_idle_same_db in E.
Qed.

(** * Invariants of a run *)

Section Keeps.

Context (J : Database → gmap string Value → Prop).
Context (X : Exn → Database → gmap string Value → Prop).

Lemma Keeps_ret {A} (a : A) : Keeps J X (ret a).
Proof. by intros w r w' HJ [= <- <-]. Qed.

Lemma Keeps_raise {A} e :
  (∀ db s, J db s → X e db s) → Keeps J X (@raise A e).
Proof. intros HX w r w' HJ [= <- <-]. by apply HX. Qed.

Lemma Keeps_rerun {A} :
  (∀ db s, J db s → X RerunException db s) → Keeps J X (@rerun A).
Proof. apply Keeps_raise. Qed.

(** The rule for [bind], with what is known of the value passed on. *)
Lemma Keeps_bind_val {A B} (Q : A → Prop) (m : App A) (k : A → App B) :
  Keeps J X m →
  (∀ w a w', J (w_db w) (w_session w) → m w = (Ok a, w') → Q a) →
  (∀ a, Q a → Keeps J X (k a)) →
  Keeps J X (bind m k).
Proof.
  intros Hm HQ Hk w r w' HJ H.
  apply bind_inv in H as [(e & E & ->) | (a & w1 & E & H)].
  - by apply (Hm _ _ _ HJ E).
  - eapply (Hk a); [by eapply HQ | | done]. by apply (Hm _ _ _ HJ E).
Qed.

Lemma Keeps_bind {A B} (m : App A) (k : A → App B) :
  Keeps J X m → (∀ a, Keeps J X (k a)) → Keeps J X (bind m k).
Proof.
  intros Hm Hk. apply (Keeps_bind_val (λ _, True)); auto.
Qed.

Lemma Keeps_for_each {A} (l : list A) (body : A → App unit) :
  (∀ x, Keeps J X (body x)) → Keeps J X (for_each l body).
Proof.
  intros Hb. induction l; simpl; [apply Keeps_ret|].
  apply Keeps_bind; auto.
Qed.

Lemma Keeps_emit x : Keeps J X (emit x).
Proof. by intros w r w' HJ [= <- <-]. Qed.

Lemma Keeps_session_lookup k : Keeps J X (session_lookup k).
Proof. by intros w r w' HJ [= <- <-]. Qed.

Lemma Keeps_session_keys : Keeps J X session_keys.
Proof. by intros w r w' HJ [= <- <-]. Qed.

Lemma Keeps_session_getattr k d : Keeps J X (session_getattr k d).
Proof.
  apply Keeps_bind; [apply Keeps_session_lookup | intros; apply Keeps_ret].
Qed.

Lemma Keeps_session_set k v :
  (∀ db s, J db s → J db (<[k := v]> s)) → Keeps J X (session_set k v).
Proof. intros H w r w' HJ [= <- <-]. by apply H. Qed.

Lemma Keeps_session_del k :
  (∀ db s, J db s → J db (delete k s)) → Keeps J X (session_del k).
Proof. intros H w r w' HJ [= <- <-]. by apply H. Qed.

Lemma Keeps_subscript_Some {A} (a : A) : Keeps J X (subscript (Some a)).
Proof. apply Keeps_ret. Qed.

Lemma Keeps_subscript {A} (row : option A) :
  (∀ db s, J db s → X TypeError db s) → Keeps J X (subscript row).
Proof. intros H. destruct row; [apply Keeps_ret | by apply Keeps_raise]. Qed.

Section Reads.

Variable env : Env.
Hypothesis X_store : ∀ d db s, J db s → X (Psycopg2Error d) db s.

Lemma Keeps_read_query {A} (q : Database → A) :
  Keeps J X (get_db_connection (cur_execute env (query q))).
Proof.
  intros w r w' HJ. rewrite read_query_run.
  destruct (db_fault env (w_stmt w)); intros [= <- <-]; simpl; auto.
Qed.

Lemma Keeps_init_database : Keeps J X (init_database env).
Proof.
  intros w r w' HJ. rewrite init_database_run.
  destruct (db_fault env (w_stmt w)); intros [= <- <-]; simpl; auto.
Qed.

(** A row read for a key that [J] guarantees to be there. *)
Lemma Keeps_read_row {A} (q : Database → option A) :
  (∀ db s, J db s → q db = None → X TypeError db s) →
  Keeps J X
    (get_db_connection (row <- cur_execute env (query q) ;; subscript row)).
Proof.
  intros Hq w r w' HJ. rewrite read_row_run.
  destruct (db_fault env (w_stmt w)); [intros [= <- <-]; simpl; auto|].
  destruct (q (w_db w)) eqn:E; intros [= <- <-]; simpl; auto.
Qed.

End Reads.

End Keeps.

(** ** The questionnaire form *)

Lemma dict_get_key {K V} `{EqDecision K} (k : K) (d : list (K * V)) :
  k ∈ dict_keys d → is_Some (dict_get k d).
Proof.
  unfold dict_keys. induction d as [|[k0 v0] d IH]; simpl.
  - by intros ?%elem_of_nil.
  - intros [->|?]%elem_of_cons; case_decide; eauto; done.
Qed.

Lemma dict_get_value {K V} `{EqDecision K} (k : K) (v : V)
    (d : list (K * V)) :
  dict_get k d = Some v → v ∈ dict_values d.
Proof.
  unfold dict_values. induction d as [|[k0 v0] d IH]; simpl; [done|].
  case_decide.
  - intros [= ->]. by left.
  - intros ?. right. auto.
Qed.

Lemma all_false (l : list bool) : false ∈ l → all l = false.
Proof.
  unfold all. induction l as [|b l IH]; simpl.
  - by intros ?%elem_of_nil.
  - intros [<-|?]%elem_of_cons; [done|]. rewrite IH by done.
    by destruct b.
Qed.

Lemma chosen_elem_of {A} (l : list A) i first :
  l ≠ [] → chosen l i first ∈ l.
Proof.
  intros Hl. unfold chosen. destruct (l !! i) as [x|] eqn:E; simpl.
  - by eapply list_elem_of_lookup_2.
  - destruct l; [done|]. by left.
Qed.

Section Form.

Variable inputs : Inputs.

(** The loop over the questions always runs to its end: the lookup of the
    selected option in the dictionary of the options cannot fail. *)
Lemma questionnaire_loop_returns data responses answered w :
  ∃ rs qa w',
    questionnaire_loop inputs data responses answered w = (Ok (rs, qa), w').
Proof.
  revert responses answered w.
  induction data as [|q data IH]; intros responses answered w; simpl.
  - by eexists _, _, _.
  - destruct (qr_options q) as [opts|].
    + rewrite bind_emit. cbv zeta.
      destruct (negb _) eqn:Hans; [|apply IH].
      set (d := foldl _ [] opts) in *.
      destruct (dict_get_key
                  (chosen ("Select an option" :: dict_keys d)
                     (in_question inputs (qr_question_id q))
                     "Select an option") d) as [opt ->]; [|apply IH].
      pose proof (chosen_elem_of ("Select an option" :: dict_keys d)
                    (in_question inputs (qr_question_id q))
                    "Select an option") as Hin.
      apply elem_of_cons in Hin as [Heq|Hin]; [|done..].
      rewrite Heq in Hans. done.
    + rewrite bind_emit. apply IH.
Qed.

Lemma questionnaire_loop_same_state data responses answered :
  Step (λ w w', w_db w' = w_db w ∧ w_session w' = w_session w)
    (questionnaire_loop inputs data responses answered).
Proof.
  assert (PreOrder (λ w w' : World,
            w_db w' = w_db w ∧ w_session w' = w_session w)) as HP.
  { split; [by intros ?|]. intros ??? [??] [??]. split; congruence. }
  revert responses answered. induction data as [|q data IH];
    intros responses answered; simpl.
  - by apply Step_ret.
  - destruct (qr_options q).
    + apply Step_bind; [done | by apply Step_emit | intros _].
      destruct (negb _); [|apply IH].
      destruct (dict_get _ _); [apply IH | by apply Step_raise].
    + apply Step_bind; [done | by apply Step_emit | intros; apply IH].
Qed.

(** A question whose radio is left at its first choice is recorded as not
    answered. *)
Lemma questionnaire_loop_unanswered data responses answered w rs qa w' k :
  questionnaire_loop inputs data responses answered w = (Ok (rs, qa), w') →
  in_question inputs k = 0%nat →
  (∃ q, q ∈ data ∧ qr_question_id q = k ∧ is_Some (qr_options q)) ∨
  dict_get k answered = Some false →
  dict_get k qa = Some false.
Proof.
  intros H Hk. revert responses answered w H.
  induction data as [|q data IH]; intros responses answered w; simpl.
  - intros [= <- <- <-] [(q & ?%elem_of_nil & _)|?]; done.
  - destruct (qr_options q) as [opts|] eqn:Hopts.
    + rewrite bind_emit. cbv zeta. intros H Hcase.
      set (d := foldl _ [] opts) in *.
      set (response := chosen _ _ _) in *.
      assert (qr_question_id q = k → response = "Select an option") as Hrad.
      { intros Hq. unfold response, chosen. by rewrite Hq, Hk. }
      assert (dict_get k
                (dict_set (qr_question_id q)
                   (negb (String.eqb response "Select an option")) answered)
              = Some false ∨
              ∃ q', q' ∈ data ∧ qr_question_id q' = k ∧
                    is_Some (qr_options q')) as Hnext.
      { rewrite dict_get_set. case_decide as Hq.
        - left. by rewrite Hrad.
        - destruct Hcase as [(q' & [->|Hin]%elem_of_cons & Hid & Hs)|Hd];
            [done | right; by exists q' | by left]. }
      destruct (negb _) eqn:Hans.
      * destruct (dict_get response d); [|done].
        eapply IH; [exact H|]. destruct Hnext; [by right | by left].
      * eapply IH; [exact H|]. destruct Hnext; [by right | by left].
    + rewrite bind_emit. intros H Hcase. eapply IH; [exact H|].
      destruct Hcase as [(q' & [->|Hin]%elem_of_cons & Hid & Hs)|Hd];
        [|left; by exists q' | by right].
      rewrite Hopts in Hs. by destruct Hs.
Qed.

(** For rows that all come with options, the error shown for a question
    without options is not emitted. *)
Lemma questionnaire_loop_no_options_error data responses answered :
  Forall (λ q, is_Some (qr_options q)) data →
  Step (no_new is_no_options_error)
    (questionnaire_loop inputs data responses answered).
Proof.
  intros Hdata. revert responses answered.
  induction Hdata as [|q data [opts Hq] _ IH]; intros responses answered;
    simpl.
  - apply Step_ret; apply _.
  - rewrite Hq. apply Step_bind; [apply _ | |intros _].
    + apply Step_emit, closed_emit_no_new. by intros (? & [=]).
    + destruct (negb _); [|apply IH].
      destruct (dict_get _ _); [apply IH | apply Step_raise; apply _].
Qed.

End Form.

(** Solves goals [Keeps J X m] by following the structure of [m]; [tac] is
    tried first on every goal. *)
Ltac keeps_tac_with tac :=
  repeat
    (intros;
     first
       [ tac
       | lazymatch goal with
         | |- Keeps _ _ (ret _) => apply Keeps_ret
         | |- Keeps _ _ (raise _) => apply Keeps_raise
         | |- Keeps _ _ rerun => apply Keeps_rerun
         | |- Keeps _ _ (bind _ _) => apply Keeps_bind
         | |- Keeps _ _ (emit _) => apply Keeps_emit
         | |- Keeps _ _ (session_set _ _) => apply Keeps_session_set
         | |- Keeps _ _ (session_del _) => apply Keeps_session_del
         | |- Keeps _ _ (session_lookup _) => apply Keeps_session_lookup
         | |- Keeps _ _ (session_getattr _ _) =>
             apply Keeps_session_getattr
         | |- Keeps _ _ session_keys => apply Keeps_session_keys
         | |- Keeps _ _ (subscript _) => apply Keeps_subscript
         | |- Keeps _ _ (for_each _ _) => apply Keeps_for_each
         | |- Keeps _ _ (get_db_connection (cur_execute _ (query _))) =>
             apply Keeps_read_query
         | |- Keeps _ _ (init_database _) => apply Keeps_init_database
         | |- Keeps _ _ (match ?x with _ => _ end) => destruct x
         end ]).

Section KeepsPages.

Context (J : Database → gmap string Value → Prop).
Context (X : Exn → Database → gmap string Value → Prop).
Variable env : Env.
Variable inputs : Inputs.

Lemma Keeps_questionnaire_loop data responses answered :
  Keeps J X (questionnaire_loop inputs data responses answered).
Proof.
  intros w r w' HJ H.
  destruct (questionnaire_loop_returns inputs data responses answered w)
    as (rs & qa & w1 & E).
  rewrite E in H. injection H as <- <-.
  apply questionnaire_loop_same_state in E as [-> ->]. done.
Qed.

Lemma Keeps_save_assessment_response uid atype responses total :
  (∀ db s stored score sev,
     J db s → J (saved_database env db uid atype stored score sev) s) →
  Keeps J X (save_assessment_response env uid atype responses total).
Proof.
  intros Hsave w r w' HJ H.
  destruct (save_assessment_response_cases env uid atype responses total w)
    as (w'' & Hs & [(E & _ & _ & stored & score & sev & _ & _ & _ & Hd)
                   | (E & Hd & _)]);
    rewrite E in H; injection H as <- <-; rewrite Hd, Hs; auto.
Qed.

Lemma Keeps_current_user :
  (∀ db s, J db s → s !! "current_user" = None → X AttributeError db s) →
  (∀ db s v, J db s → s !! "current_user" = Some v →
             (∀ uid, v ≠ VInt uid) → X TypeError db s) →
  Keeps J X current_user.
Proof.
  intros HA HT w r w' HJ. unfold current_user, session_attr.
  rewrite bind_bind_session_lookup.
  destruct (w_session w !! "current_user") as [v|] eqn:E; simpl.
  - destruct v; intros [= <- <-]; first [done | by eapply HT].
  - intros [= <- <-]. by apply HA.
Qed.

End KeepsPages.

(** What [save_assessment_response] adds to the page is its error. *)
Lemma save_assessment_response_no_new env (P : Widget → Prop) uid atype
    responses total :
  (∀ e, ¬ P (StError [FStr "Error saving assessment: "; FExn e])) →
  Step (no_new P) (save_assessment_response env uid atype responses total).
Proof.
  intros HP w r w' H x Hx.
  destruct (save_assessment_response_cases env uid atype responses total w)
    as (w'' & _ & [(E & Ho & _) | (E & _ & e & Ho)]);
    rewrite E in H; injection H as <- <-; rewrite Ho; [done|].
  intros [?| ->%list_elem_of_singleton]%elem_of_app; [done|].
  by destruct (HP e).
Qed.

(** The rule for [bind] of [Step], with what is known of the value. *)
Lemma Step_bind_val (R : relation World) `{!PreOrder R} {A B}
    (Q : A → Prop) (m : App A) (k : A → App B) :
  Step R m →
  (∀ w a w', m w = (Ok a, w') → Q a) →
  (∀ a, Q a → Step R (k a)) →
  Step R (bind m k).
Proof.
  intros Hm HQ Hk w r w' [(e & E & _) | (a & w1 & E1 & E2)]%bind_inv.
  - by eapply Hm.
  - etrans; [by eapply Hm|]. eapply Hk; [by eapply HQ | done].
Qed.

Lemma select_assessment_questions_options atype db :
  Forall (λ q, is_Some (qr_options q))
    (select_assessment_questions atype db).
Proof.
  apply Forall_forall.
  by intros q (_ & aq & _ & _ & ->)%elem_of_select_assessment_questions.
Qed.

(** X16. Two branches of [render_questionnaire] are never taken.  The rows
    of the question query always come with options, so the error "No
    options found for question" is never shown; and the option selected
    in a radio is always a key of the dictionary built from the options of
    its question, so the page never ends with a [KeyError]. *)
Theorem questionnaire_has_two_dead_branches env inputs atype w :
  match render_questionnaire env inputs atype w with
  | (r, w') =>
      r ≠ Raise KeyError ∧
      ∀ x, is_no_options_error x → x ∈ w_out w' → x ∈ w_out w
  end.
Proof.
  destruct (render_questionnaire env inputs atype w) as [r w'] eqn:E.
  split.
  - assert (Keeps (λ _ _, True) (λ e _ _, e ≠ KeyError)
              (render_questionnaire env inputs atype)) as K.
    { unfold render_questionnaire, get_assessment_questions.
      keeps_tac_with
        ltac:(first [ apply Keeps_questionnaire_loop
                    | apply Keeps_save_assessment_response
                    | apply Keeps_current_user
                    | done ]). }
    intros ->. by apply (K w _ w' I E).
  - assert (Step (no_new is_no_options_error)
              (render_questionnaire env inputs atype)) as K.
    { unfold render_questionnaire.
      apply (Step_bind_val _ (λ data, Forall (λ q, is_Some (qr_options q))
                                        data)).
      - unfold get_assessment_questions. step_tac.
      - intros w0 data w1 ->%read_query_Ok.
        apply select_assessment_questions_options.
      - intros data Hdata.
        step_tac_with
          ltac:(first
                  [ by apply questionnaire_loop_no_options_error
                  | apply save_assessment_response_no_new;
                    by intros ? (? & [=])
                  | apply closed_emit_no_new; by intros (? & [=]) ]). }
    intros x Hx. by apply (K w r w' E).
Qed.

(** ** The runs of the questionnaire page *)

Section QuestionnaireRuns.

Variable env : Env.
Variable inputs : Inputs.

Lemma bind_shown {B} x (k : unit → App B) w :
  bind (emit x) k w = k tt (shown x w).
Proof. done. Qed.

(** [render_questionnaire] up to its form. *)
Lemma render_questionnaire_run atype w :
  render_questionnaire env inputs atype w =
  match db_fault env (w_stmt w) with
  | Some d => (Raise (Psycopg2Error d), after_read w)
  | None =>
      match select_assessment_questions atype (w_db w) with
      | [] => (Ok tt, shown (StError [FStr "Assessment not found"])
                        (after_read w))
      | data =>
          match db_fault env (S (w_stmt w)) with
          | Some d => (Raise (Psycopg2Error d), after_read (after_read w))
          | None =>
              match select_title atype (w_db w) with
              | None => (Raise TypeError, after_read (after_read w))
              | Some title =>
                  questionnaire_form env inputs atype data title
                    (after_read (after_read w))
              end
          end
      end
  end.
Proof.
  unfold render_questionnaire, get_assessment_questions.
  rewrite bind_unfold, read_query_run.
  destruct (db_fault env (w_stmt w)) as [d|]; [done|].
  destruct (select_assessment_questions atype (w_db w)) as [|q data];
    [done|].
  rewrite bind_unfold, read_query_run.
  change (w_stmt (after_read w)) with (S (w_stmt w)).
  destruct (db_fault env (S (w_stmt w))) as [d|]; [done|].
  change (w_db (after_read w)) with (w_db w).
  by destruct (select_title atype (w_db w)).
Qed.

(** The form, once its loop has run. *)
Lemma questionnaire_form_run atype data title w :
  ∃ rs qa w1,
    questionnaire_loop inputs data [] []
      (shown (StForm (KeyQuestionnaireForm atype))
         (shown (StSubheader [FStr title]) w))
    = (Ok (rs, qa), w1) ∧
    w_db w1 = w_db w ∧ w_session w1 = w_session w ∧
    questionnaire_form env inputs atype data title w =
    let w2 := shown (StFormSubmitButton "Submit Assessment") w1 in
    if in_form_submit inputs "Submit Assessment"
    then
      if negb (all (dict_values qa))
      then
        (Ok tt,
         shown (StError
                  [FStr "Please answer all questions before submitting."])
           w2)
      else
        match w_session w !! "current_user" with
        | Some (VInt uid) =>
            match save_assessment_response env uid atype rs (sum_values rs)
                    w2 with
            | (Ok true, w3) =>
                (Raise RerunException,
                 set_session
                   (<["section" := VStr "Dashboard"]> (w_session w3))
                   (shown
                      (StSuccess
                         [FStr "Thank you for completing the assessment!"])
                      w3))
            | (Ok false, w3) => (Ok tt, w3)
            | (Raise e, w3) => (Raise e, w3)
            end
        | Some _ => (Raise TypeError, w2)
        | None => (Raise AttributeError, w2)
        end
    else (Ok tt, w2).
Proof.
  destruct (questionnaire_loop_returns inputs data [] []
              (shown (StForm (KeyQuestionnaireForm atype))
                 (shown (StSubheader [FStr title]) w)))
    as (rs & qa & w1 & E).
  exists rs, qa, w1. split; [done|].
  pose proof (questionnaire_loop_same_state _ _ _ _ _ _ _ E) as [Hd Hs].
  simpl in Hd, Hs. split; [done|]. split; [done|].
  unfold questionnaire_form. rewrite !bind_shown.
  rewrite bind_unfold, E. rewrite bind_shown.
  cbv zeta. destruct (in_form_submit inputs "Submit Assessment"); [|done].
  destruct (negb (all (dict_values qa))); [done|].
  unfold current_user, session_attr. rewrite !bind_unfold.
  unfold session_lookup at 1. cbn [w_session shown emit snd].
  rewrite Hs.
  destruct (w_session w !! "current_user") as [[]|]; try done.
  cbn [ret]. rewrite bind_unfold.
  destruct (save_assessment_response _ _ _ _ _ _) as [[[]|e] w3]; done.
Qed.

End QuestionnaireRuns.

Lemma saved_database_changes env db uid atype stored score sev :
  saved_database env db uid atype stored score sev ≠ db.
Proof.
  intros H. apply (f_equal (λ d, length (assessment_responses d))) in H.
  simpl in H. rewrite length_app in H. simpl in H. lia.
Qed.

Lemma last_shown x w : last (w_out (shown x w)) = Some x.
Proof. simpl. apply last_snoc. Qed.

(** X17. A questionnaire with a question left at "Select an option" is
    never saved: whatever else is selected and whether or not the form is
    submitted, the page leaves the store and the session as they were and
    does not ask for a rerun; if the form was submitted and the page
    returns, the last thing it shows is the request to answer all
    questions. *)
Theorem unanswered_question_blocks_the_save env inputs atype w q r w' :
  q ∈ select_assessment_questions atype (w_db w) →
  in_question inputs (qr_question_id q) = 0%nat →
  render_questionnaire env inputs atype w = (r, w') →
  w_db w' = w_db w ∧ w_session w' = w_session w ∧
  r ≠ Raise RerunException ∧
  (in_form_submit inputs "Submit Assessment" = true → r = Ok tt →
   last (w_out w') =
     Some (StError
             [FStr "Please answer all questions before submitting."])).
Proof.
  intros Hq Hk. rewrite render_questionnaire_run.
  destruct (db_fault env (w_stmt w)) as [d|];
    [by intros [= <- <-]|].
  destruct (select_assessment_questions atype (w_db w)) as [|q0 data] eqn:Hd;
    [by apply elem_of_nil in Hq|].
  rewrite <- Hd in *. clear Hd q0 data.
  destruct (db_fault env (S (w_stmt w))) as [d|];
    [by intros [= <- <-]|].
  destruct (select_title atype (w_db w)) as [title|];
    [|by intros [= <- <-]].
  destruct (questionnaire_form_run env inputs atype
              (select_assessment_questions atype (w_db w)) title
              (after_read (after_read w)))
    as (rs & qa & w1 & E & Hdb & Hs & ->).
  assert (all (dict_values qa) = false) as ->.
  { apply all_false, (dict_get_value (qr_question_id q)).
    eapply questionnaire_loop_unanswered; [exact E | exact Hk |].
    left. exists q. split_and!; [done..|].
    by apply elem_of_select_assessment_questions in Hq
      as (_ & aq & _ & _ & ->). }
  cbv zeta. simpl negb. cbv iota.
  destruct (in_form_submit inputs "Submit Assessment");
    intros [= <- <-]; simpl; split_and!; try done.
  intros _ _. apply last_snoc.
Qed.

(** X18. [render_questionnaire] asks for a rerun exactly when it has saved
    a response.  It has then been submitted, the thank-you message is the
    last thing shown, and the session holds "Dashboard" as the section of
    the next run and is otherwise as before. *)
Theorem saved_questionnaire_requests_the_dashboard env inputs atype w r w' :
  render_questionnaire env inputs atype w = (r, w') →
  (r = Raise RerunException ↔ w_db w' ≠ w_db w) ∧
  (w_db w' ≠ w_db w →
   in_form_submit inputs "Submit Assessment" = true ∧
   w_session w' = <["section" := VStr "Dashboard"]> (w_session w) ∧
   last (w_out w') =
     Some (StSuccess [FStr "Thank you for completing the assessment!"])).
Proof.
  rewrite render_questionnaire_run.
  destruct (db_fault env (w_stmt w)) as [d|];
    [by intros [= <- <-]; split; [split|]|].
  destruct (select_assessment_questions atype (w_db w)) as [|q0 data] eqn:Hd;
    [by intros [= <- <-]; split; [split|]|].
  rewrite <- Hd in *. clear Hd q0 data.
  destruct (db_fault env (S (w_stmt w))) as [d|];
    [by intros [= <- <-]; split; [split|]|].
  destruct (select_title atype (w_db w)) as [title|];
    [|by intros [= <- <-]; split; [split|]].
  destruct (questionnaire_form_run env inputs atype
              (select_assessment_questions atype (w_db w)) title
              (after_read (after_read w)))
    as (rs & qa & w1 & E & Hdb & Hs & ->).
  cbv zeta. simpl in Hdb, Hs.
  destruct (in_form_submit inputs "Submit Assessment");
    [|by intros [= <- <-]; simpl; split; [split|]].
  destruct (negb (all (dict_values qa)));
    [by intros [= <- <-]; simpl; split; [split|]|].
  change (w_session (after_read (after_read w))) with (w_session w).
  destruct (w_session w !! "current_user") as [[| |uid| |]|];
    try (by intros [= <- <-]; simpl; split; [split|]).
  destruct (save_assessment_response_cases env uid atype rs (sum_values rs)
              (shown (StFormSubmitButton "Submit Assessment") w1))
    as (w3 & Hs3 & [(-> & Ho & _ & stored & score & sev & _ & _ & _ & Hd3)
                   | (-> & Hd3 & _)]).
  - intros [= <- <-]. simpl in *. rewrite Hd3, Hdb.
    split; [split; [intros _; apply saved_database_changes | done]|].
    intros _. split; [done|]. split; [by rewrite Hs3, Hs|].
    apply last_snoc.
  - intros [= <- <-]. simpl in *. rewrite Hd3, Hdb.
    by split; [split|].
Qed.

(** * The session during a run *)

Global Instance identity_kept_preorder : PreOrder identity_kept.
Proof.
  split; [by left|]. intros w1 w2 w3 H1 H2 k Hk.
  destruct (H2 k Hk) as [->|]; auto.
Qed.

Lemma closed_conn_identity_kept : closed_conn identity_kept.
Proof. by left. Qed.
Lemma closed_stmt_identity_kept : closed_stmt identity_kept.
Proof. by left. Qed.
Lemma closed_commit_identity_kept : closed_commit identity_kept.
Proof. by left. Qed.
Lemma closed_emit_identity_kept x : closed_emit identity_kept x.
Proof. by left. Qed.

Global Hint Resolve closed_conn_identity_kept closed_stmt_identity_kept
  closed_commit_identity_kept closed_emit_identity_kept : step.

Lemma session_set_identity_kept k v :
  k ≠ "current_user" → k ≠ "is_admin" →
  Step identity_kept (session_set k v).
Proof.
  intros H1 H2 w r w' [= <- <-] k' [-> | ->]; left; simpl;
    by rewrite lookup_insert_ne.
Qed.

Lemma session_del_identity_kept k : Step identity_kept (session_del k).
Proof.
  intros w r w' [= <- <-] k' Hk'. simpl.
  destruct (decide (k = k')) as [->|].
  - right. apply lookup_delete_eq.
  - left. by apply lookup_delete_ne.
Qed.

Section Generic.

Context (R : relation World) `{!PreOrder R}.
Variable env : Env.
Variable inputs : Inputs.
Hypothesis Hconn : closed_conn R.
Hypothesis Hstmt : closed_stmt R.

Lemma Step_adjust_responses responses adjusted :
  Step R (adjust_responses env responses adjusted).
Proof.
  revert adjusted. induction responses as [|[[q o] v] rest IH];
    intros adjusted; simpl.
  - by apply Step_ret.
  - apply Step_bind; [done | by apply Step_cur_execute | intros row].
    apply Step_bind; [done | by apply Step_subscript | intros order].
    case_bool_decide; apply IH.
Qed.

Lemma Step_questionnaire_loop data responses answered :
  (∀ x, closed_emit R x) →
  Step R (questionnaire_loop inputs data responses answered).
Proof.
  intros Hemit. revert responses answered.
  induction data as [|q data IH]; intros responses answered; simpl.
  - by apply Step_ret.
  - destruct (qr_options q).
    + apply Step_bind; [done | by apply Step_emit | intros _].
      destruct (negb _); [|apply IH].
      destruct (dict_get _ _); [apply IH | by apply Step_raise].
    + apply Step_bind; [done | by apply Step_emit | intros; apply IH].
Qed.

End Generic.

Section Identity.

Variable env : Env.
Variable inputs : Inputs.

Lemma navigation_identity_kept :
  Step identity_kept (navigation env inputs).
Proof.
  unfold navigation, admin_view_toggle, menu, logout, get_assessment_types,
    render_dashboard, render_questionnaire, render_profile,
    get_user_profile, get_user_settings, get_user_assessment_history,
    dashboard_body, dashboard_view, render_history_row,
    render_selected_response, render_response_details,
    get_assessment_questions, update_user_profile,
    save_assessment_response, save_transaction.
  step_tac_with
    ltac:(first
            [ apply session_set_identity_kept; done
            | apply session_del_identity_kept
            | apply Step_adjust_responses; auto with step
            | apply Step_questionnaire_loop; auto with step ]).
Qed.

End Identity.

(** X19. A run of [main] for a session that holds a user never puts
    another user or other rights into the session: after the run the
    entries [current_user] and [is_admin] are what they were, or they are
    gone. *)
Theorem logged_in_run_keeps_identity env inputs w k :
  is_Some (w_session w !! "current_user") →
  k = "current_user" ∨ k = "is_admin" →
  w_session (main env inputs w).2 !! k = w_session w !! k ∨
  w_session (main env inputs w).2 !! k = None.
Proof.
  intros [v Hv] Hk. destruct (main env inputs w) as [r w'] eqn:E.
  unfold main in E. rewrite bind_shown, bind_unfold, init_database_run in E.
  change (w_stmt (shown _ w)) with (w_stmt w) in E.
  destruct (db_fault env (w_stmt w)); [injection E as <- <-; by left|].
  rewrite bind_session_lookup in E.
  change (w_session (after_read (shown _ w))) with (w_session w) in E.
  rewrite Hv in E. apply navigation_identity_kept in E.
  apply (E k Hk).
Qed.

(** X20. The block of [main] that shows the "Admin View" checkbox makes the
    session agree with the checkbox: when [is_admin_view] is missing or
    differs from the state of the checkbox it is set to that state and a
    rerun is requested before any page is shown; otherwise the session is
    left as it is.  Either way the entry then has the truth value of the
    checkbox, no other entry has changed and the store is untouched. *)
Theorem admin_view_follows_the_checkbox inputs w :
  match admin_view_toggle inputs w with
  | (r, w') =>
      truthy <$> w_session w' !! "is_admin_view"
      = Some (in_admin_view inputs) ∧
      (r = Ok tt ∧ w_session w' = w_session w ∨
       r = Raise RerunException ∧
       w_session w' =
         <["is_admin_view" := VBool (in_admin_view inputs)]> (w_session w)) ∧
      w_db w' = w_db w
  end.
Proof.
  unfold admin_view_toggle, session_getattr.
  rewrite bind_shown, bind_bind_session_lookup.
  rewrite bind_ret_l, bind_shown. cbv zeta. rewrite bind_session_lookup.
  cbn [w_session shown emit snd].
  destruct (w_session w !! "is_admin_view") as [v|] eqn:Hv.
  - destruct (py_eq (VBool (in_admin_view inputs)) v) eqn:Heq.
    + cbn [negb]. rewrite bind_ret_l. cbn [emit w_session w_db].
      rewrite Hv. split_and!; [|by left|done].
      cbn [fmap option_fmap option_map].
      f_equal.
      destruct v as [|b|z| |]; simpl in Heq; try done.
      * by apply bool_decide_eq_true in Heq.
      * apply Z.eqb_eq in Heq. subst z. by destruct (in_admin_view inputs).
    + cbn [negb]. rewrite !bind_unfold. cbn [session_set rerun raise].
      cbn [w_session w_db set_session].
      rewrite lookup_insert_eq. by split_and!; [|right|].
  - rewrite !bind_unfold. cbn [session_set rerun raise].
    cbn [w_session w_db set_session].
    rewrite lookup_insert_eq. by split_and!; [|right|].
Qed.

(** X21. A section name left in the session overrides the main menu, once:
    the menu behaves as if that section had been selected and the entry
    had not been there. *)
Theorem forced_section_overrides_the_menu env inputs w i name :
  sections !! i = Some name →
  w_session w !! "section" = Some (VStr name) →
  menu env inputs w
  = menu env (with_main_menu i inputs)
      (set_session (delete "section" (w_session w)) w).
Proof.
  intros Hi Hs. unfold menu.
  rewrite !bind_shown. cbv zeta. rewrite !bind_session_lookup.
  cbn [w_session shown emit snd set_session].
  rewrite Hs, lookup_delete_eq. cbn [with_main_menu in_main_menu].
  unfold chosen. rewrite Hi. cbn [default].
  rewrite bind_assoc, (bind_unfold (session_del "section")).
  cbn [session_del]. rewrite !bind_ret_l.
  cbn [w_session w_db w_conn w_out w_stmt set_session].
  reflexivity.
Qed.

(** * Consistent stores and sessions *)

Lemma elem_of_fmap_id_preserved {A} (key : A → Z) (f : A → A) (l : list A) :
  (∀ x, key (f x) = key x) → key <$> (f <$> l) = key <$> l.
Proof.
  intros Hf. rewrite <- list_fmap_compose. apply list_fmap_ext.
  intros i x _. apply Hf.
Qed.

Lemma session_ok_users db db' s :
  (∀ uid, uid ∈ user_id <$> users db → uid ∈ user_id <$> users db') →
  session_ok db s → session_ok db' s.
Proof.
  intros Hsub [H1 H2]. split; [|done].
  destruct (s !! "current_user") as [[]|]; auto.
Qed.

Lemma store_ok_update_last_login uid t db :
  store_ok db → store_ok (update_last_login uid t db).1.
Proof.
  intros (Hu & Hp & Hq). split_and!; [|done..]. simpl.
  apply Forall_fmap. eapply Forall_impl; [exact Hu|].
  intros u Hin. simpl. by case_decide.
Qed.

Lemma users_update_last_login uid t db :
  user_id <$> users (update_last_login uid t db).1 = user_id <$> users db.
Proof.
  simpl. apply elem_of_fmap_id_preserved. intros u. by case_decide.
Qed.

Lemma store_ok_registered env db mail hash dept town :
  store_ok db → store_ok (registered_database env db mail hash dept town).
Proof.
  intros (Hu & Hp & Hq). split_and!; [| |done]; simpl.
  - apply Forall_app. split.
    + eapply Forall_impl; [exact Hu|]. intros u Hin. simpl.
      rewrite fmap_app. apply elem_of_app. by left.
    + constructor; [|constructor]. simpl.
      rewrite fmap_app. apply elem_of_app. right. by left.
  - apply Forall_app. split; [done|].
    constructor; [|constructor]. by left.
Qed.

Lemma users_registered env db mail hash dept town uid :
  uid ∈ user_id <$> users db ∨ uid = new_user_id env (users db) →
  uid ∈ user_id <$> users (registered_database env db mail hash dept town).
Proof.
  simpl. rewrite fmap_app, elem_of_app. intros [?| ->]; [by left|].
  right. by left.
Qed.

Lemma genders_preselected g :
  g ∈ genders →
  (if String.eqb g "" then "Male" else g) ∈ genders.
Proof.
  unfold genders. rewrite !elem_of_cons, elem_of_nil.
  intros [->|[->|[->|[]]]]; simpl; tauto.
Qed.

Lemma store_ok_update_profile uid name a g years dept town t db :
  g ∈ genders →
  store_ok db →
  store_ok (update_profile_row uid name a g years dept town t db).1.
Proof.
  intros Hg (Hu & Hp & Hq). split_and!; [| |done]; simpl.
  - eapply Forall_impl; [exact Hu|]. intros u Hin. simpl.
    rewrite elem_of_fmap_id_preserved; [done|]. intros p. by case_decide.
  - apply Forall_fmap. eapply Forall_impl; [exact Hp|].
    intros p Hin. simpl. case_decide; [|done].
    unfold preselected_gender. simpl. by apply genders_preselected.
Qed.

Lemma store_ok_saved env db uid atype stored score sev :
  store_ok db → store_ok (saved_database env db uid atype stored score sev).
Proof. done. Qed.

Lemma select_user_profile_is_Some uid db :
  store_ok db → uid ∈ user_id <$> users db →
  is_Some (select_user_profile uid db).
Proof.
  intros (Hu & _ & _) (u & -> & Hin)%list_elem_of_fmap.
  rewrite Forall_forall in Hu.
  pose proof (Hu u Hin) as (p & Hp & Hpin)%list_elem_of_fmap.
  unfold select_user_profile.
  assert ((email u, p) ∈
            (u0 ← filter (λ u0, user_id u0 = user_id u) (users db);
             p0 ← filter (λ p0, profile_user_id p0 = user_id u0)
                    (user_profiles db);
             [(email u0, p0)])) as Hjoin.
  { apply list_elem_of_bind. exists u.
    split; [|by apply list_elem_of_filter].
    apply list_elem_of_bind. exists p.
    split; [by left | by apply list_elem_of_filter]. }
  destruct (mbind _ _); [by apply elem_of_nil in Hjoin | by eexists].
Qed.

Lemma select_user_settings_is_Some uid db :
  uid ∈ user_id <$> users db → is_Some (select_user_settings uid db).
Proof.
  intros (u & -> & Hin)%list_elem_of_fmap. unfold select_user_settings.
  assert (u ∈ filter (λ u0, user_id u0 = user_id u) (users db)) as Hf
    by by apply list_elem_of_filter.
  destruct (filter _ _); [by apply elem_of_nil in Hf | by eexists].
Qed.

Lemma select_title_is_Some atype db :
  atype ∈ assessment_type_id <$> assessment_types db →
  is_Some (select_title atype db).
Proof.
  intros (t & -> & Hin)%list_elem_of_fmap. unfold select_title.
  assert (t ∈ filter (λ t0, assessment_type_id t0 = assessment_type_id t)
                (assessment_types db)) as Hf
    by by apply list_elem_of_filter.
  destruct (filter _ _); [by apply elem_of_nil in Hf | by eexists].
Qed.

Lemma select_login_user mail hash db uid adm :
  select_login mail hash db = Some (uid, adm) →
  uid ∈ user_id <$> users db.
Proof.
  intros (u & ? & _ & _ & <- & _)%select_login_Some.
  apply list_elem_of_fmap. by exists u.
Qed.

(** ** The session of a consistent state *)

Lemma consistent_insert db s k v :
  k ≠ "current_user" →
  k ≠ "selected_response" ∨ (∃ r, v = VRow r) →
  consistent db s → consistent db (<[k := v]> s).
Proof.
  intros Hk Hv [Hd [H1 H2]]. split; [done|]. split.
  - by rewrite lookup_insert_ne.
  - destruct (decide (k = "selected_response")) as [->|].
    + rewrite lookup_insert_eq. by destruct Hv as [?|[r ->]].
    + by rewrite lookup_insert_ne.
Qed.

Lemma consistent_delete db s k :
  consistent db s → consistent db (delete k s).
Proof.
  intros [Hd [H1 H2]]. split; [done|]. split.
  - destruct (decide (k = "current_user")) as [->|].
    + by rewrite lookup_delete_eq.
    + by rewrite lookup_delete_ne.
  - destruct (decide (k = "selected_response")) as [->|].
    + by rewrite lookup_delete_eq.
    + by rewrite lookup_delete_ne.
Qed.

Lemma consistent_empty db : store_ok db → consistent db ∅.
Proof. intros Hd. split; [done|]. by split. Qed.

Lemma session_of_insert uid db s k v :
  k ≠ "current_user" →
  k ≠ "selected_response" ∨ (∃ r, v = VRow r) →
  session_of uid db s → session_of uid db (<[k := v]> s).
Proof.
  intros Hk Hv [Hc Hu]. split; [by apply consistent_insert|].
  by rewrite lookup_insert_ne.
Qed.

Lemma session_of_delete uid db s k :
  k ≠ "current_user" →
  session_of uid db s → session_of uid db (delete k s).
Proof.
  intros Hk [Hc Hu]. split; [by apply consistent_delete|].
  by rewrite lookup_delete_ne.
Qed.

Lemma session_of_user uid db s :
  session_of uid db s → uid ∈ user_id <$> users db.
Proof. intros [[_ [H _]] Hu]. by rewrite Hu in H. Qed.

Lemma session_ok_logged_in db s uid adm :
  uid ∈ user_id <$> users db →
  session_ok db s → session_ok db (logged_in uid adm s).
Proof.
  intros Hu [_ H2]. unfold logged_in. split.
  - by rewrite !lookup_insert_ne, lookup_insert_eq by done.
  - by rewrite !lookup_insert_ne by done.
Qed.

Lemma session_ok_signed_up db s uid :
  uid ∈ user_id <$> users db →
  session_ok db s → session_ok db (signed_up uid s).
Proof.
  intros Hu [_ H2]. unfold signed_up. split.
  - by rewrite lookup_insert_ne, lookup_insert_eq by done.
  - by rewrite !lookup_insert_ne by done.
Qed.

Lemma expected_store d : expected (Psycopg2Error d).
Proof. right. by exists d. Qed.

Lemma expected_rerun : expected RerunException.
Proof. by left. Qed.

Section Consistency.

Variable env : Env.
Variable inputs : Inputs.

Lemma Keeps_login_user mail pw :
  Keeps consistent ends_well (login_user env mail pw).
Proof.
  intros w r w' [Hd Hs]. rewrite login_user_run.
  destruct (db_fault env (w_stmt w)) as [d|].
  { intros [= <- <-]. split; [done | apply expected_store]. }
  destruct (select_login _ _ _) as [[uid adm]|] eqn:Hhit;
    [|by intros [= <- <-]].
  apply select_login_user in Hhit. cbv zeta.
  pose proof (session_ok_logged_in _ _ _ adm Hhit Hs) as Hs'.
  destruct (db_fault env (S (w_stmt w))) as [d|].
  { intros [= <- <-]. split; [done | apply expected_store]. }
  destruct (db_fault env (S (S (w_stmt w)))) as [d|].
  { intros [= <- <-]. split; [done | apply expected_store]. }
  intros [= <- <-]. split; [by apply store_ok_update_last_login|].
  eapply session_ok_users; [|exact Hs'].
  intros uid'.
  change (uid' ∈ user_id <$> users (w_db w) →
          uid' ∈ user_id <$>
                   users (update_last_login uid (now env) (w_db w)).1).
  by rewrite users_update_last_login.
Qed.

Lemma Keeps_register_user mail pw dept town :
  Keeps consistent ends_well (register_user env mail pw dept town).
Proof.
  intros w r w' [Hd Hs]. rewrite register_user_run. cbv zeta.
  assert (∀ d n,
            match
              (if is_IntegrityError (Psycopg2Error d)
               then Ok false else Raise (Psycopg2Error d))
            with
            | Ok _ =>
                consistent
                  (w_db (closed_world (w_db w) (w_session w) (w_out w) n))
                  (w_session
                     (closed_world (w_db w) (w_session w) (w_out w) n))
            | Raise e =>
                ends_well e
                  (w_db (closed_world (w_db w) (w_session w) (w_out w) n))
                  (w_session
                     (closed_world (w_db w) (w_session w) (w_out w) n))
            end) as Hcaught.
  { intros [] n; simpl; first [done | split; [done | apply expected_store]]. }
  destruct (db_fault env (w_stmt w)) as [d|].
  { intros [= <- <-]. apply Hcaught. }
  case_bool_decide.
  { intros [= <- <-]. apply (Hcaught IntegrityError). }
  destruct (db_fault env (S (w_stmt w))) as [d|].
  { intros [= <- <-]. apply Hcaught. }
  destruct (db_fault env (S (S (w_stmt w)))) as [d|].
  { intros [= <- <-]. apply Hcaught. }
  intros [= <- <-]. split; [by apply store_ok_registered|].
  apply session_ok_signed_up; [apply users_registered; by right|].
  eapply session_ok_users; [|exact Hs].
  intros uid Huid. apply users_registered. by left.
Qed.

Variable uid : Z.

Lemma Keeps_update_user_profile u name a g years dept town :
  g ∈ genders →
  Keeps (session_of uid) ends_well
    (update_user_profile env u name a g years dept town).
Proof.
  intros Hg w r w' [[Hd Hs] Hu]. rewrite update_user_profile_run.
  destruct (db_fault env (w_stmt w)) as [d|].
  { intros [= <- <-]. split; [done | apply expected_store]. }
  destruct (db_fault env (S (w_stmt w))) as [d|].
  { intros [= <- <-]. split; [done | apply expected_store]. }
  intros [= <- <-]. split; [|done]. split.
  - by apply store_ok_update_profile.
  - by eapply session_ok_users; [|exact Hs].
Qed.

Lemma Keeps_save u atype responses total :
  Keeps (session_of uid) ends_well
    (save_assessment_response env u atype responses total).
Proof.
  apply Keeps_save_assessment_response.
  intros db s stored score sev [[Hd Hs] Hu]. by split.
Qed.

Lemma Keeps_logout : Keeps (session_of uid) ends_well logout.
Proof.
  intros w r w' [[Hd Hs] Hu]. rewrite logout_clears. intros [= <- <-].
  split; [by apply consistent_empty | apply expected_rerun].
Qed.

Lemma Keeps_current_user_of : Keeps (session_of uid) ends_well current_user.
Proof.
  intros w r w' HJ. unfold current_user, session_attr.
  rewrite bind_bind_session_lookup.
  destruct HJ as [Hc Hu]. rewrite Hu. by intros [= <- <-].
Qed.

Lemma current_user_of_val w a w' :
  session_of uid (w_db w) (w_session w) →
  current_user w = (Ok a, w') → a = uid.
Proof.
  intros [_ Hu] [Hv _]%current_user_Ok. congruence.
Qed.

Lemma Keeps_get_user_profile :
  Keeps (session_of uid) ends_well (get_user_profile env uid).
Proof.
  apply Keeps_read_row.
  - intros d db s [Hc _]. split; [done | apply expected_store].
  - intros db s HJ Hnone.
    destruct (select_user_profile_is_Some uid db) as [x Hx];
      [apply HJ | by eapply session_of_user | congruence].
Qed.

Lemma get_user_profile_val w a w' :
  session_of uid (w_db w) (w_session w) →
  get_user_profile env uid w = (Ok a, w') →
  preselected_gender a.2 ∈ genders.
Proof.
  intros [[(_ & Hp & _) _] _] Hrow%read_row_Ok. destruct a as [mail p].
  apply select_user_profile_Some in Hrow as (Hin & _).
  rewrite Forall_forall in Hp. by apply Hp.
Qed.

Lemma Keeps_get_user_settings :
  Keeps (session_of uid) ends_well (get_user_settings env uid).
Proof.
  apply Keeps_read_row.
  - intros d db s [Hc _]. split; [done | apply expected_store].
  - intros db s HJ Hnone.
    destruct (select_user_settings_is_Some uid db) as [x Hx];
      [by eapply session_of_user | congruence].
Qed.

Lemma Keeps_list_index_in (J : Database → gmap string Value → Prop) X l x :
  x ∈ l → Keeps J X (list_index l x).
Proof.
  intros Hin. unfold list_index.
  destruct (list_find_elem_of (λ y, y = x) l x Hin eq_refl) as [[i y] ->].
  apply Keeps_ret.
Qed.

Lemma Keeps_render_selected_response admin :
  Keeps (session_of uid) ends_well (render_selected_response inputs admin).
Proof.
  unfold render_selected_response.
  apply (Keeps_bind_val _ _
           (λ sel, ∀ v, sel = Some v → ∃ r, v = VRow r)).
  - apply Keeps_session_lookup.
  - intros w a w' [[_ [_ H2]] _] [= <- <-] v Hv. rewrite Hv in H2.
    destruct v; try done. by eexists.
  - intros [v|] Hsel; [|apply Keeps_ret].
    destruct (Hsel v eq_refl) as [r ->].
    unfold render_response_details.
    keeps_tac_with
      ltac:(first [ apply session_of_delete; [done | assumption] ]).
Qed.

End Consistency.

(** Solves the goals [Keeps (session_of uid) ends_well m] of the pages. *)
Ltac page_tac env uid :=
  keeps_tac_with
    ltac:(first
            [ lazymatch goal with
              | |- Keeps _ _ (bind current_user _) =>
                  apply (Keeps_bind_val _ _ (λ u, u = uid));
                  [ apply Keeps_current_user_of
                  | apply current_user_of_val
                  | intros ? -> ]
              | |- Keeps _ _ (bind (get_user_profile _ _) _) =>
                  apply (Keeps_bind_val _ _
                           (λ d, preselected_gender d.2 ∈ genders));
                  [ apply Keeps_get_user_profile
                  | apply get_user_profile_val
                  | intros [? ?] ?; cbv beta iota ]
              | |- Keeps _ _ (get_user_settings _ _) =>
                  apply Keeps_get_user_settings
              | |- Keeps _ _ (list_index _ _) =>
                  apply Keeps_list_index_in; assumption
              | |- Keeps _ _ (update_user_profile _ _ _ _ _ _ _ _) =>
                  apply Keeps_update_user_profile;
                  apply chosen_elem_of; discriminate
              | |- Keeps _ _ (save_assessment_response _ _ _ _ _) =>
                  apply Keeps_save
              | |- Keeps _ _ (questionnaire_loop _ _ _ _) =>
                  apply Keeps_questionnaire_loop
              | |- Keeps _ _ (render_selected_response _ _) =>
                  apply Keeps_render_selected_response
              | |- Keeps _ _ logout => apply Keeps_logout
              | H : session_of _ ?db ?s |- ends_well _ ?db ?s =>
                  split;
                  [ apply H
                  | first [apply expected_store | apply expected_rerun] ]
              | |- session_of _ _ (<[_ := _]> _) =>
                  apply session_of_insert;
                  [ done | first [by left | right; by eexists]
                  | assumption ]
              | |- session_of _ _ (delete _ _) =>
                  apply session_of_delete; [done | assumption]
              end ]).

Section ConsistentPages.

Variable env : Env.
Variable inputs : Inputs.
Variable uid : Z.

Lemma Keeps_render_dashboard :
  Keeps (session_of uid) ends_well (render_dashboard env inputs).
Proof.
  unfold render_dashboard, get_user_assessment_history, dashboard_body,
    dashboard_view, render_history_row.
  page_tac env uid.
Qed.

Lemma Keeps_render_profile :
  Keeps (session_of uid) ends_well (render_profile env inputs).
Proof. unfold render_profile. page_tac env uid. Qed.

Lemma Keeps_questionnaire_form atype data title :
  Keeps (session_of uid) ends_well
    (questionnaire_form env inputs atype data title).
Proof. unfold questionnaire_form. page_tac env uid. Qed.

Lemma Keeps_render_questionnaire atype :
  Keeps (session_of uid) ends_well (render_questionnaire env inputs atype).
Proof.
  intros w r w' HJ. rewrite render_questionnaire_run.
  destruct (db_fault env (w_stmt w)) as [d|].
  { intros [= <- <-]. split; [apply HJ | apply expected_store]. }
  destruct (select_assessment_questions atype (w_db w)) as [|q data] eqn:Hd.
  { by intros [= <- <-]. }
  destruct (db_fault env (S (w_stmt w))) as [d|].
  { intros [= <- <-]. split; [apply HJ | apply expected_store]. }
  assert (q ∈ select_assessment_questions atype (w_db w)) as Hq
    by (rewrite Hd; by left).
  apply elem_of_select_assessment_questions in Hq
    as (_ & aq & Haq & Ht & _).
  destruct (select_title_is_Some atype (w_db w)) as [title ->].
  { destruct HJ as [[(_ & _ & Hfk) _] _]. rewrite Forall_forall in Hfk.
    rewrite <- Ht. by apply Hfk. }
  by apply Keeps_questionnaire_form.
Qed.

Lemma Keeps_menu : Keeps (session_of uid) ends_well (menu env inputs).
Proof.
  unfold menu, get_assessment_types.
  page_tac env uid; intros;
    first [ apply Keeps_render_dashboard | apply Keeps_render_questionnaire
          | apply Keeps_render_profile ].
Qed.

Lemma Keeps_navigation :
  Keeps (session_of uid) ends_well (navigation env inputs).
Proof.
  unfold navigation, admin_view_toggle.
  page_tac env uid; intros; apply Keeps_menu.
Qed.

End ConsistentPages.

Section ConsistentLogin.

Variable env : Env.
Variable inputs : Inputs.

Lemma Keeps_login_or_signup :
  Keeps consistent ends_well (login_or_signup env inputs).
Proof.
  unfold login_or_signup, render_login, render_signup.
  keeps_tac_with
    ltac:(first
            [ apply Keeps_login_user
            | apply Keeps_register_user
            | lazymatch goal with
              | H : consistent ?db ?s |- ends_well _ ?db ?s =>
                  split; [exact H | apply expected_rerun]
              end ]).
Qed.

End ConsistentLogin.

(** X22. Consistency is kept by every run, and a run from a consistent
    state ends normally, with the request for a rerun or with an error of
    the store, never with an error of the script's own lookups.  The state
    is consistent when every user of the store has a profile row, every
    profile has no gender or one of those the form offers, every question
    belongs to an assessment type, the [current_user] of the session, if
    any, is the key of a user and the [selected_response], if any, a row
    of the history.  From such a state no subscript of a missing row
    ([TypeError]), no [list.index] of a missing element ([ValueError]), no
    missing session attribute ([AttributeError]) and no missing dictionary
    key ([KeyError]) occurs in [main]. *)
Theorem consistent_run_raises_no_lookup_error env inputs w r w' :
  store_ok (w_db w) →
  session_ok (w_db w) (w_session w) →
  main env inputs w = (r, w') →
  store_ok (w_db w') ∧ session_ok (w_db w') (w_session w') ∧
  ∀ e, r = Raise e → e = RerunException ∨ ∃ d, e = Psycopg2Error d.
Proof.
  intros Hd Hs. unfold main.
  rewrite bind_shown, bind_unfold, init_database_run.
  change (w_stmt (shown _ w)) with (w_stmt w).
  destruct (db_fault env (w_stmt w)) as [d|].
  { intros [= <- <-]. split_and!; [done..|]. intros e [= <-]. right. eauto. }
  rewrite bind_session_lookup.
  change (w_session (after_read (shown _ w))) with (w_session w).
  set (w0 := after_read _).
  assert (w_db w0 = w_db w) as Hd0 by done.
  assert (w_session w0 = w_session w) as Hs0 by done. clearbody w0.
  destruct (w_session w !! "current_user") as [v|] eqn:Hv.
  - assert (∃ uid, v = VInt uid) as [uid ->].
    { destruct Hs as [H1 _]. rewrite Hv in H1. destruct v; try done.
      by eexists. }
    intros H.
    assert (session_of uid (w_db w0) (w_session w0)) as HJ
      by (rewrite Hd0, Hs0; by split).
    pose proof (Keeps_navigation env inputs uid w0 r w' HJ H) as K.
    destruct r as [[]|e].
    + destruct K as [[? ?] _]. split_and!; [done..|]. by intros e.
    + destruct K as [[? ?] He]. split_and!; [done..|]. by intros e' [= <-].
  - intros H.
    assert (consistent (w_db w0) (w_session w0)) as HJ
      by (rewrite Hd0, Hs0; by split).
    pose proof (Keeps_login_or_signup env inputs w0 r w' HJ H) as K.
    destruct r as [[]|e].
    + destruct K as [? ?]. split_and!; [done..|]. by intros e.
    + destruct K as [[? ?] He]. split_and!; [done..|]. by intros e' [= <-].
Qed.

(** ** Stores that are not consistent *)

Lemma bind_current_user {B} (k : Z → App B) w uid :
  w_session w !! "current_user" = Some (VInt uid) →
  bind current_user k w = k uid w.
Proof.
  intros Hu. unfold current_user, session_attr.
  rewrite bind_assoc, bind_bind_session_lookup, Hu.
  by rewrite !bind_ret_l.
Qed.

Lemma select_user_profile_None uid db :
  (∀ p, p ∈ user_profiles db → profile_user_id p ≠ uid) →
  select_user_profile uid db = None.
Proof.
  intros Hnone. destruct (select_user_profile uid db) as [[mail p]|] eqn:E;
    [|done].
  apply select_user_profile_Some in E as (Hin & Hp & _).
  by destruct (Hnone p Hin).
Qed.

(** X23. A profile whose gender is a text that the form does not offer
    breaks the profile page: [render_profile] ends with the [ValueError]
    of [list.index] before the form is complete, whatever has been
    submitted, and the store is left as it was. *)
Theorem unknown_gender_breaks_the_profile_page env inputs w uid mail p :
  w_session w !! "current_user" = Some (VInt uid) →
  db_fault env (w_stmt w) = None →
  select_user_profile uid (w_db w) = Some (mail, p) →
  preselected_gender p ∉ genders →
  (render_profile env inputs w).1 = Raise ValueError ∧
  w_db (render_profile env inputs w).2 = w_db w ∧
  StFormSubmitButton "Update Profile"
    ∉ drop (length (w_out w)) (w_out (render_profile env inputs w).2).
Proof.
  intros Hu H0 Hsel Hg. unfold render_profile.
  rewrite bind_shown, (bind_current_user _ _ uid) by done.
  rewrite bind_unfold. unfold get_user_profile.
  rewrite read_row_run.
  change (w_stmt (shown _ w)) with (w_stmt w).
  change (w_db (shown _ w)) with (w_db w). rewrite H0, Hsel.
  rewrite !bind_shown, bind_unfold.
  unfold list_index.
  assert (list_find (λ y, y = preselected_gender p) genders = None) as Hfind.
  { apply list_find_None, Forall_forall. intros y Hy ->. done. }
  unfold preselected_gender in Hfind. rewrite Hfind.
  cbn [raise fst snd]. split_and!; [done..|].
  cbn [shown emit snd w_out after_read set_stmt set_conn].
  rewrite <- !app_assoc, drop_app_length.
  simpl. rewrite !elem_of_cons, elem_of_nil. intros H.
  repeat destruct H as [H|H]; done.
Qed.

(** X24. A user without a profile row can open neither the dashboard nor
    the profile page: both read the profile first and end with the
    [TypeError] of converting a missing row. *)
Theorem user_without_profile_cannot_open_pages env inputs w uid :
  w_session w !! "current_user" = Some (VInt uid) →
  db_fault env (w_stmt w) = None →
  (∀ p, p ∈ user_profiles (w_db w) → profile_user_id p ≠ uid) →
  (render_dashboard env inputs w).1 = Raise TypeError ∧
  (render_profile env inputs w).1 = Raise TypeError.
Proof.
  intros Hu H0 Hnone%select_user_profile_None. split.
  - unfold render_dashboard. rewrite (bind_current_user _ _ uid) by done.
    rewrite bind_unfold. unfold get_user_profile.
    by rewrite read_row_run, H0, Hnone.
  - unfold render_profile.
    rewrite bind_shown, (bind_current_user _ _ uid) by done.
    rewrite bind_unfold. unfold get_user_profile. rewrite read_row_run.
    change (w_stmt (shown _ w)) with (w_stmt w).
    change (w_db (shown _ w)) with (w_db w). by rewrite H0, Hnone.
Qed.

(** X25. [save_assessment_response] for an assessment type that the store
    does not have fails after its first statement: it returns [False], the
    store is unchanged, and the error shown is the [TypeError] of
    subscripting the missing row. *)
Theorem save_for_unknown_type_fails_cleanly env uid atype responses total w :
  db_fault env (w_stmt w) = None →
  select_code atype (w_db w) = None →
  ∃ w',
    save_assessment_response env uid atype responses total w
    = (Ok false, w') ∧
    w_db w' = w_db w ∧ w_stmt w' = S (w_stmt w) ∧
    w_out w' =
      w_out w ++ [StError [FStr "Error saving assessment: "; FExn TypeError]].
Proof.
  intros H0 Hcode.
  cbv [save_assessment_response save_transaction get_db_connection connect
       try_except bind cur_execute statement query].
  simpl. rewrite H0.
  change (w_conn (set_stmt (S (w_stmt w)) (set_conn (w_db w) w)))
    with (w_db w).
  rewrite Hcode. simpl. by eexists.
Qed.

(** * The properties above on the sample store *)

(** The update of the login time of user 1 fails: the error is raised and
    the session holds user 1 all the same. *)
Lemma login_with_failing_update :
  ∃ w',
    login_user Sample.second_statement_fails "alice@example.org" "pw1"
      (Sample.world Sample.db ∅)
    = (Raise (Psycopg2Error OperationalError), w') ∧
    w_db w' = w_db (Sample.world Sample.db ∅) ∧
    w_session w' =
      logged_in 1 false (w_session (Sample.world Sample.db ∅)) ∧
    w_session w' !! "current_user" = Some (VInt 1).
Proof.
  apply (login_outlives_failed_timestamp Sample.second_statement_fails
           "alice@example.org" "pw1" (Sample.world Sample.db ∅) 1 false
           OperationalError).
  - reflexivity.
  - vm_compute. reflexivity.
  - left. reflexivity.
Defined.

(** The third user registers and logs in, and is refused with another
    password. *)
Lemma carol_registers_and_logs_in :
  (∃ w3,
     login_user Sample.env "carol@example.org" "pw3"
       (Sample.world (w_db Sample.carol_registers.2) ∅)
     = (Ok true, w3) ∧
     w_session w3 =
       logged_in
         (new_user_id Sample.env (users (w_db (Sample.world Sample.db ∅))))
         false
         (w_session (Sample.world (w_db Sample.carol_registers.2) ∅))) ∧
  ∀ pw',
    hash_password Sample.env pw' ≠ hash_password Sample.env "pw3" →
    (login_user Sample.env "carol@example.org" pw'
       (Sample.world (w_db Sample.carol_registers.2) ∅)).1
    = Ok false.
Proof.
  apply (registered_user_can_log_in Sample.env "carol@example.org" "pw3"
           "Station 3" "Shelbyville" (Sample.world Sample.db ∅)
           Sample.carol_registers.2
           (Sample.world (w_db Sample.carol_registers.2) ∅)).
  - vm_compute. reflexivity.
  - reflexivity.
  - intros n. reflexivity.
Defined.

(** User 1 changes the profile and reads it back. *)
Lemma alice_updates_her_profile :
  ∃ w1,
    update_user_profile Sample.env 1 "Alice B" 41 "Female" 13 "Station 7"
      "Ogdenville" (Sample.world Sample.db ∅)
    = (Ok tt, w1) ∧
    ∀ w2, w_db w2 = w_db w1 →
      (get_user_profile Sample.env 1 w2).1
      = Ok ("alice@example.org",
            updated_profile 1 "Alice B" 41 "Female" 13 "Station 7"
              "Ogdenville" (now Sample.env)).
Proof.
  apply (profile_update_round_trip Sample.env 1 "Alice B" 41 "Female" 13
           "Station 7" "Ogdenville" (Sample.world Sample.db ∅)
           "alice@example.org" (Sample.profile 1 "Alice")).
  - vm_compute. reflexivity.
  - intros n. reflexivity.
Defined.

(** The scores of user 1 are hidden and the settings read back. *)
Lemma alice_hides_her_scores :
  ∃ w1,
    toggle_admin_mode Sample.env 1 true (Sample.world Sample.db ∅)
    = (Ok tt, w1) ∧
    (λ u, (user_id u, email u, password_hash u, is_admin u, last_login u))
      <$> users (w_db w1)
    = (λ u, (user_id u, email u, password_hash u, is_admin u, last_login u))
        <$> users (w_db (Sample.world Sample.db ∅)) ∧
    ∀ w2, w_db w2 = w_db w1 →
      (get_user_settings Sample.env 1 w2).1 = Ok (false, true).
Proof.
  apply (hide_scores_round_trip Sample.env 1 true
           (Sample.world Sample.db ∅) false false).
  - vm_compute. reflexivity.
  - intros n. reflexivity.
Defined.

(** The administrator looks at the dashboard; nothing is submitted. *)
Lemma visit_without_submission :
  w_db (main Sample.env Sample.dashboard_inputs
          (Sample.world Sample.admin_db Sample.bob_session)).2
  = w_db (Sample.world Sample.admin_db Sample.bob_session).
Proof.
  apply (main_without_submission_only_reads Sample.env
           Sample.dashboard_inputs
           (Sample.world Sample.admin_db Sample.bob_session)).
  intros label. reflexivity.
Defined.

(** The anxiety form is submitted with its third question unanswered. *)
Lemma partial_form_is_refused :
  w_db Sample.partial_run.2
  = w_db (Sample.world Sample.db Sample.alice_session) ∧
  w_session Sample.partial_run.2
  = w_session (Sample.world Sample.db Sample.alice_session) ∧
  Sample.partial_run.1 ≠ Raise RerunException ∧
  (in_form_submit Sample.partial_inputs "Submit Assessment" = true →
   Sample.partial_run.1 = Ok tt →
   last (w_out Sample.partial_run.2) =
     Some (StError
             [FStr "Please answer all questions before submitting."])).
Proof.
  apply (unanswered_question_blocks_the_save Sample.env
           Sample.partial_inputs 2
           (Sample.world Sample.db Sample.alice_session)
           (question_row Sample.db (Sample.question 203 2 3))).
  - apply (list_elem_of_lookup_2 _ 2). vm_compute. reflexivity.
  - reflexivity.
  - vm_compute. reflexivity.
Defined.

(** The anxiety form is submitted with all questions answered. *)
Lemma complete_form_is_saved :
  (Sample.questionnaire_run.1 = Raise RerunException ↔
   w_db Sample.questionnaire_run.2
   ≠ w_db (Sample.world Sample.db Sample.alice_session)) ∧
  (w_db Sample.questionnaire_run.2
   ≠ w_db (Sample.world Sample.db Sample.alice_session) →
   in_form_submit Sample.anxiety_inputs "Submit Assessment" = true ∧
   w_session Sample.questionnaire_run.2 =
     <["section" := VStr "Dashboard"]>
       (w_session (Sample.world Sample.db Sample.alice_session)) ∧
   last (w_out Sample.questionnaire_run.2) =
     Some (StSuccess [FStr "Thank you for completing the assessment!"])).
Proof.
  apply (saved_questionnaire_requests_the_dashboard Sample.env
           Sample.anxiety_inputs 2
           (Sample.world Sample.db Sample.alice_session)).
  vm_compute. reflexivity.
Defined.

(** User 1 visits the dashboard and is still user 1, without rights. *)
Lemma alice_stays_alice :
  w_session (main Sample.env Sample.dashboard_inputs
               (Sample.world Sample.db1 Sample.alice_session)).2
    !! "is_admin"
  = w_session (Sample.world Sample.db1 Sample.alice_session) !! "is_admin" ∨
  w_session (main Sample.env Sample.dashboard_inputs
               (Sample.world Sample.db1 Sample.alice_session)).2
    !! "is_admin"
  = None.
Proof.
  apply (logged_in_run_keeps_identity Sample.env Sample.dashboard_inputs
           (Sample.world Sample.db1 Sample.alice_session) "is_admin").
  - exists (VInt 1). vm_compute. reflexivity.
  - right. reflexivity.
Defined.

(** With "Dashboard" left in the session, the menu shows the dashboard
    although "Assessments" is selected. *)
Lemma forced_dashboard :
  menu Sample.env Sample.anxiety_inputs
    (Sample.world Sample.db1 Sample.alice_session_forced)
  = menu Sample.env (with_main_menu 0 Sample.anxiety_inputs)
      (set_session
         (delete "section"
            (w_session
               (Sample.world Sample.db1 Sample.alice_session_forced)))
         (Sample.world Sample.db1 Sample.alice_session_forced)).
Proof.
  apply (forced_section_overrides_the_menu Sample.env Sample.anxiety_inputs
           (Sample.world Sample.db1 Sample.alice_session_forced) 0
           "Dashboard").
  - reflexivity.
  - vm_compute. reflexivity.
Defined.

(** The sample store and the session of user 1 are consistent, and stay
    so. *)
Lemma alice_visit_is_consistent :
  store_ok (w_db Sample.alice_visit.2) ∧
  session_ok (w_db Sample.alice_visit.2) (w_session Sample.alice_visit.2) ∧
  ∀ e, Sample.alice_visit.1 = Raise e →
       e = RerunException ∨ ∃ d, e = Psycopg2Error d.
Proof.
  apply (consistent_run_raises_no_lookup_error Sample.env
           Sample.dashboard_inputs
           (Sample.world Sample.db1 Sample.alice_session)).
  - split_and!; apply (bool_decide_unpack _); vm_compute; exact I.
  - split; vm_compute; [|exact I]. repeat constructor.
  - vm_compute. reflexivity.
Defined.

(** A gender that the form does not offer. *)
Lemma diverse_breaks_the_profile_page :
  (render_profile Sample.env Sample.dashboard_inputs
     (Sample.world Sample.odd_gender_db Sample.alice_session)).1
  = Raise ValueError ∧
  w_db (render_profile Sample.env Sample.dashboard_inputs
          (Sample.world Sample.odd_gender_db Sample.alice_session)).2
  = w_db (Sample.world Sample.odd_gender_db Sample.alice_session) ∧
  StFormSubmitButton "Update Profile"
    ∉ drop
        (length
           (w_out (Sample.world Sample.odd_gender_db Sample.alice_session)))
        (w_out
           (render_profile Sample.env Sample.dashboard_inputs
              (Sample.world Sample.odd_gender_db Sample.alice_session)).2).
Proof.
  apply (unknown_gender_breaks_the_profile_page Sample.env
           Sample.dashboard_inputs
           (Sample.world Sample.odd_gender_db Sample.alice_session) 1
           "alice@example.org"
           {| profile_user_id := 1; full_name := Some "Alice";
              age := Some 40; gender := Some "Diverse";
              years_service := Some 12; department := Some "Station 9";
              city := Some "Springfield"; updated_at := None |}).
  - vm_compute. reflexivity.
  - reflexivity.
  - vm_compute. reflexivity.
  - apply (bool_decide_unpack _). vm_compute. exact I.
Defined.

(** User 1 without a profile row. *)
Lemma alice_without_profile :
  (render_dashboard Sample.env Sample.dashboard_inputs
     (Sample.world Sample.no_profile_db Sample.alice_session)).1
  = Raise TypeError ∧
  (render_profile Sample.env Sample.dashboard_inputs
     (Sample.world Sample.no_profile_db Sample.alice_session)).1
  = Raise TypeError.
Proof.
  apply (user_without_profile_cannot_open_pages Sample.env
           Sample.dashboard_inputs
           (Sample.world Sample.no_profile_db Sample.alice_session) 1).
  - vm_compute. reflexivity.
  - reflexivity.
  - apply Forall_forall. apply (bool_decide_unpack _). vm_compute. exact I.
Defined.

(** A save for the assessment type 99, which the store does not have. *)
Lemma save_for_type_99 :
  ∃ w',
    save_assessment_response Sample.env 1 99 Sample.anxiety_answers 6
      (Sample.world Sample.db ∅)
    = (Ok false, w') ∧
    w_db w' = w_db (Sample.world Sample.db ∅) ∧
    w_stmt w' = S (w_stmt (Sample.world Sample.db ∅)) ∧
    w_out w' =
      w_out (Sample.world Sample.db ∅) ++
      [StError [FStr "Error saving assessment: "; FExn TypeError]].
Proof.
  apply (save_for_unknown_type_fails_cleanly Sample.env 1 99
           Sample.anxiety_answers 6 (Sample.world Sample.db ∅)).
  - reflexivity.
  - reflexivity.
Defined.

(** * A save and the histories *)

Lemma add_to_group_app k d
    (g0 g : list (HistoryKey * list DetailJson)) :
  k ∉ g0.*1 → add_to_group k d (g0 ++ g) = g0 ++ add_to_group k d g.
Proof.
  induction g0 as [|[k0 ds] g0 IH]; simpl; [done|].
  intros [Hne Hin]%not_elem_of_cons.
  rewrite decide_False by done. by rewrite IH.
Qed.

Lemma foldl_add_to_group_app (rows : list (HistoryKey * DetailJson))
    (g0 g : list (HistoryKey * list DetailJson)) :
  (∀ r, r ∈ rows → r.1 ∉ g0.*1) →
  foldl (λ groups r, add_to_group r.1 r.2 groups) (g0 ++ g) rows
  = g0 ++ foldl (λ groups r, add_to_group r.1 r.2 groups) g rows.
Proof.
  revert g. induction rows as [|r rows IH]; intros g Hr; simpl; [done|].
  rewrite add_to_group_app by (apply Hr; by left).
  apply IH. intros r' Hr'. apply Hr. by right.
Qed.

(** Rows with new keys are grouped after the groups there are. *)
Lemma group_by_key_app rows1 rows2 :
  (∀ r, r ∈ rows2 → r.1 ∉ rows1.*1) →
  group_by_key (rows1 ++ rows2)
  = group_by_key rows1 ++ group_by_key rows2.
Proof.
  intros Hnew. unfold group_by_key. rewrite foldl_app.
  rewrite <- (app_nil_r (foldl _ [] rows1)) at 1.
  apply foldl_add_to_group_app.
  intros r Hr. fold (group_by_key rows1). rewrite group_by_key_keys.
  by apply Hnew.
Qed.

Section SaveAndHistory.

Variable env : Env.
Variable db : Database.
Variables uid atype score sev : Z.
Variable stored : list Response.
Hypothesis fresh :
  ∀ ar, ar ∈ assessment_responses db →
        response_id ar ≠ new_response_id env (assessment_responses db).

(** The answers of a response that was there before the save. *)
Lemma saved_details_of_old ar :
  ar ∈ assessment_responses db →
  filter (λ d, detail_response_id d = response_id ar)
    (response_details (saved_database env db uid atype stored score sev))
  = filter (λ d, detail_response_id d = response_id ar)
      (response_details db).
Proof.
  intros Har. simpl. rewrite filter_app.
  rewrite <- (app_nil_r (filter _ (response_details db))) at 2. f_equal.
  induction stored as [|r rs IH]; [done|]. rewrite fmap_cons.
  rewrite filter_cons_False; [done|].
  simpl. intros Heq. by apply (fresh ar Har).
Qed.

Lemma bind_ext_in {A B} (f g : A → list B) (l : list A) :
  (∀ x, x ∈ l → f x = g x) → l ≫= f = l ≫= g.
Proof.
  induction l as [|x l IH]; intros H; [done|].
  rewrite !bind_cons, (H x) by (by left). f_equal.
  apply IH. intros y Hy. apply H. by right.
Qed.

(** The history join of [other] after the save: the rows there were,
    followed by the rows of the new response if it is a response of
    [other]. *)
Lemma history_join_saved other :
  ∃ new,
    history_join other (saved_database env db uid atype stored score sev)
    = history_join other db ++ new ∧
    (other ≠ uid → new = []) ∧
    ∀ r, r ∈ new →
         r.1.1.1.1.1.1 = new_response_id env (assessment_responses db).
Proof.
  unfold history_join.
  change (assessment_responses
            (saved_database env db uid atype stored score sev))
    with (assessment_responses db
          ++ [header_row env db uid atype score sev]).
  rewrite filter_app, bind_app.
  eexists. split; [f_equal|].
  - apply bind_ext_in. intros ar [_ Har]%list_elem_of_filter.
    rewrite (saved_details_of_old ar Har). reflexivity.
  - split.
    + intros Hne. by rewrite filter_cons_False, filter_nil by done.
    + intros r Hr.
      apply list_elem_of_bind in Hr as (ar & Hr & Har).
      apply list_elem_of_filter in Har as [_ ->%list_elem_of_singleton].
      apply list_elem_of_bind in Hr as (aty & Hr & _).
      apply list_elem_of_bind in Hr as (sl & Hr & _).
      apply list_elem_of_bind in Hr as (rd & Hr & _).
      apply list_elem_of_bind in Hr as (aq & Hr & _).
      apply list_elem_of_bind in Hr as (ro & Hr & _).
      by apply list_elem_of_singleton in Hr as ->.
Qed.

Lemma select_history_saved_other other :
  other ≠ uid →
  select_history other (saved_database env db uid atype stored score sev)
  = select_history other db.
Proof.
  intros Hne. unfold select_history.
  destruct (history_join_saved other) as (new & -> & Hnew & _).
  by rewrite Hnew, app_nil_r.
Qed.

Lemma select_history_saved_old other e :
  e ∈ select_history other db →
  e ∈ select_history other
        (saved_database env db uid atype stored score sev).
Proof.
  rewrite !elem_of_select_history. intros (g & Hg & ->).
  exists g. split; [|done].
  destruct (history_join_saved other) as (new & -> & _ & Hnew).
  rewrite group_by_key_app; [apply elem_of_app; by left|].
  intros r Hr Hold. apply Hnew in Hr.
  apply elem_of_history_join in Hold
    as (ar & aty & sl & rd & aq & ro & Har & _ & _ & _ & _ & _ & _ & _ & _
        & _ & _ & _ & Hk).
  destruct r as [k d]. simpl in Hk, Hr. subst k. simpl in Hr.
  by apply (fresh ar Har).
Qed.

End SaveAndHistory.

(** X26. A save adds to the history of its user only: provided the store
    gives the new response a key that no response has yet, the history of
    every other user is exactly what it was, and every row that the
    history of the saving user had is still in it. *)
Theorem save_adds_to_one_history_only env uid atype responses total w w' :
  (∀ ar, ar ∈ assessment_responses (w_db w) →
         response_id ar ≠ new_response_id env (assessment_responses (w_db w))) →
  save_assessment_response env uid atype responses total w = (Ok true, w') →
  (∀ other, other ≠ uid →
     select_history other (w_db w') = select_history other (w_db w)) ∧
  ∀ other e, e ∈ select_history other (w_db w) →
             e ∈ select_history other (w_db w').
Proof.
  intros Hfresh Hsave.
  apply save_assessment_response_true in Hsave
    as (_ & _ & acode & stored & score & sev & _ & _ & _ & ->).
  split.
  - intros other Hne. by apply select_history_saved_other.
  - intros other e He. by apply select_history_saved_old.
Qed.

(** User 1 saves a second response: the history of user 2 is the same and
    the first response of user 1 is still listed. *)
Lemma second_save_and_the_histories :
  (∀ other, other ≠ 1 →
     select_history other (w_db Sample.second_saved)
     = select_history other (w_db (Sample.world Sample.db1 ∅))) ∧
  ∀ other e, e ∈ select_history other (w_db (Sample.world Sample.db1 ∅)) →
             e ∈ select_history other (w_db Sample.second_saved).
Proof.
  apply (save_adds_to_one_history_only Sample.env 1 1
           Sample.relationship_answers 0 (Sample.world Sample.db1 ∅)
           Sample.second_saved).
  - apply Forall_forall. apply (bool_decide_unpack _). vm_compute. exact I.
  - vm_compute. reflexivity.
Defined.

(** * The login and sign-up forms *)

Lemma signed_up_current_user uid s :
  signed_up uid s !! "current_user" = Some (VInt uid).
Proof.
  unfold signed_up. by rewrite lookup_insert_ne, lookup_insert_eq by done.
Qed.

(** X27. The page shown while nobody is logged in returns normally only if
    it has logged nobody in and written nothing: the session and the store
    are then as before.  It asks for a rerun only after a login or a
    registration that succeeded: the session then holds the key of a user
    of the store and a success message is the last thing shown.  Any other
    exception is an error of the store, which is left unchanged. *)
Theorem auth_forms_rerun_only_after_success env inputs w :
  match login_or_signup env inputs w with
  | (Ok _, w') => w_session w' = w_session w ∧ w_db w' = w_db w
  | (Raise RerunException, w') =>
      ∃ uid text,
        w_session w' !! "current_user" = Some (VInt uid) ∧
        uid ∈ user_id <$> users (w_db w') ∧
        last (w_out w') = Some (StSuccess text)
  | (Raise e, w') => (∃ d, e = Psycopg2Error d) ∧ w_db w' = w_db w
  end.
Proof.
  unfold login_or_signup. rewrite bind_shown. cbv zeta.
  destruct (String.eqb _ "Login").
  - unfold render_login. rewrite !bind_shown.
    destruct (in_form_submit inputs "Login"); [|done].
    rewrite bind_unfold, login_user_run.
    match goal with
    | |- context [db_fault env (w_stmt ?w0)] => set (w1 := w0)
    end.
    assert (w_db w1 = w_db w) as Hd1 by done.
    assert (w_session w1 = w_session w) as Hs1 by done. clearbody w1.
    destruct (db_fault env (w_stmt w1)) as [d|]; [by eauto|].
    destruct (select_login _ _ _) as [[uid adm]|] eqn:Hhit; [|done].
    apply select_login_user in Hhit. cbv zeta.
    destruct (db_fault env (S (w_stmt w1))) as [d|]; [by eauto|].
    destruct (db_fault env (S (S (w_stmt w1)))) as [d|]; [by eauto|].
    rewrite bind_shown. cbn [rerun raise].
    exists uid, [FStr "Login successful!"]. split_and!.
    + apply logged_in_current_user.
    + change (uid ∈ user_id <$>
                      users (update_last_login uid (now env) (w_db w1)).1).
      by rewrite users_update_last_login.
    + apply last_snoc.
  - unfold render_signup. rewrite !bind_shown.
    destruct (in_form_submit inputs "Sign Up"); [|done].
    rewrite bind_unfold, register_user_run. cbv zeta.
    match goal with
    | |- context [db_fault env (w_stmt ?w0)] => set (w1 := w0)
    end.
    assert (w_db w1 = w_db w) as Hd1 by done.
    assert (w_session w1 = w_session w) as Hs1 by done. clearbody w1.
    destruct (db_fault env (w_stmt w1)) as [[]|];
      [simpl; first [by split | by split; [eexists|]]..|].
    case_bool_decide; [simpl; by split|].
    destruct (db_fault env (S (w_stmt w1))) as [[]|];
      [simpl; first [by split | by split; [eexists|]]..|].
    destruct (db_fault env (S (S (w_stmt w1)))) as [[]|];
      [simpl; first [by split | by split; [eexists|]]..|].
    rewrite bind_shown. cbn [rerun raise].
    exists (new_user_id env (users (w_db w1))),
      [FStr "Registration successful!"].
    split_and!.
    + apply signed_up_current_user.
    + apply users_registered. by right.
    + apply last_snoc.
Qed.

(** * Selecting a response on the dashboard *)

Global Instance only_shows_preorder : PreOrder only_shows.
Proof.
  split; [by intros ?|].
  intros w1 w2 w3 (? & ? & H1) (? & ? & H2).
  split_and!; [congruence..|]. auto.
Qed.

Section Returns.

Context (R : relation World) `{!PreOrder R}.

Lemma Returns_ret {A} (a : A) : Returns R (ret a).
Proof. intros w. by exists a, w. Qed.

Lemma Returns_bind {A B} (m : App A) (k : A → App B) :
  Returns R m → (∀ a, Returns R (k a)) → Returns R (bind m k).
Proof.
  intros Hm Hk w. destruct (Hm w) as (a & w1 & E1 & R1).
  destruct (Hk a w1) as (b & w2 & E2 & R2).
  exists b, w2. rewrite bind_unfold, E1. split; [done | by etrans].
Qed.

Lemma Returns_for_each {A} (l : list A) (body : A → App unit) :
  (∀ x, Returns R (body x)) → Returns R (for_each l body).
Proof.
  intros Hb. induction l; simpl; [apply Returns_ret|].
  apply Returns_bind; auto.
Qed.

End Returns.

Lemma Returns_emit x : Returns only_shows (emit x).
Proof.
  intros w. eexists tt, _. split; [done|]. split_and!; [done..|].
  intros y Hy. simpl. apply elem_of_app. by left.
Qed.

Section Selection.

Variable inputs : Inputs.

(** One row of the table in the normal view. *)
Lemma render_history_row_normal e w :
  ∃ w',
    render_history_row inputs false e w = (Ok tt, w') ∧
    w_db w' = w_db w ∧
    w_session w' =
      (if in_view_response inputs (h_response_id e)
       then <["selected_response" := VRow e]> (w_session w)
       else w_session w) ∧
    ∀ x, x ∈ w_out w → x ∈ w_out w'.
Proof.
  unfold render_history_row. rewrite bind_shown, bind_assoc, bind_shown.
  rewrite bind_assoc, bind_shown.
  assert (∀ w0 : World, ∀ x, x ∈ w_out w →
            (∀ y, y ∈ w_out w → y ∈ w_out w0) →
            x ∈ w_out (shown (StColWrite 4
                                [FStrftime "%Y-%m-%d %H:%M"
                                   (h_created_at e)]) w0)) as Hout.
  { intros w0 x Hx H0. simpl. apply elem_of_app. left. by apply H0. }
  destruct (in_view_response inputs (h_response_id e)).
  - rewrite bind_unfold. cbn [session_set]. eexists. split; [done|].
    split_and!; [done..|]. intros x Hx. apply Hout; [done|].
    intros y Hy. simpl. rewrite !elem_of_app. tauto.
  - rewrite bind_ret_l. eexists. split; [done|].
    split_and!; [done..|]. intros x Hx. apply Hout; [done|].
    intros y Hy. simpl. rewrite !elem_of_app. tauto.
Qed.

(** The loop over the table in the normal view. *)
Lemma history_rows_normal history w :
  ∃ w',
    for_each history (render_history_row inputs false) w = (Ok tt, w') ∧
    w_db w' = w_db w ∧
    w_session w' !! "selected_response" =
      match clicked inputs history with
      | Some e => Some (VRow e)
      | None => w_session w !! "selected_response"
      end ∧
    ∀ x, x ∈ w_out w → x ∈ w_out w'.
Proof.
  revert w. induction history as [|e history IH]; intros w; simpl.
  - by exists w.
  - destruct (render_history_row_normal e w) as (w1 & E1 & D1 & S1 & O1).
    destruct (IH w1) as (w2 & E2 & D2 & S2 & O2).
    exists w2. rewrite bind_unfold, E1. split; [done|].
    split_and!; [congruence| |auto].
    rewrite S2. unfold clicked. simpl.
    destruct (in_view_response inputs (h_response_id e)) eqn:Hc.
    + rewrite filter_cons_True by done.
      destruct (filter _ history) as [|e' l] eqn:Hf.
      * simpl. rewrite S1. apply lookup_insert_eq.
      * rewrite last_cons_cons.
        destruct (last (e' :: l)) eqn:Hl; [done|].
        by apply last_None in Hl.
    + rewrite filter_cons_False by (by rewrite Hc). by rewrite S1.
Qed.

(** The details of the selected response in the normal view. *)
Lemma render_response_details_normal e w :
  ∃ w',
    render_response_details inputs false e w = (Ok tt, w') ∧
    w_db w' = w_db w ∧
    w_session w' =
      (if in_button inputs "Close"
       then delete "selected_response" (w_session w)
       else w_session w) ∧
    StSubheader [FStr "Response Details - "; FStr (assessment_title e)]
      ∈ w_out w' ∧
    ∀ x, x ∈ w_out w → x ∈ w_out w'.
Proof.
  unfold render_response_details.
  rewrite !bind_shown, bind_ret_l, bind_shown, bind_unfold.
  match goal with
  | |- context [for_each ?l ?body ?w0] =>
      destruct (Returns_for_each only_shows l body
                  ltac:(intros; apply Returns_bind;
                        [apply _ | apply Returns_emit
                        | intros; apply Returns_emit]) w0)
        as ([] & w2 & -> & D2 & S2 & O2)
  end.
  rewrite bind_shown.
  assert (∀ x, x ∈ w_out w ∨
               x = StSubheader [FStr "Response Details - ";
                                FStr (assessment_title e)] →
               x ∈ w_out (shown (StButton "Close") w2)) as Hout.
  { intros x Hx. simpl. apply elem_of_app. left. apply O2. simpl.
    rewrite !elem_of_app, list_elem_of_singleton. tauto. }
  simpl in D2, S2.
  destruct (in_button inputs "Close").
  - eexists. split; [done|].
    split_and!; [done | simpl; by rewrite S2 | |].
    + apply Hout. by right.
    + intros x Hx. apply Hout. by left.
  - eexists. split; [done|]. split_and!; [done..| |].
    + apply Hout. by right.
    + intros x Hx. apply Hout. by left.
Qed.

End Selection.

(** X28. In the normal view, a click on "View Responses" selects that row
    of the history (the last one clicked) and its details are shown in the
    same run, whatever the session held as selected response before: the
    table and the details are drawn without error, the store is left
    alone, and afterwards the session holds the clicked row as
    [selected_response], unless "Close" has been pressed as well, which
    removes it. *)
Theorem view_responses_selects_the_clicked_row inputs history w e :
  clicked inputs history = Some e →
  ∃ w',
    dashboard_view inputs false history w = (Ok tt, w') ∧
    w_db w' = w_db w ∧
    StSubheader [FStr "Response Details - "; FStr (assessment_title e)]
      ∈ w_out w' ∧
    w_session w' !! "selected_response" =
      (if in_button inputs "Close" then None else Some (VRow e)).
Proof.
  intros Hc. destruct history as [|e0 l]; [done|].
  unfold dashboard_view. cbv iota.
  rewrite bind_ret_l, !bind_shown, bind_assoc, !bind_shown, bind_unfold.
  match goal with
  | |- context [for_each ?h ?body ?w0] =>
      destruct (history_rows_normal inputs h w0)
        as (w1 & -> & D1 & S1 & _)
  end.
  rewrite Hc in S1. unfold render_selected_response.
  rewrite bind_session_lookup, S1.
  rewrite bind_ret_l.
  destruct (render_response_details_normal inputs e w1)
    as (w2 & -> & D2 & S2 & O2 & _).
  exists w2. split; [done|]. split_and!; [by rewrite D2, D1 | done |].
  rewrite S2. destruct (in_button inputs "Close").
  - apply lookup_delete_eq.
  - done.
Qed.

(** User 1 clicks "View Responses" of the only response. *)
Lemma alice_views_her_response :
  ∃ w',
    dashboard_view Sample.viewing_inputs false
      (select_history 1 Sample.db1) (Sample.world Sample.db1 ∅)
    = (Ok tt, w') ∧
    w_db w' = w_db (Sample.world Sample.db1 ∅) ∧
    StSubheader [FStr "Response Details - "; FStr "Anxiety"] ∈ w_out w' ∧
    w_session w' !! "selected_response" =
      (if in_button Sample.viewing_inputs "Close" then None
       else Some (VRow Sample.first_row)).
Proof.
  apply (view_responses_selects_the_clicked_row Sample.viewing_inputs
           (select_history 1 Sample.db1) (Sample.world Sample.db1 ∅)
           Sample.first_row).
  vm_compute. reflexivity.
Defined.

